(** * guilded.py: the real-time event layer

    A shallow embedding of [guilded/gateway.py] and of the cache and request
    parts of [guilded/http.py], with the properties their specification
    states about them.

    Python values are embedded as follows.  A [str] is a [string] of ASCII
    characters; an [int] is a [Z]; a [dict] is an association list in
    insertion order ([PyDict]); an object is a reference into a heap of
    attribute dictionaries, so that two names bound to one object alias;
    an exception is a constructor of [exn] and a computation that may raise
    returns a [result].  Calls to [client.dispatch], [socket.send_str],
    [session.request], [asyncio.sleep] and [log.warning] are recorded as
    events of a trace, in the order in which the code performs them. *)

From Stdlib Require Import ZArith String Ascii DecimalString List Bool Lia Arith QArith.
Import ListNotations.
Local Open Scope string_scope.
Local Open Scope list_scope.
Local Open Scope Z_scope.

Set Implicit Arguments.

(** ** Exceptions and results *)

Inductive exn : Type :=
| KeyError
| IndexError
| TypeError
| AttributeError
| UnboundLocalError
| OverflowError
| RuntimeError
| JSONDecodeError
| HTTPError (status : Z)
| WebSocketClosure
| GuildedException (cause : exn).

(** [Beyond] marks a run that leaves what the embedding describes: a call
    into code that is not modelled, or a script of outside answers that ends
    while the code still waits for one. *)
Inductive result (A : Type) : Type :=
| Ok (a : A)
| Raise (e : exn)
| Beyond.

Arguments Ok {A} a.
Arguments Raise {A} e.
Arguments Beyond {A}.

Definition bind {A B : Type} (m : result A) (f : A -> result B) : result B :=
  match m with
  | Ok a => f a
  | Raise e => Raise e
  | Beyond => Beyond
  end.

Notation "x <- m ;; k" := (bind m (fun x => k))
  (at level 61, m at next level, right associativity).

(** ** Python dictionaries: association lists in insertion order *)

Module PyDict.
Section Dict.
Context {K V : Type}.
Variable eqb : K -> K -> bool.

Definition t := list (K * V).

(** [d.get(k)] *)
Fixpoint get (k : K) (d : t) : option V :=
  match d with
  | [] => None
  | (k', v) :: d' => if eqb k' k then Some v else get k d'
  end.

(** [d[k] = v]: an existing key keeps its place, a new key goes last. *)
Fixpoint set (k : K) (v : V) (d : t) : t :=
  match d with
  | [] => [(k, v)]
  | (k', v') :: d' =>
      if eqb k' k then (k', v) :: d' else (k', v') :: set k v d'
  end.

(** [del d[k]]; [None] stands for [KeyError]. *)
Fixpoint del (k : K) (d : t) : option t :=
  match d with
  | [] => None
  | (k', v') :: d' =>
      if eqb k' k then Some d'
      else match del k d' with
           | Some r => Some ((k', v') :: r)
           | None => None
           end
  end.

(** [list(d.keys())] *)
Definition keys (d : t) : list K := map fst d.

(** [k in d] *)
Definition mem (k : K) (d : t) : bool :=
  match get k d with Some _ => true | None => false end.

End Dict.
End PyDict.

(** ** The bounded message cache ([HTTPClient.add_to_message_cache])

    [_messages] is a dict from message id to message and [_max_messages] an
    [int].  The ids and the messages are those of [guilded/message.py]; the
    cache only uses [message.id], so both types are parameters here. *)

Module MessageCache.
Section Cache.
Context {K M : Type}.
Variable eqb : K -> K -> bool.
Variable id : M -> K.

Definition cache := @PyDict.t K M.

(** The loop
    [while len(self._messages) > self._max_messages:
         del self._messages[list(self._messages.keys())[0]]].
    [fuel] bounds the number of tests of the loop condition; [None] means
    that the bound was reached, which [evict_terminates] excludes. *)
Fixpoint evict (fuel : nat) (max_messages : Z) (d : cache) : option (result cache) :=
  match fuel with
  | O => None
  | S fuel' =>
      if Z.of_nat (length d) >? max_messages then
        match PyDict.keys d with
        | [] => Some (Raise IndexError)
        | k0 :: _ =>
            match PyDict.del eqb k0 d with
            | None => Some (Raise KeyError)
            | Some d' => evict fuel' max_messages d'
            end
        end
      else Some (Ok d)
  end.

Definition add_to_message_cache (max_messages : Z) (d : cache) (message : M)
  : option (result cache) :=
  let d1 := PyDict.set eqb (id message) message d in
  evict (S (length d1)) max_messages d1.

(** Successive insertions, stopping at the first one that raises. *)
Fixpoint add_all (max_messages : Z) (d : cache) (ms : list M) : option (result cache) :=
  match ms with
  | [] => Some (Ok d)
  | m :: ms' =>
      match add_to_message_cache max_messages d m with
      | Some (Ok d') => add_all max_messages d' ms'
      | r => r
      end
  end.

(** The cache that holds exactly the messages [ms], in this order. *)
Definition entries (ms : list M) : cache := map (fun m => (id m, m)) ms.

End Cache.
End MessageCache.

(** ** JSON values and the Python operations on them *)

#[warnings="-register-all"]
Inductive json : Type :=
| JNull
| JBool (b : bool)
| JInt (z : Z)
| JStr (s : string)
| JArr (l : list json)
| JObj (d : list (string * json)).

(** Truth value of a payload value, as [if x:] and [not x] test it. *)
Definition truthy (j : json) : bool :=
  match j with
  | JNull => false
  | JBool b => b
  | JInt z => negb (z =? 0)
  | JStr s => negb (String.eqb s EmptyString)
  | JArr l => match l with [] => false | _ => true end
  | JObj d => match d with [] => false | _ => true end
  end.

Definition dict_get (k : string) (d : list (string * json)) : option json :=
  PyDict.get String.eqb k d.

Definition dict_set (k : string) (v : json) (d : list (string * json))
  : list (string * json) :=
  PyDict.set String.eqb k v d.

(** [x.get(k)]: only a dict has the method; an absent key gives [None]. *)
Definition py_get (x : json) (k : string) : result json :=
  match x with
  | JObj d => Ok (match dict_get k d with Some v => v | None => JNull end)
  | _ => Raise AttributeError
  end.

(** [x[i]] for a list index: negative indices count from the end. *)
Definition list_index (l : list json) (i : Z) : result json :=
  let n := Z.of_nat (length l) in
  let i' := if i <? 0 then i + n else i in
  if (i' <? 0) || (n <=? i') then Raise IndexError
  else match nth_error l (Z.to_nat i') with
       | Some v => Ok v
       | None => Raise IndexError
       end.

Fixpoint string_nth (s : string) (n : nat) : option ascii :=
  match s, n with
  | EmptyString, _ => None
  | String c _, O => Some c
  | String _ s', S n' => string_nth s' n'
  end.

(** [x[i]]: subscription of a dict by a key, of a list or a string by an
    integer ([True] and [False] are the integers 1 and 0). *)
Definition py_getitem (x : json) (i : json) : result json :=
  match x, i with
  | JObj d, JStr k =>
      match dict_get k d with Some v => Ok v | None => Raise KeyError end
  | JObj _, (JArr _ | JObj _) => Raise TypeError
  | JObj _, _ => Raise KeyError
  | JArr l, JInt z => list_index l z
  | JArr l, JBool b => list_index l (if b then 1 else 0)
  | JArr _, _ => Raise TypeError
  | JStr s, (JInt _ | JBool _) =>
      let z := match i with JInt z => z | JBool true => 1 | _ => 0 end in
      let n := Z.of_nat (String.length s) in
      let z' := if z <? 0 then z + n else z in
      if (z' <? 0) || (n <=? z') then Raise IndexError
      else match string_nth s (Z.to_nat z') with
           | Some c => Ok (JStr (String c EmptyString))
           | None => Raise IndexError
           end
  | _, _ => Raise TypeError
  end.

(** ** The frame codec ([GuildedWebSocket._pretty_event], [_full_event_parse]) *)

(** [char.isdigit()] on an ASCII character. *)
Definition isdigit (c : ascii) : bool :=
  let n := N_of_ascii c in ((48 <=? n) && (n <=? 57))%N.

(** [s.isdigit()]: not empty and every character a digit. *)
Fixpoint all_digits (s : string) : bool :=
  match s with
  | EmptyString => true
  | String c s' => isdigit c && all_digits s'
  end.

Definition str_isdigit (s : string) : bool :=
  match s with
  | EmptyString => false
  | _ => all_digits s
  end.

(** [s.replace(c, empty, 1)]: remove the first occurrence of [c]. *)
Fixpoint replace_first (c : ascii) (s : string) : string :=
  match s with
  | EmptyString => EmptyString
  | String a s' => if Ascii.eqb a c then s' else String a (replace_first c s')
  end.

(** The loop of [_full_event_parse]: [chars] is what is left of the string
    the [for] iterates over (the one bound to [payload] when the loop
    starts), [payload] the current value of the variable. *)
Fixpoint strip_loop (chars : string) (payload : string) : string :=
  match chars with
  | EmptyString => payload
  | String char rest =>
      if isdigit char then strip_loop rest (replace_first char payload)
      else payload
  end.

Definition strip_type_code (payload : string) : string :=
  strip_loop payload payload.

(** The leading run of digits removed, as the specification words it. *)
Fixpoint drop_digits (s : string) : string :=
  match s with
  | EmptyString => EmptyString
  | String c s' => if isdigit c then drop_digits s' else s
  end.

Definition first_is_digit (s : string) : bool :=
  match s with
  | String c _ => isdigit c
  | EmptyString => false
  end.

(** The leading run of digits itself. *)
Fixpoint take_digits (s : string) : string :=
  match s with
  | EmptyString => EmptyString
  | String c s' => if isdigit c then String c (take_digits s') else EmptyString
  end.

Definition _pretty_event (payload : json) : result json :=
  payload <- match payload with
             | JArr l =>
                 match nth_error l 1 with
                 | Some p => Ok p
                 | None => Raise IndexError
                 end
             | _ => Ok payload
             end ;;
  ty <- py_get payload "type" ;;
  if negb (truthy ty) then Ok payload
  else
    match payload with
    | JObj d =>
        match PyDict.del String.eqb "type" d with
        | Some rest => Ok (JObj [("type", ty); ("data", JObj rest)])
        | None => Raise KeyError
        end
    | _ => Raise AttributeError
    end.

Section FrameCodec.
(** [json.loads] belongs to the Python library: the codec takes it as a
    parameter.  [Json.loads] below is an instance for running examples. *)
Variable json_loads : string -> result json.

Definition _full_event_parse (payload : string) : result json :=
  data <- json_loads (strip_type_code payload) ;;
  _pretty_event data.

End FrameCodec.

(** ** A fragment of [json.dumps] and [json.loads]

    The two functions are Python's.  This instance covers [null], the
    booleans, integers, strings whose escapes are the two-character ones
    (quote, backslash, slash, b, f, n, r, t), arrays and objects, with the
    separators (comma and colon, each followed by a space) that [json.dumps]
    writes by default.  It serves to run the codec on concrete frames; a text
    outside the fragment (a fraction, an exponent, a u-escape) is rejected
    here. *)

Module Json.
Local Open Scope string_scope.

Definition string_of_Z (z : Z) : string :=
  DecimalString.NilZero.string_of_int (Z.to_int z).

Definition dquote : ascii := ascii_of_N 34.

Fixpoint escape (s : string) : string :=
  match s with
  | EmptyString => EmptyString
  | String c s' =>
      let n := N_of_ascii c in
      if (n =? 34)%N then String "\" (String dquote (escape s'))
      else if (n =? 92)%N then String "\" (String "\" (escape s'))
      else if (n =? 10)%N then String "\" (String "n" (escape s'))
      else if (n =? 13)%N then String "\" (String "r" (escape s'))
      else if (n =? 9)%N then String "\" (String "t" (escape s'))
      else if (n =? 8)%N then String "\" (String "b" (escape s'))
      else if (n =? 12)%N then String "\" (String "f" (escape s'))
      else String c (escape s')
  end.

Definition quote (s : string) : string :=
  String dquote (escape s ++ String dquote EmptyString).

Fixpoint join (sep : string) (l : list string) : string :=
  match l with
  | [] => EmptyString
  | [x] => x
  | x :: l' => x ++ sep ++ join sep l'
  end.

Fixpoint dumps (j : json) : string :=
  match j with
  | JNull => "null"
  | JBool true => "true"
  | JBool false => "false"
  | JInt z => string_of_Z z
  | JStr s => quote s
  | JArr l => "[" ++ join ", " (map dumps l) ++ "]"
  | JObj d =>
      "{" ++ join ", " (map (fun kv => quote (fst kv) ++ ": " ++ dumps (snd kv)) d) ++ "}"
  end.

Definition is_ws (c : ascii) : bool :=
  let n := N_of_ascii c in
  ((n =? 32) || (n =? 9) || (n =? 10) || (n =? 13))%N.

Fixpoint skip_ws (s : string) : string :=
  match s with
  | String c s' => if is_ws c then skip_ws s' else s
  | EmptyString => EmptyString
  end.

(** The characters of a string literal after its opening quote. *)
Fixpoint scan_string (s : string) (acc : string) : option (string * string) :=
  match s with
  | EmptyString => None
  | String c s' =>
      let n := N_of_ascii c in
      if (n =? 34)%N then Some (acc, s')
      else if (n <? 32)%N then None
      else if (n =? 92)%N then
        match s' with
        | String e s'' =>
            let put (x : N) := scan_string s'' (acc ++ String (ascii_of_N x) EmptyString) in
            let m := N_of_ascii e in
            if (m =? 34)%N then put 34%N
            else if (m =? 92)%N then put 92%N
            else if (m =? 47)%N then put 47%N
            else if (m =? 98)%N then put 8%N
            else if (m =? 102)%N then put 12%N
            else if (m =? 110)%N then put 10%N
            else if (m =? 114)%N then put 13%N
            else if (m =? 116)%N then put 9%N
            else None
        | EmptyString => None
        end
      else scan_string s' (acc ++ String c EmptyString)
  end.

Fixpoint scan_digits (s : string) (acc : Z) : Z * string :=
  match s with
  | String c s' =>
      if isdigit c
      then scan_digits s' (10 * acc + Z.of_N (N_of_ascii c - 48))
      else (acc, s)
  | EmptyString => (acc, s)
  end.

(** A number without fraction and exponent; a leading zero stands alone. *)
Definition scan_int (s : string) : option (Z * string) :=
  let after (r : Z * string) :=
    match snd r with
    | String c _ =>
        let n := N_of_ascii c in
        if ((n =? 46) || (n =? 101) || (n =? 69))%N then None else Some r
    | EmptyString => Some r
    end in
  match s with
  | String c s' =>
      if (N_of_ascii c =? 48)%N then after (0, s')
      else if isdigit c then after (scan_digits s 0)
      else None
  | EmptyString => None
  end.

Definition starts (p s : string) : option string :=
  if String.prefix p s
  then Some (String.substring (String.length p) (String.length s - String.length p) s)
  else None.

Section Items.
Variable value : string -> option (json * string).

(** The elements of an array, the text standing at an element. *)
Fixpoint elements (fuel : nat) (s : string) (acc : list json)
  : option (list json * string) :=
  match fuel with
  | O => None
  | S fuel' =>
      match value s with
      | None => None
      | Some (v, s1) =>
          match skip_ws s1 with
          | String c s2 =>
              if (N_of_ascii c =? 44)%N then elements fuel' s2 (acc ++ [v])%list
              else if (N_of_ascii c =? 93)%N then Some ((acc ++ [v])%list, s2)
              else None
          | EmptyString => None
          end
      end
  end.

(** The members of an object, the text standing at a key; a repeated key
    keeps its first place and takes the last value, as a dict does. *)
Fixpoint members (fuel : nat) (s : string) (acc : list (string * json))
  : option (list (string * json) * string) :=
  match fuel with
  | O => None
  | S fuel' =>
      match skip_ws s with
      | String q s0 =>
          if (N_of_ascii q =? 34)%N then
            match scan_string s0 EmptyString with
            | None => None
            | Some (k, s1) =>
                match skip_ws s1 with
                | String c s2 =>
                    if (N_of_ascii c =? 58)%N then
                      match value s2 with
                      | None => None
                      | Some (v, s3) =>
                          match skip_ws s3 with
                          | String c' s4 =>
                              if (N_of_ascii c' =? 44)%N
                              then members fuel' s4 (dict_set k v acc)
                              else if (N_of_ascii c' =? 125)%N
                              then Some (dict_set k v acc, s4)
                              else None
                          | EmptyString => None
                          end
                      end
                    else None
                | EmptyString => None
                end
            end
          else None
      | EmptyString => None
      end
  end.

End Items.

Fixpoint value (fuel : nat) (s : string) : option (json * string) :=
  match fuel with
  | O => None
  | S fuel' =>
      let s := skip_ws s in
      match s with
      | EmptyString => None
      | String c s' =>
          let n := N_of_ascii c in
          if (n =? 34)%N then
            match scan_string s' EmptyString with
            | Some (x, r) => Some (JStr x, r)
            | None => None
            end
          else if (n =? 91)%N then
            match skip_ws s' with
            | String c' r =>
                if (N_of_ascii c' =? 93)%N then Some (JArr [], r)
                else match elements (value fuel') fuel' s' [] with
                     | Some (l, r') => Some (JArr l, r')
                     | None => None
                     end
            | EmptyString => None
            end
          else if (n =? 123)%N then
            match skip_ws s' with
            | String c' r =>
                if (N_of_ascii c' =? 125)%N then Some (JObj [], r)
                else match members (value fuel') fuel' s' [] with
                     | Some (d, r') => Some (JObj d, r')
                     | None => None
                     end
            | EmptyString => None
            end
          else if (n =? 45)%N then
            match scan_int s' with
            | Some (z, r) => Some (JInt (- z), r)
            | None => None
            end
          else if isdigit c then
            match scan_int s with
            | Some (z, r) => Some (JInt z, r)
            | None => None
            end
          else
            match starts "null" s, starts "true" s, starts "false" s with
            | Some r, _, _ => Some (JNull, r)
            | _, Some r, _ => Some (JBool true, r)
            | _, _, Some r => Some (JBool false, r)
            | _, _, _ => None
            end
      end
  end.

(** [json.loads(s)]: one value, then nothing but white space. *)
Definition loads (s : string) : result json :=
  match value (S (String.length s)) s with
  | Some (v, r) =>
      match skip_ws r with
      | EmptyString => Ok v
      | _ => Raise JSONDecodeError
      end
  | None => Raise JSONDecodeError
  end.

End Json.

(** ** Objects, the caches of [HTTPClient] and the handlers' monad *)

Definition ref := nat.

(** A value held by an attribute or passed to [dispatch]: payload data, a
    reference to an object of the library (a [Member], a [Team]) or an
    exception. *)
Inductive value : Type :=
| VJson (j : json)
| VRef (r : ref)
| VExn (e : exn).

(** An object is its attribute dictionary; the heap lists the objects, a
    reference being an index. *)
Definition obj := list (string * value).
Definition heap := list obj.

Fixpoint heap_update (r : ref) (o : obj) (h : heap) : heap :=
  match h, r with
  | [], _ => []
  | _ :: h', O => o :: h'
  | x :: h', S r' => x :: heap_update r' o h'
  end.

(** Dict keys: the hashable values.  [True] and [False] are the keys 1 and 0. *)
Inductive key : Type :=
| KNone
| KInt (z : Z)
| KStr (s : string)
| KRef (r : ref).

Definition key_eqb (a b : key) : bool :=
  match a, b with
  | KNone, KNone => true
  | KInt x, KInt y => x =? y
  | KStr x, KStr y => String.eqb x y
  | KRef x, KRef y => Nat.eqb x y
  | _, _ => false
  end.

Definition hash (v : value) : result key :=
  match v with
  | VJson JNull => Ok KNone
  | VJson (JBool b) => Ok (KInt (if b then 1 else 0))
  | VJson (JInt z) => Ok (KInt z)
  | VJson (JStr s) => Ok (KStr s)
  | VJson (JArr _) => Raise TypeError
  | VJson (JObj _) => Raise TypeError
  | VRef r => Ok (KRef r)
  | VExn _ => Beyond
  end.

Record client_state : Type := {
  objects : heap;
  _max_messages : Z;
  _messages : list (key * ref);
  _teams : list (key * ref);
  _team_members : list (key * list (key * ref))
}.

Definition with_objects (h : heap) (st : client_state) : client_state :=
  {| objects := h; _max_messages := _max_messages st; _messages := _messages st;
     _teams := _teams st; _team_members := _team_members st |}.

Definition with_team_members (tm : list (key * list (key * ref))) (st : client_state)
  : client_state :=
  {| objects := objects st; _max_messages := _max_messages st;
     _messages := _messages st; _teams := _teams st; _team_members := tm |}.

(** What the code does to the outside, in the order in which it does it.
    [Dispatch] keeps the heap of the moment of the call, so that what a
    listener can read through the arguments is part of the event. *)
Inductive event : Type :=
| Dispatch (name : string) (args : list value) (now : heap)
| SendStr (payload : string)
| ThreadStart (interval : Q)
| Submit (payload : string)
| LogWarning (total : Z) (with_stack : bool)
| SocketClose (code : Z).

(** A computation runs on a state [S], may raise, and leaves the events it
    performed; what it did before raising stays done. *)
Definition M (S A : Type) : Type := S -> result A * S * list event.

Definition ret {S A : Type} (a : A) : M S A := fun st => (Ok a, st, []).

Definition lift {S A : Type} (r : result A) : M S A := fun st => (r, st, []).

Definition raise {S A : Type} (e : exn) : M S A := lift (Raise e).

Definition mbind {S A B : Type} (m : M S A) (f : A -> M S B) : M S B :=
  fun st =>
    match m st with
    | (Ok a, st1, tr1) =>
        match f a st1 with
        | (r, st2, tr2) => (r, st2, tr1 ++ tr2)
        end
    | (Raise e, st1, tr1) => (Raise e, st1, tr1)
    | (Beyond, st1, tr1) => (Beyond, st1, tr1)
    end.

Notation "x <-- m ;; k" := (mbind m (fun x => k))
  (at level 61, m at next level, right associativity).
Notation "m ;;; k" := (mbind m (fun _ => k))
  (at level 61, right associativity).

(** The handlers of [WebSocketEventParsers] run on the client state. *)
Definition H (A : Type) : Type := M client_state A.

(** [self.client.dispatch(name, *args)] *)
Definition dispatch (name : string) (args : list value) : H unit :=
  fun st => (Ok tt, st, [Dispatch name args (objects st)]).

(** [o.name] on an object *)
Definition getattr (r : ref) (name : string) : H value :=
  fun st =>
    match nth_error (objects st) r with
    | Some o =>
        match PyDict.get String.eqb name o with
        | Some v => (Ok v, st, [])
        | None => (Raise AttributeError, st, [])
        end
    | None => (Beyond, st, [])
    end.

(** [v.name] on any value: payload data has none of the attributes read here. *)
Definition attr (v : value) (name : string) : H value :=
  match v with
  | VRef r => getattr r name
  | VJson _ => raise AttributeError
  | VExn _ => lift Beyond
  end.

Fixpoint string_rev (s : string) : string :=
  match s with
  | EmptyString => EmptyString
  | String c s' => (string_rev s' ++ String c EmptyString)%string
  end.

(** Names that begin and end with two underscores: [__init__] and the
    attributes every object inherits. *)
Definition dunder (name : string) : bool :=
  String.prefix "__" name && String.prefix "__" (string_rev name).

(** [setattr(o, name, v)], also written [o.name = v]: the name is bound in
    the dict of the object.  Names such as [__class__] and [__dict__] are
    not kept there: what an assignment to them does, an exception for
    most values, is left out of the embedding. *)
Definition setattr (r : ref) (name : string) (v : value) : H unit :=
  if dunder name then lift Beyond
  else
    fun st =>
      match nth_error (objects st) r with
      | Some o =>
          (Ok tt,
           with_objects (heap_update r (PyDict.set String.eqb name v o) (objects st)) st, [])
      | None => (Beyond, st, [])
      end.

(** Allocation of a new object *)
Definition new (o : obj) : H ref :=
  fun st => (Ok (length (objects st)), with_objects (objects st ++ [o]) st, []).

(** [HTTPClient._get_team]: [self._teams.get(id)] *)
Definition _get_team (id : value) : H (option ref) :=
  k <-- lift (hash id) ;;
  fun st => (Ok (PyDict.get key_eqb k (_teams st)), st, []).

(** [HTTPClient._get_team_member]:
    [self._team_members.get(team_id, {}).get(id)] *)
Definition _get_team_member (team_id id : value) : H (option ref) :=
  tk <-- lift (hash team_id) ;;
  k <-- lift (hash id) ;;
  fun st =>
    (Ok (match PyDict.get key_eqb tk (_team_members st) with
         | Some members => PyDict.get key_eqb k members
         | None => None
         end), st, []).

(** [HTTPClient.add_to_member_cache] *)
Definition add_to_member_cache (member : ref) : H unit :=
  team <-- getattr member "team" ;;
  team_id <-- attr team "id" ;;
  tk <-- lift (hash team_id) ;;
  (fun st =>
     let members := match PyDict.get key_eqb tk (_team_members st) with
                    | Some d => d
                    | None => []
                    end in
     (Ok tt, with_team_members (PyDict.set key_eqb tk members (_team_members st)) st, [])) ;;;
  id <-- getattr member "id" ;;
  k <-- lift (hash id) ;;
  fun st =>
    match PyDict.get key_eqb tk (_team_members st) with
    | Some d =>
        (Ok tt,
         with_team_members
           (PyDict.set key_eqb tk (PyDict.set key_eqb k member d) (_team_members st)) st,
         [])
    | None => (Raise KeyError, st, [])
    end.

(** Modelled from the spec: [Client.get_team] ([guilded/client.py] is not
    among the sources).  The handlers require the team to be already cached:
    the lookup is the one of [HTTPClient._get_team]. *)
Definition get_team (id : value) : H (option ref) := _get_team id.

(** Modelled from the spec: [Team.get_member] ([guilded/team.py] is not among
    the sources).  The handlers require the member to be already cached: the
    lookup is the one of [HTTPClient._get_team_member], under the team's own
    id, and returns the cached object itself. *)
Definition get_member (team : ref) (id : value) : H (option ref) :=
  team_id <-- getattr team "id" ;;
  _get_team_member team_id id.

(** ** Reading the heap and the member cache *)

(** The value of an attribute of an object in a heap, if it is bound. *)
Definition attr_of (h : heap) (r : ref) (name : string) : option value :=
  match nth_error h r with
  | Some o => PyDict.get String.eqb name o
  | None => None
  end.

(** The member cached under a team key and a member key. *)
Definition member_at (st : client_state) (tk k : key) : option ref :=
  match PyDict.get key_eqb tk (_team_members st) with
  | Some members => PyDict.get key_eqb k members
  | None => None
  end.





(** ** The member handlers of [WebSocketEventParsers] *)

(** [for x in v]: the elements of a list, the keys of a dict, the characters
    of a string. *)
Fixpoint chars (s : string) : list json :=
  match s with
  | EmptyString => []
  | String c s' => JStr (String c EmptyString) :: chars s'
  end.

Definition py_iter (v : json) : result (list json) :=
  match v with
  | JArr l => Ok l
  | JObj d => Ok (map (fun kv => JStr (fst kv)) d)
  | JStr s => Ok (chars s)
  | _ => Raise TypeError
  end.

(** [v.items()] *)
Definition py_items (v : json) : result (list (string * json)) :=
  match v with
  | JObj d => Ok d
  | _ => Raise AttributeError
  end.

Definition TeamXpSet (data : json) : H unit :=
  amount <-- lift (py_get data "amount") ;;
  if negb (truthy amount) then ret tt
  else
    teamId <-- lift (py_getitem data (JStr "teamId")) ;;
    team <-- get_team (VJson teamId) ;;
    match team with
    | None => ret tt
    | Some team =>
        userIds <-- lift (py_getitem data (JStr "userIds")) ;;
        userId <-- lift (py_getitem userIds (JInt 0)) ;;
        before <-- get_member team (VJson userId) ;;
        match before with
        | None => ret tt
        | Some before =>
            before_id <-- getattr before "id" ;;
            after <-- get_member team before_id ;;
            amount <-- lift (py_getitem data (JStr "amount")) ;;
            match after with
            | None => raise AttributeError
            | Some after =>
                setattr after "xp" (VJson amount) ;;;
                add_to_member_cache after ;;;
                dispatch "member_update" [VRef before; VRef after]
            end
        end
    end.

(** The loop of [TeamMemberUpdated] over [data["userInfo"].items()].  The
    variable [after] is unbound ([None] here) until the body has run once. *)
Fixpoint apply_fields (team : ref) (userId : json) (items : list (string * json))
  (after : option ref) : H (option ref) :=
  match items with
  | [] => ret after
  | (key, val) :: items' =>
      found <-- get_member team (VJson userId) ;;
      match found with
      | None => raise AttributeError
      | Some a =>
          setattr a key (VJson val) ;;;
          add_to_member_cache a ;;;
          apply_fields team userId items' (Some a)
      end
  end.

Section MemberUpdated.
(** [Member(state=self.client.http, data=data)] of [guilded/user.py], which
    is not among the sources: the attributes of the object it makes. *)
Variable Member : json -> obj.

Definition TeamMemberUpdated (data : json) : H unit :=
  raw_after <-- new (Member data) ;;
  dispatch "raw_member_update" [VRef raw_after] ;;;
  teamId <-- lift (py_getitem data (JStr "teamId")) ;;
  team <-- get_team (VJson teamId) ;;
  match team with
  | None => ret tt
  | Some team =>
      userId <-- lift (py_getitem data (JStr "userId")) ;;
      before <-- get_member team (VJson userId) ;;
      match before with
      | None => ret tt
      | Some before =>
          userInfo <-- lift (py_getitem data (JStr "userInfo")) ;;
          items <-- lift (py_items userInfo) ;;
          after <-- apply_fields team userId items None ;;
          match after with
          | None => raise UnboundLocalError
          | Some after => dispatch "member_update" [VRef before; VRef after]
          end
      end
  end.

End MemberUpdated.

(** The first loop of [teamRolesUpdates], over [data["memberRoleIds"]]. *)
Fixpoint update_roles (team : ref) (batch : list json) (befores_afters : list (ref * ref))
  : H (list (ref * ref)) :=
  match batch with
  | [] => ret befores_afters
  | updated :: batch' =>
      userId <-- lift (py_getitem updated (JStr "userId")) ;;
      before <-- get_member team (VJson userId) ;;
      match before with
      | None => update_roles team batch' befores_afters
      | Some before =>
          before_id <-- getattr before "id" ;;
          after <-- get_member team before_id ;;
          roleIds <-- lift (py_getitem updated (JStr "roleIds")) ;;
          match after with
          | None => raise AttributeError
          | Some after =>
              setattr after "roles" (VJson roleIds) ;;;
              add_to_member_cache after ;;;
              update_roles team batch' (befores_afters ++ [(before, after)])
          end
      end
  end.

(** Its second loop, over [befores_afters]. *)
Fixpoint dispatch_updates (befores_afters : list (ref * ref)) : H unit :=
  match befores_afters with
  | [] => ret tt
  | (b, a) :: rest =>
      dispatch "member_update" [VRef b; VRef a] ;;;
      dispatch_updates rest
  end.

Definition teamRolesUpdates (data : json) : H unit :=
  teamId <-- lift (py_getitem data (JStr "teamId")) ;;
  team <-- get_team (VJson teamId) ;;
  match team with
  | None => ret tt
  | Some team =>
      memberRoleIds <-- lift (py_getitem data (JStr "memberRoleIds")) ;;
      batch <-- lift (py_iter memberRoleIds) ;;
      befores_afters <-- update_roles team batch [] ;;
      dispatch_updates befores_afters
  end.

(** ** What a batch gives a member *)




(** ** The heartbeat thread ([Heartbeater]) *)

Definition HEARTBEAT_PAYLOAD : string := "2".

(** [float("inf")], or a duration in seconds. *)
Inductive seconds : Type :=
| Inf
| Finite (q : Q).

(** What [f.result(10)] does: the send is done, the ten seconds run out, or
    the send raised. *)
Inductive wait_result : Type :=
| Done
| TimedOut
| Failed (e : exn).

(** One turn of the loop of [run], as the outside decides it: what
    [self._stop_ev.wait(self.interval)] raises, if it raises (an interval
    beyond [threading.TIMEOUT_MAX] is an [OverflowError]); whether [stop()]
    is called from another thread before the interval ends; what
    [asyncio.run_coroutine_threadsafe] raises, if it raises (a closed loop
    is a [RuntimeError]); what the successive [f.result(10)] give; and
    whether [sys._current_frames()] has an entry for the thread asked
    for. *)
Record tick : Type := {
  wait_raises : option exn;
  stop_requested : bool;
  schedule_raises : option exn;
  results : list wait_result;
  frame_found : bool
}.

Module Heartbeater.

Record t : Type := {
  interval : Q;
  latency : seconds;
  _stop_ev : bool
}.

(** [Heartbeater.__init__] *)
Definition init (interval : Q) : t :=
  {| interval := interval; latency := Inf; _stop_ev := false |}.

(** [stop]: [self._stop_ev.set()] *)
Definition stop (self : t) : t :=
  {| interval := interval self; latency := latency self; _stop_ev := true |}.

(** The names bound on a [Heartbeater]: by [__init__], by the class body,
    and by [threading.Thread], its base class in the Python library. *)
Definition instance_attrs : list string :=
  ["ws"; "interval"; "msg"; "block_msg"; "behind_msg"; "_stop_ev"; "latency"].

Definition class_attrs : list string := ["run"; "stop"].

Definition thread_attrs : list string :=
  ["_target"; "_name"; "_args"; "_kwargs"; "_daemonic"; "_ident"; "_native_id";
   "_tstate_lock"; "_started"; "_is_stopped"; "_initialized"; "_stderr";
   "_invoke_excepthook"; "start"; "join"; "name"; "ident"; "native_id";
   "is_alive"; "daemon"; "isDaemon"; "setDaemon"; "getName"; "setName";
   "_bootstrap"; "_bootstrap_inner"; "_set_ident"; "_set_native_id";
   "_set_tstate_lock"; "_stop"; "_delete"; "_reset_internal_locks";
   "_wait_for_tstate_lock"].

Definition hasattr (name : string) : bool :=
  existsb (String.eqb name) (instance_attrs ++ class_attrs ++ thread_attrs).

(** Reading [self.name] *)
Definition self_attr (name : string) : M t unit :=
  if hasattr name then ret tt else raise AttributeError.

Definition emit (e : event) : M t unit := fun self => (Ok tt, self, [e]).

(** The inner [while True] of [run]: wait for the send ten seconds at a
    time.  On a timeout the handler adds ten to [total], reads
    [sys._current_frames()[self._main_thread_id]] (a [KeyError] there only
    changes the text of the message) and logs the warning with [total]. *)
Fixpoint await_send (results : list wait_result) (frame_found : bool) (total : Z)
  : M t unit :=
  match results with
  | [] => lift Beyond
  | Done :: _ => ret tt
  | Failed e :: _ => raise e
  | TimedOut :: results' =>
      let total := total + 10 in
      self_attr "_main_thread_id" ;;;
      emit (LogWarning total frame_found) ;;;
      await_send results' frame_found total
  end.

(** One turn of the loop of [run] once the wait has returned [False]:
    the heartbeat is handed to the loop of the websocket, outside the
    [try]; inside it the result is waited for, and any exception there
    calls [self.stop()]. *)
Definition turn (tk : tick) : M t unit :=
  match schedule_raises tk with
  | Some e => raise e
  | None =>
      fun self =>
        match (emit (Submit HEARTBEAT_PAYLOAD) ;;;
               await_send (results tk) (frame_found tk) 0) self with
        | (Raise _, self1, tr) => (Ok tt, stop self1, tr)
        | other => other
        end
  end.

(** [run]: [while not self._stop_ev.wait(self.interval)] around the turns.
    A wait on an event that is set returns at once; otherwise it may raise,
    outside of any [try], and so may the scheduling of the send: such an
    exception leaves [run] and ends the thread. *)
Fixpoint run (script : list tick) : M t unit :=
  fun self =>
    if _stop_ev self then (Ok tt, self, [])
    else
      match script with
      | [] => (Beyond, self, [])
      | tk :: script' =>
          match wait_raises tk with
          | Some e => (Raise e, self, [])
          | None =>
              if stop_requested tk then (Ok tt, stop self, [])
              else (turn tk ;;; run script') self
          end
      end.

End Heartbeater.

(** ** The event router ([WebSocketEventParsers.get], [GuildedWebSocket]) *)

(** The coroutine methods of [WebSocketEventParsers]. *)
Inductive handler : Type :=
| hChatMessageCreated
| hChatChannelTyping
| hChatMessageDeleted
| hChatPinnedMessageCreated
| hChatPinnedMessageDeleted
| hChatMessageUpdated
| hTeamXpSet
| hTeamMemberUpdated
| hteamRolesUpdates.

Definition handler_table : list (string * handler) :=
  [("ChatMessageCreated", hChatMessageCreated);
   ("ChatChannelTyping", hChatChannelTyping);
   ("ChatMessageDeleted", hChatMessageDeleted);
   ("ChatPinnedMessageCreated", hChatPinnedMessageCreated);
   ("ChatPinnedMessageDeleted", hChatPinnedMessageDeleted);
   ("ChatMessageUpdated", hChatMessageUpdated);
   ("TeamXpSet", hTeamXpSet);
   ("TeamMemberUpdated", hTeamMemberUpdated);
   ("teamRolesUpdates", hteamRolesUpdates)].

(** What [getattr(self, name, None)] finds on the parsers object. *)
Inductive parser_attr : Type :=
| AHandler (h : handler)
| AGet
| AState
| AReserved.

(** The handlers and [get] are bound by the class body, [client] and
    [_state] by [__init__].  [self._state] is the [HTTPClient], a class
    without [__call__], [__bool__] and [__len__].  What a call of
    [self.client], of [__init__] or of an inherited attribute does is left
    out of the embedding ([AReserved]). *)
Definition parser_getattr (name : string) : option parser_attr :=
  match PyDict.get String.eqb name handler_table with
  | Some h => Some (AHandler h)
  | None =>
      if String.eqb name "get" then Some AGet
      else if String.eqb name "_state" then Some AState
      else if String.eqb name "client" || dunder name then Some AReserved
      else None
  end.

(** A coroutine object: the handler and its argument, run when awaited. *)
Definition coroutine : Type := handler * json.

(** [WebSocketEventParsers.get]: [getattr] wants a string for the name;
    [get] called with one argument and the call of an [HTTPClient] are type
    errors. *)
Definition get (event_name : json) (data : json) : result (option coroutine) :=
  match event_name with
  | JStr name =>
      match parser_getattr name with
      | None => Ok None
      | Some (AHandler h) => Ok (Some (h, data))
      | Some AGet => Raise TypeError
      | Some AState => Raise TypeError
      | Some AReserved => Beyond
      end
  | _ => Raise TypeError
  end.

Module GuildedWebSocket.

Record t : Type := {
  sid : json;
  upgrades : json;
  _heartbeater : option Heartbeater.t;
  _close_code : option Z
}.

(** [GuildedWebSocket.__init__] *)
Definition init : t :=
  {| sid := JNull; upgrades := JArr []; _heartbeater := None; _close_code := None |}.

(** The property [latency] *)
Definition latency (self : t) : seconds :=
  match _heartbeater self with
  | None => Inf
  | Some hb => Heartbeater.latency hb
  end.

Definition with_sid (v : json) (self : t) : t :=
  {| sid := v; upgrades := upgrades self; _heartbeater := _heartbeater self;
     _close_code := _close_code self |}.

Definition with_upgrades (v : json) (self : t) : t :=
  {| sid := sid self; upgrades := v; _heartbeater := _heartbeater self;
     _close_code := _close_code self |}.

Definition with_heartbeater (hb : option Heartbeater.t) (self : t) : t :=
  {| sid := sid self; upgrades := upgrades self; _heartbeater := hb;
     _close_code := _close_code self |}.

Definition with_close_code (c : Z) (self : t) : t :=
  {| sid := sid self; upgrades := upgrades self; _heartbeater := _heartbeater self;
     _close_code := Some c |}.

End GuildedWebSocket.

(** The websocket together with the client it feeds. *)
Record system : Type := {
  ws : GuildedWebSocket.t;
  http : client_state
}.

(** A handler run from the websocket: it works on the client state only. *)
Definition zoom {A : Type} (m : H A) : M system A :=
  fun s =>
    match m (http s) with
    | (r, st, tr) => (r, {| ws := ws s; http := st |}, tr)
    end.

Definition set_ws (f : GuildedWebSocket.t -> GuildedWebSocket.t) : M system unit :=
  fun s => (Ok tt, {| ws := f (ws s); http := http s |}, []).

(** [GuildedWebSocket.send] *)
Definition send (payload : string) : M system unit :=
  fun s => (Ok tt, s, [SendStr payload]).

(** The integer nearest to [num / den], the even one of two that are
    equally near. *)
Definition round_half_even (num den : Z) : Z :=
  let q := num / den in
  let r := num mod den in
  if 2 * r <? den then q
  else if den <? 2 * r then q + 1
  else if Z.even q then q else q + 1.

(** [p / 1000] on an [int]: the float nearest to the quotient, ties to
    even, kept as the rational that it is; [OverflowError] when that float
    would lie beyond the largest one.  A float has 53 significant bits:
    [top] is the exponent of the first bit of the quotient, [e] that of the
    last bit kept and [m] the 53 bits. *)
Definition int_truediv_1000 (p : Z) : result Q :=
  if p =? 0 then Ok 0%Q
  else
    let a := Z.abs p in
    let k := Z.log2 a - 9 in
    let top := if 1000 * 2 ^ Z.max 0 k <=? a * 2 ^ Z.max 0 (- k) then k else k - 1 in
    let e := top - 52 in
    let m := round_half_even (a * 2 ^ Z.max 0 (- e)) (1000 * 2 ^ Z.max 0 e) in
    if 2 ^ 1024 <=? m * 2 ^ Z.max 0 e then Raise OverflowError
    else Ok (Qred (Z.sgn p * m * 2 ^ Z.max 0 e # Z.to_pos (2 ^ Z.max 0 (- e)))).

Arguments int_truediv_1000 : simpl never.

(** [x / 1000] on a payload value ([True] and [False] are the integers 1
    and 0). *)
Definition truediv_1000 (x : json) : result Q :=
  match x with
  | JInt z => int_truediv_1000 z
  | JBool b => int_truediv_1000 (if b then 1 else 0)
  | _ => Raise TypeError
  end.

(** A message of the socket, by its [aiohttp.WSMsgType]. *)
Inductive WSMessage : Type :=
| TEXT (data : string)
| ERROR (data : exn)
| CLOSED
| CLOSING
| CLOSE
| OTHER.

Section Gateway.
Variable json_loads : string -> result json.
Variable Member : json -> obj.
(** The handlers of the message events rest on [Message] and on the
    [getch_] lookups of the client, which are not among the sources. *)
Variable chat : handler -> json -> H unit.

Definition run_handler (c : coroutine) : H unit :=
  match fst c with
  | hTeamXpSet => TeamXpSet (snd c)
  | hTeamMemberUpdated => TeamMemberUpdated Member (snd c)
  | hteamRolesUpdates => teamRolesUpdates (snd c)
  | h => chat h (snd c)
  end.

(** [try: await event] with its [except Exception]: the exception is
    wrapped unless it is the library's own, reported by an [error] event
    and raised again. *)
Definition await_event (c : coroutine) : M system unit :=
  fun s =>
    match zoom (run_handler c) s with
    | (Raise e, s', tr) =>
        let exc := match e with
                   | GuildedException _ => e
                   | _ => GuildedException e
                   end in
        (Raise exc, s', tr ++ [Dispatch "error" [VExn exc] (objects (http s'))])
    | other => other
    end.

Definition received_event (payload : string) : M system unit :=
  if str_isdigit payload then ret tt
  else
    zoom (dispatch "socket_raw_receive" [VJson (JStr payload)]) ;;;
    data <-- lift (_full_event_parse json_loads payload) ;;
    zoom (dispatch "socket_response" [VJson data]) ;;;
    hello <-- lift (py_get data "sid") ;;
    if truthy hello then
      sid <-- lift (py_getitem data (JStr "sid")) ;;
      set_ws (GuildedWebSocket.with_sid sid) ;;;
      upgrades <-- lift (py_getitem data (JStr "upgrades")) ;;
      set_ws (GuildedWebSocket.with_upgrades upgrades) ;;;
      pingInterval <-- lift (py_getitem data (JStr "pingInterval")) ;;
      interval <-- lift (truediv_1000 pingInterval) ;;
      set_ws (GuildedWebSocket.with_heartbeater (Some (Heartbeater.init interval))) ;;;
      send HEARTBEAT_PAYLOAD ;;;
      (fun s => (Ok tt, s, [ThreadStart interval]))
    else
      event_name <-- lift (py_getitem data (JStr "type")) ;;
      event_data <-- lift (py_getitem data (JStr "data")) ;;
      event <-- lift (get event_name event_data) ;;
      match event with
      | None => ret tt
      | Some c => await_event c
      end.

Definition poll_event (msg : WSMessage) : M system unit :=
  match msg with
  | TEXT data => received_event data
  | ERROR data => raise data
  | CLOSED | CLOSING | CLOSE => raise WebSocketClosure
  | OTHER => ret tt
  end.

(** The messages of one connection, polled one after the other until one
    raises. *)
Fixpoint poll_all (msgs : list WSMessage) : M system unit :=
  match msgs with
  | [] => ret tt
  | msg :: msgs' => poll_event msg ;;; poll_all msgs'
  end.


(** [close]: the code is recorded, then the socket is asked to close.
    [answer] is what [socket.close] does, as the outside decides it: it
    returns a boolean, which [close] drops, or raises. *)
Definition close (code : Z) (answer : result bool) : M system unit :=
  set_ws (GuildedWebSocket.with_close_code code) ;;;
  (fun s => (Ok tt, s, [SocketClose code])) ;;;
  _ <-- lift answer ;;
  ret tt.

End Gateway.

(** [HTTPClient.trigger_typing]: the outbound framing is the text [42]
    followed by the dump of the two-element list. *)
Section Encode.
Variable json_dumps : json -> string.

Definition encode (event_name : string) (payload : json) : string :=
  ("42" ++ json_dumps (JArr [JStr event_name; payload]))%string.

Definition trigger_typing (channel_id : json) : M system unit :=
  send (encode "ChatChannelTyping" (JObj [("channelId", channel_id)])).

End Encode.

(** ** The request executor ([HTTPClient.request]) *)

Module Request.

Definition BASE : string := "https://www.guilded.gg/api".

Record Route : Type := {
  method : string;
  path : string;
  url : string
}.

(** [Route.__init__] *)
Definition mkRoute (method path : string) (override_base : option string) : Route :=
  {| method := method; path := path;
     url := ((match override_base with Some b => b | None => BASE end) ++ path)%string |}.

(** A header value as the session hands it over: text, which is what an
    HTTP client reads from the wire, or a number. *)
Inductive header_value : Type :=
| HStr (s : string)
| HNum (q : Q).

(** [json_body] is what [response.json()] gives; [None] when the body is
    not a JSON text, in which case the call raises. *)
Record response : Type := {
  status : Z;
  headers : list (string * header_value);
  json_body : option json
}.

(** What [perform] does to the outside. *)
Inductive http_event : Type :=
| Request (method url : string) (kwargs : list (string * json))
| Sleep (delay : Q).

(** What [request] returns: [None], the parsed body, or the response. *)
Inductive reply : Type :=
| NoContent
| Data (j : json)
| Response (r : response).

(** [if retry_after:] on the result of [headers.get]. *)
Definition header_truthy (v : option header_value) : bool :=
  match v with
  | None => false
  | Some (HStr s) => negb (String.eqb s EmptyString)
  | Some (HNum q) => negb (Qeq_bool q 0)
  end.

(** [asyncio.sleep(delay)]: the delay is compared with zero and added to
    the clock of the loop, which a string does not support. *)
Definition asyncio_sleep (delay : header_value) : result http_event :=
  match delay with
  | HNum q => Ok (Sleep q)
  | HStr _ => Raise TypeError
  end.

Section Perform.
Variable route : Route.
Variable kwargs : list (string * json).

(** [return data if route.path != "/login" else response] *)
Definition returned (response : response) (data : reply) : reply :=
  if negb (String.eqb (path route) "/login") then data else Response response.

(** The inner coroutine [perform].  [server] lists the responses the
    session gives to the successive submissions. *)
Fixpoint perform (server : list response) : result reply * list http_event :=
  let submit := Request (method route) (url route) kwargs in
  match server with
  | [] => (Beyond, [submit])
  | response :: server' =>
      if status response =? 204 then (Ok NoContent, [submit])
      else
        match json_body response with
        | None => (Raise JSONDecodeError, [submit])
        | Some data =>
            let retry (nap : http_event) :=
              match perform server' with
              | (Ok data', tr) => (Ok (returned response data'), submit :: nap :: tr)
              | (r, tr) => (r, submit :: nap :: tr)
              end in
            if negb (status response =? 200) then
              if status response =? 429 then
                let retry_after := PyDict.get String.eqb "Retry-After" (headers response) in
                if header_truthy retry_after then
                  match retry_after with
                  | Some delay =>
                      match asyncio_sleep delay with
                      | Ok nap => retry nap
                      | Raise e => (Raise e, [submit])
                      | Beyond => (Beyond, [submit])
                      end
                  | None => (Beyond, [submit])
                  end
                else retry (Sleep 5)
              else if 400 <=? status response
                   then (Raise (HTTPError (status response)), [submit])
                   else (Ok (returned response (Data data)), [submit])
            else (Ok (returned response (Data data)), [submit])
        end
  end.

(** [request]: [return await perform()] *)
Definition request (server : list response) : result reply * list http_event :=
  perform server.

End Perform.
End Request.

(** ** The life of a connection *)

(** The heartbeat thread at work on the [Heartbeater] that the websocket
    holds. *)
Definition heartbeat_thread (script : list tick) : M system unit :=
  fun s =>
    match GuildedWebSocket._heartbeater (ws s) with
    | None => (Ok tt, s, [])
    | Some hb =>
        match Heartbeater.run script hb with
        | (r, hb', tr) =>
            (r, {| ws := GuildedWebSocket.with_heartbeater (Some hb') (ws s);
                   http := http s |}, tr)
        end
    end.

(** What happens to a websocket: a message is polled, the heartbeat thread
    runs for a while, the socket is closed. *)
Inductive action : Type :=
| Poll (msg : WSMessage)
| Beat (script : list tick)
| Close (code : Z) (answer : result bool).

Definition state_after {S A : Type} (m : M S A) (s : S) : S := snd (fst (m s)).

Definition trace_of {S A : Type} (m : M S A) (s : S) : list event := snd (m s).

Definition outcome_of {S A : Type} (m : M S A) (s : S) : result A := fst (fst (m s)).

Section Life.
Variable json_loads : string -> result json.
Variable Member : json -> obj.
Variable chat : handler -> json -> H unit.

Definition act (a : action) : M system unit :=
  match a with
  | Poll msg => poll_event json_loads Member chat msg
  | Beat script => heartbeat_thread script
  | Close code answer => close code answer
  end.

(** The state after a sequence of actions; an action that raises leaves
    the state it reached, and the next one starts from it. *)
Fixpoint life (actions : list action) (s : system) : system :=
  match actions with
  | [] => s
  | a :: actions' => life actions' (state_after (act a) s)
  end.

End Life.


(** The state and the events of the handling of a frame that carries
    [sid]. *)
Definition hello_state (sid upgrades : json) (interval : Q) (s : system) : system :=
  {| ws := {| GuildedWebSocket.sid := sid;
              GuildedWebSocket.upgrades := upgrades;
              GuildedWebSocket._heartbeater := Some (Heartbeater.init interval);
              GuildedWebSocket._close_code := GuildedWebSocket._close_code (ws s) |};
     http := http s |}.




(** The latency reads as [float("inf")]. *)
Definition unmeasured (s : system) : Prop := GuildedWebSocket.latency (ws s) = Inf.

(** The names of the events dispatched, in order. *)
Fixpoint dispatched (tr : list event) : list string :=
  match tr with
  | [] => []
  | Dispatch name _ _ :: tr' => name :: dispatched tr'
  | _ :: tr' => dispatched tr'
  end.


Definition is_warning (e : event) : bool :=
  match e with
  | LogWarning _ _ => true
  | _ => false
  end.

(** ** Initial states and instances of the parameters *)

(** [HTTPClient.__init__]: empty caches. *)
Definition HTTPClient_init (max_messages : Z) : client_state :=
  {| objects := []; _max_messages := max_messages; _messages := [];
     _teams := []; _team_members := [] |}.

Definition system_init : system :=
  {| ws := GuildedWebSocket.init; http := HTTPClient_init 1000 |}.

(** Instances used to run the embedding on concrete frames: a [Member]
    that keeps its payload, and message handlers that do nothing. *)
Module Sample.

Definition Member (data : json) : obj := [("_raw", VJson data)].

Definition chat (h : handler) (data : json) : H unit := ret tt.

Definition received_event : string -> M system unit :=
  received_event Json.loads Member chat.

Definition poll_all : list WSMessage -> M system unit :=
  poll_all Json.loads Member chat.

Definition life : list action -> system -> system :=
  life Json.loads Member chat.

(** A text frame: a type code followed by the dump of a value. *)
Definition frame (code : string) (v : json) : string :=
  (code ++ Json.dumps v)%string.

(** Two frames that carry [sid], and the tick of a heartbeat whose send
    completes. *)
Definition hello1 : json :=
  JObj [("sid", JStr "abc123"); ("upgrades", JArr [JStr "websocket"]);
        ("pingInterval", JInt 25000); ("pingTimeout", JInt 60000)].


Definition beat_done : tick :=
  {| wait_raises := None; stop_requested := false; schedule_raises := None;
     results := [Done]; frame_found := true |}.

(** A client that has cached the team [t1] and its member [u1]. *)
Definition one_member : client_state :=
  {| objects := [ [("id", VJson (JStr "t1"))];
                  [("id", VJson (JStr "u1")); ("team", VRef 0%nat);
                   ("xp", VJson (JInt 5))] ];
     _max_messages := 1000;
     _messages := [];
     _teams := [(KStr "t1", 0%nat)];
     _team_members := [(KStr "t1", [(KStr "u1", 1%nat)])] |}.

(** Payloads of the three member events for that member. *)
Definition xp_data : json :=
  JObj [("teamId", JStr "t1"); ("userIds", JArr [JStr "u1"]); ("amount", JInt 7)].

Definition profile_data (userInfo : list (string * json)) : json :=
  JObj [("teamId", JStr "t1"); ("userId", JStr "u1"); ("userInfo", JObj userInfo)].

Definition event_frame (type : string) (data : json) : string :=
  match data with
  | JObj d => frame "42" (JArr [JStr type; JObj (("type", JStr type) :: d)])
  | _ => frame "42" (JArr [JStr type; data])
  end.

(** The route and the responses of the example of the specification: a 429
    with [Retry-After: 2], then a 200. *)
Definition members_route : Request.Route := Request.mkRoute "GET" "/teams/t1/members" None.

Definition too_many (retry_after : list (string * Request.header_value))
  : Request.response :=
  {| Request.status := 429; Request.headers := retry_after;
     Request.json_body := Some (JObj []) |}.

Definition fine : Request.response :=
  {| Request.status := 200; Request.headers := [];
     Request.json_body := Some (JObj [("members", JArr [])]) |}.

End Sample.

(** * Further functions of the sources *)

(** The object that [_pretty_event] looks at: the second element of a
    list, else the value itself ([None] when a list is too short). *)
Definition payload_object (v : json) : option json :=
  match v with
  | JArr l => nth_error l 1
  | _ => Some v
  end.

(** The exception that [received_event] raises for an exception [e] of a
    handler: [e] itself when it is the library's own, else [e] wrapped. *)
Definition wrapped (e : exn) : exn :=
  match e with
  | GuildedException _ => e
  | _ => GuildedException e
  end.

(** ** Retries of the request executor *)

(** The seconds that [perform] sleeps on a response before it submits the
    request again: the response has the status 429 and a JSON body, and its
    [Retry-After] is a number, absent, or empty.  [None] for a response
    that is not retried. *)
Definition retry_delay (r : Request.response) : option Q :=
  if Request.status r =? 429 then
    match Request.json_body r with
    | None => None
    | Some _ =>
        match PyDict.get String.eqb "Retry-After" (Request.headers r) with
        | None => Some 5%Q
        | Some (Request.HNum q) => Some (if Qeq_bool q 0 then 5%Q else q)
        | Some (Request.HStr s) => if String.eqb s EmptyString then Some 5%Q else None
        end
    end
  else None.

(** The events of a run of [perform] that was retried after each of the
    given sleeps. *)
Definition retried (submit : Request.http_event) (naps : list Q) : list Request.http_event :=
  flat_map (fun q => [submit; Request.Sleep q]) naps ++ [submit].

(** ** The team cache *)

Definition with_teams (t : list (key * ref)) (st : client_state) : client_state :=
  {| objects := objects st; _max_messages := _max_messages st;
     _messages := _messages st; _teams := t; _team_members := _team_members st |}.

(** [HTTPClient.add_to_team_cache]: [self._teams[team.id] = team] *)
Definition add_to_team_cache (team : ref) : H unit :=
  id <-- getattr team "id" ;;
  k <-- lift (hash id) ;;
  fun st => (Ok tt, with_teams (PyDict.set key_eqb k team (_teams st)) st, []).

(** A client that holds the objects of [Sample.one_member] and has
    cached nothing yet, and one whose member object has no id. *)
Definition nothing_cached : client_state :=
  with_teams [] (with_team_members [] Sample.one_member).

Definition member_without_id : client_state :=
  with_objects [ [("id", VJson (JStr "t1"))]; [("team", VRef 0%nat)] ] nothing_cached.

(** A user of a batch of role updates that the team has not cached. *)
Definition unknown_user (st : client_state) (tk : key) (updated : json) : Prop :=
  exists (userId : json) (k : key),
    py_getitem updated (JStr "userId") = Ok userId
    /\ hash (VJson userId) = Ok k
    /\ member_at st tk k = None.

(** ** Logging in and connecting ([HTTPClient.login], [HTTPClient.ws_connect]) *)

Module Login.
Import Request.

(** The attributes of [HTTPClient] that [login] assigns.  [cookies] is
    what [headers.get] gave, [None] for an absent header. *)
Record account : Type := {
  email : json;
  password : json;
  cookies : option header_value
}.

(** [HTTPClient.__init__] *)
Definition init : account := {| email := JNull; password := JNull; cookies := None |}.

(** The property [credentials] *)
Definition credentials (self : account) : json :=
  JObj [("email", email self); ("password", password self)].

(** The answers of the session that a request took: one for each of its
    submissions. *)
Fixpoint submissions (tr : list http_event) : nat :=
  match tr with
  | [] => O
  | Request _ _ _ :: tr' => S (submissions tr')
  | Sleep _ :: tr' => submissions tr'
  end.

(** [login].  [response.headers] is read on what the first request
    returned: [None] and the parsed body have no such attribute. *)
Definition login (email password : json) (server : list response) (self : account)
  : result reply * account * list http_event :=
  let self1 := {| email := email; password := password; cookies := cookies self |} in
  match request (mkRoute "POST" "/login" None) [("json", credentials self1)] server with
  | (Ok (Response response), tr) =>
      let self2 := {| email := email; password := password;
                      cookies := PyDict.get String.eqb "Set-Cookie" (headers response) |} in
      match request (mkRoute "GET" "/me" None) [] (skipn (submissions tr) server) with
      | (data, tr') => (data, self2, tr ++ tr')
      end
  | (Ok _, tr) => (Raise AttributeError, self1, tr)
  | (Raise e, tr) => (Raise e, self1, tr)
  | (Beyond, tr) => (Beyond, self1, tr)
  end.

(** [{**gateway_args, "jwt": "undefined", "EIO": "3", "transport": "websocket"}]:
    the arguments of the caller in their order, then the three fixed
    ones, each taking the place of an argument of the same name. *)
Definition gateway_query (gateway_args : list (string * string)) : list (string * string) :=
  PyDict.set String.eqb "transport" "websocket"
    (PyDict.set String.eqb "EIO" "3"
       (PyDict.set String.eqb "jwt" "undefined" gateway_args)).

(** The address of the gateway for these arguments. *)
Definition gateway_url (gateway_args : list (string * string)) : string :=
  ("wss://api.guilded.gg/socket.io/?"
   ++ Json.join "&"
        (map (fun kv : string * string => fst kv ++ "=" ++ snd kv)
           (gateway_query gateway_args)))%string.

(** [ws_connect], for gateway arguments that are texts: the address and
    the cookie header given to the session; [None] when it raises
    [GuildedException] for want of cookies. *)
Definition ws_connect (cookies : option header_value) (gateway_args : list (string * string))
  (self : account) : option (string * header_value) :=
  let cookies := if header_truthy cookies then cookies else Login.cookies self in
  if negb (header_truthy cookies) then None
  else match cookies with
       | Some c => Some (gateway_url gateway_args, c)
       | None => None
       end.

End Login.

(** * Properties *)

Unset Implicit Arguments.

(** ** Dictionaries *)

Module PyDictFacts.
Import PyDict.
Section Dict.
Context {K V : Type}.
Variable eqb : K -> K -> bool.
Hypothesis eqb_eq : forall a b, eqb a b = true <-> a = b.
#[local] Abbreviation t := (@PyDict.t K V).
#[local] Abbreviation get := (@PyDict.get K V eqb).
#[local] Abbreviation set := (@PyDict.set K V eqb).
#[local] Abbreviation del := (@PyDict.del K V eqb).
#[local] Abbreviation mem := (@PyDict.mem K V eqb).

Lemma eqb_refl : forall a, eqb a a = true.
Proof. intro a. apply eqb_eq. reflexivity. Qed.

Lemma eqb_neq : forall a b, eqb a b = false <-> a <> b.
Proof.
  intros a b. split.
  - intros E H. apply eqb_eq in H. congruence.
  - intro N. destruct (eqb a b) eqn:E; [|reflexivity].
    apply eqb_eq in E. contradiction.
Qed.

Lemma get_in_keys : forall k d, mem k d = true <-> In k (keys d).
Proof.
  unfold mem. intros k d. induction d as [|[k' v'] d IH]; simpl.
  - split; [discriminate | tauto].
  - destruct (eqb k' k) eqn:E.
    + apply eqb_eq in E. subst. split; auto.
    + apply eqb_neq in E. rewrite IH. split; [auto | intros [H|H]; [contradiction|auto]].
Qed.

Lemma get_none_not_in : forall k d, get k d = None <-> ~ In k (keys d).
Proof.
  intros k d. rewrite <- get_in_keys. unfold mem.
  destruct (get k d); split; try congruence; intro H; exfalso; apply H; reflexivity.
Qed.

(** Assigning to a key that is absent appends the entry. *)
Lemma set_fresh : forall k v d, get k d = None -> set k v d = d ++ [(k, v)].
Proof.
  intros k v d. induction d as [|[k' v'] d IH]; simpl; [reflexivity|].
  destruct (eqb k' k); [discriminate|]. intro H. rewrite IH by assumption. reflexivity.
Qed.

(** Assigning to a key that is present keeps the keys and their order. *)
Lemma set_keys_present : forall k v d, mem k d = true -> keys (set k v d) = keys d.
Proof.
  unfold mem. intros k v d. induction d as [|[k' v'] d IH]; simpl; [discriminate|].
  destruct (eqb k' k) eqn:E; simpl; [reflexivity|].
  intro H. f_equal. apply IH. assumption.
Qed.

Lemma set_length_present : forall k v d, mem k d = true -> length (set k v d) = length d.
Proof.
  intros k v d H. rewrite <- (length_map fst (set k v d)), <- (length_map fst d).
  f_equal. apply set_keys_present. assumption.
Qed.

Lemma get_set_same : forall k v d, get k (set k v d) = Some v.
Proof.
  intros k v d. induction d as [|[k' v'] d IH]; simpl.
  - rewrite eqb_refl. reflexivity.
  - destruct (eqb k' k) eqn:E; simpl; rewrite E; [reflexivity | exact IH].
Qed.

Lemma get_set_other : forall k k' v d, k' <> k -> get k' (set k v d) = get k' d.
Proof.
  intros k k' v d N. induction d as [|[k0 v0] d IH]; simpl.
  - assert (E : eqb k k' = false) by (apply eqb_neq; congruence). rewrite E. reflexivity.
  - destruct (eqb k0 k) eqn:E; simpl.
    + apply eqb_eq in E. subst k0.
      assert (E' : eqb k k' = false) by (apply eqb_neq; congruence). rewrite E'. reflexivity.
    + destruct (eqb k0 k'); [reflexivity | exact IH].
Qed.

(** Deleting the first key removes the head. *)
Lemma del_head : forall k v d, del k ((k, v) :: d) = Some d.
Proof. intros. simpl. rewrite eqb_refl. reflexivity. Qed.

End Dict.
End PyDictFacts.

(** ** A list lemma: a sliding window of the last [n] elements *)

Lemma skipn_snoc_window : forall (A : Type) (l : list A) (x : A) (n : nat),
    skipn (length (skipn (length l - n) l ++ [x]) - n) (skipn (length l - n) l ++ [x])
    = skipn (length (l ++ [x]) - n) (l ++ [x]).
Proof.
  intros A l x n. rewrite !length_app, length_skipn. cbn [length].
  destruct (Nat.le_gt_cases (length l) n) as [L|G].
  - replace (length l - n)%nat with 0%nat by lia.
    cbn [skipn]. rewrite Nat.sub_0_r. reflexivity.
  - replace (length l - (length l - n) + 1 - n)%nat with 1%nat by lia.
    replace (length l + 1 - n)%nat with (S (length l - n)) by lia.
    rewrite !skipn_app, length_skipn.
    replace (length l - (length l - n))%nat with n by lia.
    replace (S (length l - n) - length l)%nat with (1 - n)%nat by lia.
    rewrite skipn_skipn. reflexivity.
Qed.

(** ** The bounded message cache *)

Module MessageCacheFacts.
Import MessageCache.
Section Cache.
Context {K M : Type}.
Variable eqb : K -> K -> bool.
Variable id : M -> K.
Hypothesis eqb_eq : forall a b, eqb a b = true <-> a = b.
#[local] Abbreviation evict := (@MessageCache.evict K M eqb).
#[local] Abbreviation add_to_message_cache := (@MessageCache.add_to_message_cache K M eqb id).
#[local] Abbreviation add_all := (@MessageCache.add_all K M eqb id).
#[local] Abbreviation entries := (@MessageCache.entries K M id).

Lemma evict_step : forall fuel max_messages e d,
    Z.of_nat (length (e :: d)) > max_messages ->
    evict (S fuel) max_messages (e :: d) = evict fuel max_messages d.
Proof.
  intros fuel mx [k v] d H. cbn [evict].
  destruct (Z.gtb_spec (Z.of_nat (length ((k, v) :: d))) mx) as [_|L]; [|lia].
  cbn [PyDict.keys map fst]. rewrite (PyDictFacts.del_head eqb eqb_eq). reflexivity.
Qed.

Lemma evict_within : forall fuel max_messages d,
    Z.of_nat (length d) <= max_messages ->
    evict (S fuel) max_messages d = Some (Ok d).
Proof.
  intros fuel mx d H. cbn [evict].
  destruct (Z.gtb_spec (Z.of_nat (length d)) mx); [lia | reflexivity].
Qed.

(** The loop ends within [length d + 1] tests, whatever the bound is. *)
Lemma evict_terminates : forall d fuel max_messages,
    (length d < fuel)%nat -> evict fuel max_messages d <> None.
Proof.
  induction d as [|e d IH]; intros fuel mx H; (destruct fuel as [|fuel]; [inversion H|]).
  - cbn. destruct (0 >? mx); discriminate.
  - destruct (Z.gtb_spec (Z.of_nat (length (e :: d))) mx) as [G|L].
    + rewrite evict_step by lia. apply IH. simpl in H. lia.
    + rewrite evict_within by lia. discriminate.
Qed.

Lemma add_to_message_cache_terminates : forall max_messages d m,
    add_to_message_cache max_messages d m <> None.
Proof. intros. unfold add_to_message_cache. apply evict_terminates. lia. Qed.

(** With a bound that is not negative, the loop returns the last
    [max_messages] entries. *)
Lemma evict_skipn : forall d fuel max_messages,
    0 <= max_messages -> (length d < fuel)%nat ->
    evict fuel max_messages d
    = Some (Ok (skipn (length d - Z.to_nat max_messages) d)).
Proof.
  induction d as [|e d IH]; intros fuel mx Hmx H; (destruct fuel as [|fuel]; [inversion H|]).
  - rewrite evict_within by (simpl; lia). reflexivity.
  - destruct (Z.gtb_spec (Z.of_nat (length (e :: d))) mx) as [G|L].
    + rewrite evict_step by lia. rewrite IH by (simpl in H; lia).
      simpl length in *.
      replace (S (length d) - Z.to_nat mx)%nat with (S (length d - Z.to_nat mx)) by lia.
      reflexivity.
    + rewrite evict_within by lia.
      replace (length (e :: d) - Z.to_nat mx)%nat with 0%nat by lia. reflexivity.
Qed.

Lemma add_to_message_cache_eq : forall max_messages d m,
    0 <= max_messages ->
    add_to_message_cache max_messages d m
    = Some (Ok (skipn (length (PyDict.set eqb (id m) m d) - Z.to_nat max_messages)
                      (PyDict.set eqb (id m) m d))).
Proof. intros. unfold add_to_message_cache. apply evict_skipn; [assumption | lia]. Qed.

Lemma keys_entries : forall ms, PyDict.keys (entries ms) = map id ms.
Proof. intro ms. unfold PyDict.keys, entries. rewrite map_map. reflexivity. Qed.

Lemma entries_app : forall a b, entries (a ++ b) = entries a ++ entries b.
Proof. intros. unfold entries. apply map_app. Qed.

Lemma entries_skipn : forall n ms, entries (skipn n ms) = skipn n (entries ms).
Proof. intros. unfold entries. symmetry. apply skipn_map. Qed.

Lemma length_entries : forall ms, length (entries ms) = length ms.
Proof. intros. unfold entries. apply length_map. Qed.

(** Inserting messages with distinct ids into an empty cache keeps the last
    [max_messages] of them, in insertion order. *)
Lemma add_all_distinct : forall max_messages ms done,
    0 <= max_messages ->
    NoDup (map id (done ++ ms)) ->
    add_all max_messages
            (entries (skipn (length done - Z.to_nat max_messages) done)) ms
    = Some (Ok (entries (skipn (length (done ++ ms) - Z.to_nat max_messages)
                               (done ++ ms)))).
Proof.
  intros mx ms. induction ms as [|m ms IH]; intros done Hmx ND.
  - rewrite app_nil_r. reflexivity.
  - cbn [add_all]. rewrite add_to_message_cache_eq by assumption.
    set (keep := skipn (length done - Z.to_nat mx) done).
    assert (F : PyDict.get eqb (id m) (entries keep) = None).
    { apply (PyDictFacts.get_none_not_in eqb eqb_eq). rewrite keys_entries.
      intro I. rewrite map_app in ND. apply NoDup_remove_2 in ND.
      apply ND. apply in_or_app. left.
      apply in_map_iff in I. destruct I as [x [E I]].
      apply in_map_iff. exists x. split; [assumption|].
      unfold keep in I. rewrite <- (firstn_skipn (length done - Z.to_nat mx) done).
      apply in_or_app. right. assumption. }
    rewrite (PyDictFacts.set_fresh eqb) by assumption.
    change [(id m, m)] with (entries [m]).
    rewrite <- entries_app, length_entries, <- entries_skipn.
    replace (skipn (length (keep ++ [m]) - Z.to_nat mx) (keep ++ [m]))
      with (skipn (length (done ++ [m]) - Z.to_nat mx) (done ++ [m])).
    + replace (done ++ m :: ms) with ((done ++ [m]) ++ ms)
        by (rewrite <- app_assoc; reflexivity).
      apply IH; [assumption|]. rewrite <- app_assoc. exact ND.
    + unfold keep. symmetry. apply skipn_snoc_window.
Qed.

Lemma set_length_bounds : forall (k : K) (v : M) (d : cache),
    (length d <= length (PyDict.set eqb k v d) <= S (length d))%nat.
Proof.
  intros k v d. induction d as [|[k' v'] d IH]; simpl; [lia|].
  destruct (eqb k' k); simpl; lia.
Qed.

(** Assigning to an id keeps the order of the ids already there: an id that
    is present stays where it is, a new id goes last. *)
Lemma set_keeps_insertion_order : forall (k : K) (v : M) (d : cache),
    PyDict.keys (PyDict.set eqb k v d)
    = if PyDict.mem eqb k d then PyDict.keys d else PyDict.keys d ++ [k].
Proof.
  intros k v d. destruct (PyDict.mem eqb k d) eqn:E.
  - apply (PyDictFacts.set_keys_present eqb). assumption.
  - unfold PyDict.mem in E. destruct (PyDict.get eqb k d) eqn:G; [discriminate|].
    rewrite (PyDictFacts.set_fresh eqb) by assumption.
    unfold PyDict.keys. rewrite map_app. reflexivity.
Qed.

(** C6.  In a message cache bounded at [N] that holds at most [N] entries,
    an insertion returns a cache of at most [N] entries; when the assignment
    made it exceed the bound, exactly its first entry (the one inserted
    first, assignments to a present id not moving it) is gone and the others
    stay in their order, and otherwise nothing is removed.  Inserting [N + 1]
    messages of distinct ids into the empty cache leaves exactly the [N]
    inserted after the first one. *)
Theorem add_to_message_cache_bounded :
  forall (N : Z) (d : cache) (m : M) (ms : list M),
    0 <= N ->
    Z.of_nat (length d) <= N ->
    NoDup (map id ms) ->
    Z.of_nat (length ms) = N + 1 ->
    (exists d' : cache,
        add_to_message_cache N d m = Some (Ok d')
        /\ Z.of_nat (length d') <= N
        /\ PyDict.keys (PyDict.set eqb (id m) m d)
           = (if PyDict.mem eqb (id m) d then PyDict.keys d else PyDict.keys d ++ [id m])
        /\ (Z.of_nat (length (PyDict.set eqb (id m) m d)) > N ->
            exists oldest, PyDict.set eqb (id m) m d = oldest :: d')
        /\ (Z.of_nat (length (PyDict.set eqb (id m) m d)) <= N ->
            d' = PyDict.set eqb (id m) m d))
    /\ (exists d' : cache,
           add_all N [] ms = Some (Ok d')
           /\ d' = entries (tl ms)
           /\ PyDict.keys d' = tl (map id ms)
           /\ Z.of_nat (length d') = N).
Proof.
  intros N d m ms HN Hd ND Hms. split.
  - rewrite add_to_message_cache_eq by assumption.
    set (s := PyDict.set eqb (id m) m d).
    pose proof (set_length_bounds (id m) m d) as B. fold s in B.
    eexists. split; [reflexivity|].
    split; [rewrite length_skipn; lia|].
    split; [apply set_keeps_insertion_order|].
    split.
    + intro G. replace (length s - Z.to_nat N)%nat with 1%nat by lia.
      destruct s as [|e s']; [simpl in G; lia|]. exists e. reflexivity.
    + intro L. replace (length s - Z.to_nat N)%nat with 0%nat by lia. reflexivity.
  - pose proof (@add_all_distinct N ms [] HN ND) as E.
    rewrite skipn_nil in E. cbn [app] in E.
    change (MessageCache.entries id []) with (@nil (K * M)) in E.
    rewrite E. replace (length ms - Z.to_nat N)%nat with 1%nat by lia.
    eexists. split; [reflexivity|].
    destruct ms as [|m0 ms']; [simpl in Hms; lia|]. cbn [skipn tl map].
    split; [reflexivity|]. split; [apply keys_entries|].
    rewrite length_entries. simpl length in Hms. lia.
Qed.

End Cache.

(** An instance of C6: a cache of at most two messages, ids as strings. *)
Lemma add_to_message_cache_bounded_witness :
  (exists d' : list (string * (string * Z)),
      MessageCache.add_to_message_cache String.eqb fst 2
        [("m1", ("m1", 10)); ("m2", ("m2", 20))] ("m3", 30) = Some (Ok d')
      /\ Z.of_nat (length d') <= 2
      /\ PyDict.keys (PyDict.set String.eqb "m3" ("m3", 30)
                        [("m1", ("m1", 10)); ("m2", ("m2", 20))])
         = (if PyDict.mem String.eqb "m3" [("m1", ("m1", 10)); ("m2", ("m2", 20))]
            then ["m1"; "m2"] else ["m1"; "m2"] ++ ["m3"])
      /\ (Z.of_nat (length (PyDict.set String.eqb "m3" ("m3", 30)
                              [("m1", ("m1", 10)); ("m2", ("m2", 20))])) > 2 ->
          exists oldest,
            PyDict.set String.eqb "m3" ("m3", 30) [("m1", ("m1", 10)); ("m2", ("m2", 20))]
            = oldest :: d')
      /\ (Z.of_nat (length (PyDict.set String.eqb "m3" ("m3", 30)
                              [("m1", ("m1", 10)); ("m2", ("m2", 20))])) <= 2 ->
          d' = PyDict.set String.eqb "m3" ("m3", 30) [("m1", ("m1", 10)); ("m2", ("m2", 20))]))
  /\ (exists d' : list (string * (string * Z)),
         MessageCache.add_all String.eqb fst 2 [] [("m1", 10); ("m2", 20); ("m3", 30)]
         = Some (Ok d')
         /\ d' = MessageCache.entries fst [("m2", 20); ("m3", 30)]
         /\ PyDict.keys d' = ["m2"; "m3"]
         /\ Z.of_nat (length d') = 2).
Proof.
  apply (@add_to_message_cache_bounded string (string * Z) String.eqb fst String.eqb_eq
           2 [("m1", ("m1", 10)); ("m2", ("m2", 20))] ("m3", 30)
           [("m1", 10); ("m2", 20); ("m3", 30)]).
  - lia.
  - simpl. lia.
  - simpl. repeat constructor; simpl; intuition discriminate.
  - reflexivity.
Defined.

End MessageCacheFacts.

(** ** The frame codec *)

Module CodecFacts.
Local Open Scope string_scope.

Lemma replace_first_head : forall c s, replace_first c (String c s) = s.
Proof. intros c s. simpl. rewrite Ascii.eqb_refl. reflexivity. Qed.

(** The loop removes, at each turn, the character the iteration stands at:
    the variable and the rest of the iteration stay equal. *)
Lemma strip_loop_diag : forall s, strip_loop s s = drop_digits s.
Proof.
  induction s as [|c s IH]; [reflexivity|].
  cbn [strip_loop drop_digits]. destruct (isdigit c); [|reflexivity].
  rewrite replace_first_head. exact IH.
Qed.

Lemma strip_type_code_spec : forall raw, strip_type_code raw = drop_digits raw.
Proof. intro raw. apply strip_loop_diag. Qed.

Lemma take_drop_digits : forall s, take_digits s ++ drop_digits s = s.
Proof.
  induction s as [|c s IH]; [reflexivity|]. simpl.
  destruct (isdigit c); simpl; [rewrite IH|]; reflexivity.
Qed.

Lemma all_digits_take : forall s, all_digits (take_digits s) = true.
Proof.
  induction s as [|c s IH]; [reflexivity|]. simpl.
  destruct (isdigit c) eqn:E; simpl; [rewrite E; exact IH | reflexivity].
Qed.

Lemma drop_digits_stops : forall s, first_is_digit (drop_digits s) = false.
Proof.
  induction s as [|c s IH]; [reflexivity|]. simpl.
  destruct (isdigit c) eqn:E; [exact IH | simpl; exact E].
Qed.

Lemma drop_digits_app : forall ds js,
    all_digits ds = true -> drop_digits (ds ++ js) = drop_digits js.
Proof.
  induction ds as [|c ds IH]; intros js H; [reflexivity|].
  simpl in *. apply andb_true_iff in H. destruct H as [Hc Hds].
  rewrite Hc. apply IH. exact Hds.
Qed.

Lemma drop_digits_id : forall js, first_is_digit js = false -> drop_digits js = js.
Proof. intros [|c js] H; [reflexivity|]. simpl in *. rewrite H. reflexivity. Qed.

Lemma drop_digits_all : forall ds, all_digits ds = true -> drop_digits ds = EmptyString.
Proof.
  induction ds as [|c ds IH]; intro H; [reflexivity|].
  simpl in *. apply andb_true_iff in H. destruct H as [Hc Hds].
  rewrite Hc. apply IH. exact Hds.
Qed.

Lemma str_isdigit_digits : forall ds,
    ds <> EmptyString -> all_digits ds = true -> str_isdigit ds = true.
Proof. intros [|c ds] N H; [contradiction | exact H]. Qed.

Section Codec.
Variable json_loads : string -> result json.
Variable Member : json -> obj.
Variable chat : handler -> json -> H unit.

(** C9.  On a string made of one or more digits followed by a JSON text,
    the decoder removes exactly the leading run of digits (the digits given
    and those the text itself may begin with: what is left does not begin
    with a digit) and hands the rest to the JSON parser; when the text does
    not begin with a digit the rest is the text and the frame is the one
    [_pretty_event] makes of its value.  A string of digits only is not
    parsed at all: [received_event] returns with no event and no change. *)
Theorem decode_strips_leading_digits :
  forall (ds js : string) (v : json) (s : system),
    ds <> EmptyString ->
    all_digits ds = true ->
    json_loads js = Ok v ->
    strip_type_code (ds ++ js) = drop_digits (ds ++ js)
    /\ take_digits (ds ++ js) ++ drop_digits (ds ++ js) = ds ++ js
    /\ all_digits (take_digits (ds ++ js)) = true
    /\ first_is_digit (drop_digits (ds ++ js)) = false
    /\ _full_event_parse json_loads (ds ++ js)
       = (data <- json_loads (drop_digits js) ;; _pretty_event data)
    /\ (first_is_digit js = false ->
        strip_type_code (ds ++ js) = js
        /\ _full_event_parse json_loads (ds ++ js) = _pretty_event v)
    /\ received_event json_loads Member chat ds s = (Ok tt, s, []).
Proof.
  intros ds js v s Hne Hds Hjs.
  split; [apply strip_type_code_spec|].
  split; [apply take_drop_digits|].
  split; [apply all_digits_take|].
  split; [apply drop_digits_stops|].
  split.
  { unfold _full_event_parse. rewrite strip_type_code_spec, drop_digits_app by exact Hds.
    reflexivity. }
  split.
  { intro Hfirst. unfold _full_event_parse.
    rewrite strip_type_code_spec, drop_digits_app, drop_digits_id by assumption.
    split; [reflexivity|]. rewrite Hjs. reflexivity. }
  unfold received_event. rewrite str_isdigit_digits by assumption. reflexivity.
Qed.

End Codec.

(** An instance of C9: the frame [42] followed by the dump of a list. *)
Lemma decode_strips_leading_digits_witness :
  strip_type_code ("42" ++ Json.dumps (JArr [JStr "foo"; JObj [("type", JStr "foo")]]))
  = Json.dumps (JArr [JStr "foo"; JObj [("type", JStr "foo")]])
  /\ _full_event_parse Json.loads
       ("42" ++ Json.dumps (JArr [JStr "foo"; JObj [("type", JStr "foo")]]))
     = Ok (JObj [("type", JStr "foo"); ("data", JObj [])])
  /\ Sample.received_event "42" system_init = (Ok tt, system_init, []).
Proof.
  destruct (@decode_strips_leading_digits Json.loads Sample.Member Sample.chat
              "42" (Json.dumps (JArr [JStr "foo"; JObj [("type", JStr "foo")]]))
              (JArr [JStr "foo"; JObj [("type", JStr "foo")]]) system_init)
    as (_ & _ & _ & _ & _ & H & R).
  - discriminate.
  - reflexivity.
  - vm_compute. reflexivity.
  - destruct (H eq_refl) as [H1 H2]. split; [exact H1|]. split; [|exact R].
    rewrite H2. reflexivity.
Defined.

End CodecFacts.

(** ** Encoding and decoding again *)

Module EncodeFacts.
Local Open Scope string_scope.

(** The frame that [encode] writes for the event name [foo] and the payload
    with the single key [a]. *)
Example encode_foo :
  encode Json.dumps "foo" (JObj [("a", JInt 1)])
  = "42" ++ Json.dumps (JArr [JStr "foo"; JObj [("a", JInt 1)]]).
Proof. reflexivity. Qed.

(** The claim of C1 as stated fails: decoding the frame of the event name
    [foo] and the payload with [a] set to 1 does not give the event of type
    [foo] with that payload as data. *)
Lemma decode_encode_loses_event_name :
  _full_event_parse Json.loads (encode Json.dumps "foo" (JObj [("a", JInt 1)]))
  <> Ok (JObj [("type", JStr "foo"); ("data", JObj [("a", JInt 1)])]).
Proof. vm_compute. discriminate. Qed.

(** C1, amended.  Decoding the frame that [encode] writes for the event name
    [foo] and the payload with [a] set to 1 gives that payload, unchanged:
    [_pretty_event] takes the second element of the list and never reads
    the first, so the event name is not recovered.  The type of an event
    comes from the key [type] of the payload object: encoded with the
    payload that also sets [type] to [foo], the frame decodes to the event
    of type [foo] whose data is the payload with [a] set to 1. *)
Theorem decode_encode_recovers_payload :
  _full_event_parse Json.loads (encode Json.dumps "foo" (JObj [("a", JInt 1)]))
  = Ok (JObj [("a", JInt 1)])
  /\ (forall (event_name : string) (d : list (string * json)),
         _pretty_event (JArr [JStr event_name; JObj d]) = _pretty_event (JObj d))
  /\ _full_event_parse Json.loads
       (encode Json.dumps "foo" (JObj [("type", JStr "foo"); ("a", JInt 1)]))
     = Ok (JObj [("type", JStr "foo"); ("data", JObj [("a", JInt 1)])]).
Proof.
  split; [vm_compute; reflexivity|].
  split; [intros; reflexivity|].
  vm_compute. reflexivity.
Qed.

End EncodeFacts.

(** ** The request executor *)

Module RequestFacts.
Import Request.

Section Perform.
Variable route : Route.
Variable kwargs : list (string * json).

#[local] Abbreviation submit := (Request (method route) (url route) kwargs).

(** Every run of [perform] begins by submitting the request of the route. *)
Lemma perform_submits_first : forall server,
    exists tr, snd (perform route kwargs server) = submit :: tr.
Proof.
  intros [|r server]; cbn [perform]; [eexists; reflexivity|].
  destruct (status r =? 204); [eexists; reflexivity|].
  destruct (json_body r); try (eexists; reflexivity).
  destruct (negb (status r =? 200)); [|eexists; reflexivity].
  destruct (status r =? 429).
  - destruct (header_truthy _).
    + destruct (PyDict.get _ _ _) as [d|]; [|eexists; reflexivity].
      destruct (asyncio_sleep d); try (eexists; reflexivity).
      destruct (perform route kwargs server) as [[? | ? |] ?]; eexists; reflexivity.
    + destruct (perform route kwargs server) as [[? | ? |] ?]; eexists; reflexivity.
  - destruct (400 <=? status r); eexists; reflexivity.
Qed.

(** A 429 whose [Retry-After] is a number other than zero: the request, a
    sleep of that many seconds, then the run of [perform] on what the
    server answers next, which begins with the same request. *)
Lemma perform_429_number : forall response server data n,
    status response = 429 ->
    json_body response = Some data ->
    PyDict.get String.eqb "Retry-After" (headers response) = Some (HNum n) ->
    Qeq_bool n 0 = false ->
    snd (perform route kwargs (response :: server))
    = submit :: Sleep n :: snd (perform route kwargs server)
    /\ fst (perform route kwargs (response :: server))
       = match fst (perform route kwargs server) with
         | Ok d => Ok (returned route response d)
         | r => r
         end.
Proof.
  intros response server data n Hs Hb Hh Hn. cbn [perform].
  rewrite Hs, Hb, Hh. cbn. rewrite Hn. cbn.
  destruct (perform route kwargs server) as [[? | ? |] ?]; split; reflexivity.
Qed.

(** A 429 without [Retry-After]: the same with a sleep of five seconds. *)
Lemma perform_429_absent : forall response server data,
    status response = 429 ->
    json_body response = Some data ->
    PyDict.get String.eqb "Retry-After" (headers response) = None ->
    snd (perform route kwargs (response :: server))
    = submit :: Sleep 5 :: snd (perform route kwargs server)
    /\ fst (perform route kwargs (response :: server))
       = match fst (perform route kwargs server) with
         | Ok d => Ok (returned route response d)
         | r => r
         end.
Proof.
  intros response server data Hs Hb Hh. cbn [perform].
  rewrite Hs, Hb, Hh. cbn.
  destruct (perform route kwargs server) as [[? | ? |] ?]; split; reflexivity.
Qed.

(** A 429 whose [Retry-After] is a text that is not empty: [asyncio.sleep]
    raises, nothing is slept and nothing is submitted again. *)
Lemma perform_429_text : forall response server data s,
    status response = 429 ->
    json_body response = Some data ->
    PyDict.get String.eqb "Retry-After" (headers response) = Some (HStr s) ->
    s <> EmptyString ->
    perform route kwargs (response :: server) = (Raise TypeError, [submit]).
Proof.
  intros response server data s Hs Hb Hh Hne. cbn [perform].
  rewrite Hs, Hb, Hh. cbn.
  destruct (String.eqb_spec s EmptyString) as [E|_]; [contradiction|]. reflexivity.
Qed.

(** No run of [perform] raises the error of status 429. *)
Lemma perform_never_raises_429 : forall server,
    fst (perform route kwargs server) <> Raise (HTTPError 429).
Proof.
  induction server as [|r server IH]; cbn [perform]; [discriminate|].
  destruct (status r =? 204); [discriminate|].
  destruct (json_body r); try discriminate.
  destruct (negb (status r =? 200)); [|discriminate].
  destruct (Z.eqb_spec (status r) 429) as [E|NE].
  - destruct (header_truthy _).
    + destruct (PyDict.get _ _ _) as [d|]; [|discriminate].
      destruct d; cbn; [discriminate|].
      destruct (perform route kwargs server) as [[? | ? |] ?]; cbn in *;
        [discriminate | exact IH | discriminate].
    + destruct (perform route kwargs server) as [[? | ? |] ?]; cbn in *;
        [discriminate | exact IH | discriminate].
  - destruct (400 <=? status r); cbn; [|discriminate].
    intro H. injection H as H. contradiction.
Qed.

End Perform.

(** With the header as a number the request is submitted, two seconds are
    slept, and the same request is submitted again. *)
Example request_retry_after_number :
  request Sample.members_route [] [Sample.too_many [("Retry-After", HNum 2)]; Sample.fine]
  = (Ok (Data (JObj [("members", JArr [])])),
     [Request "GET" "https://www.guilded.gg/api/teams/t1/members" [];
      Sleep 2;
      Request "GET" "https://www.guilded.gg/api/teams/t1/members" []]).
Proof. reflexivity. Qed.

Example request_retry_after_absent :
  request Sample.members_route [] [Sample.too_many []; Sample.fine]
  = (Ok (Data (JObj [("members", JArr [])])),
     [Request "GET" "https://www.guilded.gg/api/teams/t1/members" [];
      Sleep 5;
      Request "GET" "https://www.guilded.gg/api/teams/t1/members" []]).
Proof. reflexivity. Qed.

(** C2, on the inputs on which the code departs from it.  A response of
    status 429 carries the header [Retry-After] as the text an HTTP client
    reads, for instance [Retry-After: 2]: whatever the route, the body and
    the later responses are, the request is submitted once, [asyncio.sleep]
    is given the text and raises [TypeError], which reaches the caller;
    nothing is slept and the request is not submitted again. *)
Theorem request_retry_after_text_raises :
  (forall (route : Route) (kwargs : list (string * json)) (c : ascii) (s : string)
          (more : list (string * header_value)) (body : json) (server : list response),
      request route kwargs
        ({| status := 429;
            headers := ("Retry-After", HStr (String c s)) :: more;
            json_body := Some body |} :: server)
      = (Raise TypeError, [Request (method route) (url route) kwargs]))
  /\ request Sample.members_route [] [Sample.too_many [("Retry-After", HStr "2")]; Sample.fine]
     = (Raise TypeError,
        [Request "GET" "https://www.guilded.gg/api/teams/t1/members" []]).
Proof.
  split; [|reflexivity].
  intros route kwargs c s more body server. unfold request.
  eapply perform_429_text; [reflexivity | reflexivity | reflexivity | discriminate].
Qed.

End RequestFacts.

(** ** The heartbeat thread *)

Module HeartbeaterFacts.
Import Heartbeater.

(** Nothing binds [_main_thread_id] on a [Heartbeater]. *)
Lemma no_main_thread_id : hasattr "_main_thread_id" = false.
Proof. reflexivity. Qed.

(** A timeout of the wait is not survived: reading [self._main_thread_id]
    raises [AttributeError], which is no [KeyError] and leaves both loops. *)
Lemma await_send_timeout : forall results found total self,
    await_send (TimedOut :: results) found total self = (Raise AttributeError, self, []).
Proof. reflexivity. Qed.

Lemma await_send_never_warns : forall results found total self,
    existsb is_warning (snd (await_send results found total self)) = false.
Proof. intros [|[| |e] results] found total self; reflexivity. Qed.

Lemma await_send_keeps_self : forall results found total self,
    snd (fst (await_send results found total self)) = self.
Proof. intros [|[| |e] results] found total self; reflexivity. Qed.

Lemma await_send_silent : forall results found total self,
    snd (await_send results found total self) = [].
Proof. intros [|[| |e] results] found total self; reflexivity. Qed.

(** One turn: an exception leaves it only from the scheduling, before
    anything was submitted; otherwise the heartbeat was submitted, and the
    turn stops the thread or leaves it as it was. *)
Lemma turn_inv : forall tk self r self' tr,
    turn tk self = (r, self', tr) ->
    (forall e, r = Raise e -> schedule_raises tk = Some e /\ self' = self /\ tr = [])
    /\ (r <> Beyond -> self' = self \/ self' = stop self)
    /\ (r = Beyond -> self' = self)
    /\ (tr = [] \/ tr = [Submit HEARTBEAT_PAYLOAD]).
Proof.
  intros tk self r self' tr H. unfold turn in H.
  destruct (schedule_raises tk) as [e0|].
  - injection H as <- <- <-.
    split; [intros e X; injection X as <-; auto|].
    split; [auto|]. split; [intro X; discriminate | auto].
  - unfold mbind, emit in H.
    pose proof (await_send_keeps_self (results tk) (frame_found tk) 0 self) as K.
    pose proof (await_send_silent (results tk) (frame_found tk) 0 self) as W.
    destruct (await_send (results tk) (frame_found tk) 0 self) as [[[u | e |] self1] tr1];
      cbn [fst snd] in K, W; subst self1 tr1; injection H as <- <- <-;
      (split; [intros e' X; discriminate|]); (split; [auto|]); split; auto;
      intro X; discriminate.
Qed.

(** The thread never logs the warning. *)
Lemma run_never_warns : forall script self,
    existsb is_warning (snd (run script self)) = false.
Proof.
  induction script as [|tk script IH]; intro self; cbn [run].
  - destruct (_stop_ev self); reflexivity.
  - destruct (_stop_ev self); [reflexivity|].
    destruct (wait_raises tk); [reflexivity|].
    destruct (stop_requested tk); [reflexivity|].
    unfold mbind.
    destruct (turn tk self) as [[[u | e |] self1] tr] eqn:T;
      destruct (turn_inv _ _ _ _ _ T) as (_ & _ & _ & [-> | ->]); try reflexivity.
    + specialize (IH self1). destruct (run script self1) as [[r self2] tr2]. exact IH.
    + specialize (IH self1). destruct (run script self1) as [[r self2] tr2]. exact IH.
Qed.

(** The first timeout ends the thread: the heartbeat was submitted, then
    [stop] is called and [run] returns, whatever the script holds next. *)
Lemma run_stops_on_timeout : forall tk script self,
    _stop_ev self = false ->
    wait_raises tk = None ->
    stop_requested tk = false ->
    schedule_raises tk = None ->
    (exists rest, results tk = TimedOut :: rest) ->
    run (tk :: script) self = (Ok tt, stop self, [Submit HEARTBEAT_PAYLOAD]).
Proof.
  intros tk script self Hs Hw Hr Hc [rest Hres]. cbn [run]. rewrite Hs, Hw, Hr.
  unfold mbind at 1, turn. rewrite Hc, Hres.
  unfold mbind, emit. rewrite await_send_timeout. cbn [app].
  destruct script; reflexivity.
Qed.

(** C4, on the inputs on which the code departs from it.  The wait for
    the send of a heartbeat runs out once, whatever happens next: the
    thread has submitted the heartbeat, logs nothing, sets its stop signal
    and returns, so that no later heartbeat is sent.  No run of the thread
    ever logs the warning.  For instance, the send of the first heartbeat
    takes more than ten seconds and then completes, and a second turn is
    ready. *)
Theorem run_timeout_stops_without_warning :
  (forall (script : list tick) (interval : Q) (latency : seconds) (found : bool)
          (rest : list wait_result),
      run ({| wait_raises := None; stop_requested := false; schedule_raises := None;
              results := TimedOut :: rest; frame_found := found |}
             :: script)
          {| interval := interval; latency := latency; _stop_ev := false |}
      = (Ok tt, {| interval := interval; latency := latency; _stop_ev := true |},
         [Submit "2"]))
  /\ (forall (script : list tick) (self : t),
         existsb is_warning (trace_of (run script) self) = false)
  /\ run [ {| wait_raises := None; stop_requested := false; schedule_raises := None;
              results := [TimedOut; Done]; frame_found := true |};
           {| wait_raises := None; stop_requested := false; schedule_raises := None;
              results := [Done]; frame_found := true |} ]
         (init 25)
     = (Ok tt, stop (init 25), [Submit "2"]).
Proof.
  split; [|split; [|reflexivity]].
  - intros script interval latency found rest.
    apply (run_stops_on_timeout _ script
             {| interval := interval; latency := latency; _stop_ev := false |});
      [reflexivity | reflexivity | reflexivity | reflexivity | exists rest; reflexivity].
  - intros script self. apply run_never_warns.
Qed.

(** Without a timeout both heartbeats are sent and the thread goes on. *)
Example run_two_heartbeats :
  run [ {| wait_raises := None; stop_requested := false; schedule_raises := None;
           results := [Done]; frame_found := true |};
        {| wait_raises := None; stop_requested := false; schedule_raises := None;
           results := [Done]; frame_found := true |} ]
      (init 25)
  = (Beyond, init 25, [Submit "2"; Submit "2"]).
Proof. reflexivity. Qed.

(** An exception of the send and the stop signal end the thread. *)
Example run_send_raises :
  run [ {| wait_raises := None; stop_requested := false; schedule_raises := None;
           results := [Failed WebSocketClosure]; frame_found := true |};
        {| wait_raises := None; stop_requested := false; schedule_raises := None;
           results := [Done]; frame_found := true |} ]
      (init 25)
  = (Ok tt, stop (init 25), [Submit "2"]).
Proof. reflexivity. Qed.

Example run_stop_signal :
  run [ {| wait_raises := None; stop_requested := false; schedule_raises := None;
           results := [Done]; frame_found := true |};
        {| wait_raises := None; stop_requested := true; schedule_raises := None;
           results := [Done]; frame_found := true |} ]
      (init 25)
  = (Ok tt, stop (init 25), [Submit "2"]).
Proof. reflexivity. Qed.

(** [run] never assigns [latency]. *)
Lemma run_keeps_latency : forall script self,
    latency (snd (fst (run script self))) = latency self.
Proof.
  induction script as [|tk script IH]; intro self; cbn [run].
  - destruct (_stop_ev self); reflexivity.
  - destruct (_stop_ev self); [reflexivity|].
    destruct (wait_raises tk); [reflexivity|].
    destruct (stop_requested tk); [reflexivity|].
    unfold mbind.
    destruct (turn tk self) as [[[u | e |] self1] tr] eqn:T;
      destruct (turn_inv _ _ _ _ _ T) as (R & K & B & _).
    + specialize (IH self1). destruct (run script self1) as [[r self2] tr2].
      cbn [fst snd] in *. rewrite IH.
      destruct K as [-> | ->]; [discriminate | reflexivity | reflexivity].
    + destruct (R e eq_refl) as (_ & -> & _). reflexivity.
    + rewrite (B eq_refl). reflexivity.
Qed.

End HeartbeaterFacts.

(** ** The event router *)

Module GatewayFacts.

Lemma py_getitem_of_get : forall data k v,
    py_get data k = Ok v -> truthy v = true -> py_getitem data (JStr k) = Ok v.
Proof.
  intros [ | | | | |d] k v H T; try discriminate. cbn in *.
  destruct (dict_get k d) as [x|]; injection H as H; subst; [reflexivity|discriminate].
Qed.

Ltac run_m :=
  unfold mbind, zoom, dispatch, lift, ret, raise, set_ws, send; cbn.

Section Gateway.
Variable json_loads : string -> result json.
Variable Member : json -> obj.
Variable chat : handler -> json -> H unit.

#[local] Abbreviation recv := (received_event json_loads Member chat).
#[local] Abbreviation poll := (poll_event json_loads Member chat).
#[local] Abbreviation polls := (poll_all json_loads Member chat).
#[local] Abbreviation lives := (life json_loads Member chat).


Lemma zoom_keeps_ws : forall (A : Type) (m : H A) s, ws (state_after (zoom m) s) = ws s.
Proof.
  intros A m s. unfold state_after, zoom. destruct (m (http s)) as [[r st] tr]. reflexivity.
Qed.

Lemma await_event_keeps_ws : forall c s,
    ws (state_after (await_event Member chat c) s) = ws s.
Proof.
  intros c s. unfold state_after, await_event.
  pose proof (zoom_keeps_ws _ (run_handler Member chat c) s) as Z. unfold state_after in Z.
  destruct (zoom (run_handler Member chat c) s) as [[[u|e|] s'] tr]; exact Z.
Qed.

Lemma received_event_unmeasured : forall payload s,
    unmeasured s -> unmeasured (state_after (recv payload) s).
Proof.
  intros payload [w h] I. unfold state_after, received_event.
  destruct (str_isdigit payload); [exact I|]. run_m.
  destruct (_full_event_parse json_loads payload) as [data|e|]; cbn; try exact I.
  destruct (py_get data "sid") as [hello|e|]; cbn; try exact I.
  destruct (truthy hello).
  - destruct (py_getitem data (JStr "sid")) as [sid|e|]; cbn; try exact I.
    destruct (py_getitem data (JStr "upgrades")) as [up|e|]; cbn; try exact I.
    destruct (py_getitem data (JStr "pingInterval")) as [pi|e|]; cbn; try exact I.
    destruct (truediv_1000 pi) as [q|e|]; cbn; try exact I. reflexivity.
  - destruct (py_getitem data (JStr "type")) as [ty|e|]; cbn; try exact I.
    destruct (py_getitem data (JStr "data")) as [d|e|]; cbn; try exact I.
    destruct (get ty d) as [[c|]|e|]; cbn; try exact I.
    pose proof (await_event_keeps_ws c {| ws := w; http := h |}) as K.
    unfold state_after in K.
    destruct (await_event Member chat c {| ws := w; http := h |}) as [[r s'] tr].
    cbn [fst snd ws] in *. unfold unmeasured in *. rewrite K. exact I.
Qed.

Lemma heartbeat_thread_unmeasured : forall script s,
    unmeasured s -> unmeasured (state_after (heartbeat_thread script) s).
Proof.
  intros script [w h] I. unfold state_after, heartbeat_thread, unmeasured in *. cbn [ws] in *.
  unfold GuildedWebSocket.latency in I.
  destruct (GuildedWebSocket._heartbeater w) as [hb|] eqn:E; [|cbn; unfold GuildedWebSocket.latency; rewrite E; reflexivity].
  pose proof (HeartbeaterFacts.run_keeps_latency script hb) as K.
  destruct (Heartbeater.run script hb) as [[r hb'] tr]. cbn in *. congruence.
Qed.

Lemma close_state : forall code answer s,
    state_after (close code answer) s
    = {| ws := GuildedWebSocket.with_close_code code (ws s); http := http s |}.
Proof. intros code [b|e|] s; reflexivity. Qed.

Lemma act_unmeasured : forall a s,
    unmeasured s -> unmeasured (state_after (act json_loads Member chat a) s).
Proof.
  intros [msg|script|code answer] s I; cbn [act].
  - destruct msg; cbn [poll_event]; try exact I.
    apply received_event_unmeasured. exact I.
  - apply heartbeat_thread_unmeasured. exact I.
  - rewrite close_state. exact I.
Qed.



(** No handler is found for a name that the parsers object does not have:
    the frame gives the two socket events and nothing else. *)
Lemma unknown_name_ignored : forall payload d name s,
    str_isdigit payload = false ->
    _full_event_parse json_loads payload = Ok (JObj [("type", JStr name); ("data", d)]) ->
    parser_getattr name = None ->
    recv payload s
    = (Ok tt, s,
       [Dispatch "socket_raw_receive" [VJson (JStr payload)] (objects (http s));
        Dispatch "socket_response" [VJson (JObj [("type", JStr name); ("data", d)])]
          (objects (http s))]).
Proof.
  intros payload d name [w h] Hd Hp Hn. unfold received_event. rewrite Hd. run_m.
  rewrite Hp. cbn. rewrite Hn. reflexivity.
Qed.

(** A type that names the method [get] or the attribute [_state] is not
    ignored: the frame raises [TypeError] after the two socket events. *)
Lemma get_or_state_raises : forall payload d name s,
    str_isdigit payload = false ->
    _full_event_parse json_loads payload = Ok (JObj [("type", JStr name); ("data", d)]) ->
    name = "get" \/ name = "_state" ->
    recv payload s
    = (Raise TypeError, s,
       [Dispatch "socket_raw_receive" [VJson (JStr payload)] (objects (http s));
        Dispatch "socket_response" [VJson (JObj [("type", JStr name); ("data", d)])]
          (objects (http s))]).
Proof.
  intros payload d name [w h] Hd Hp Hn. unfold received_event. rewrite Hd. run_m.
  rewrite Hp. destruct Hn as [-> | ->]; reflexivity.
Qed.


(** C5, amended.  The latency of a websocket reads as [float("inf")] at
    all times: no code assigns the [latency] of a [Heartbeater] after its
    creation.  This holds after any sequence of polled messages, runs of
    the heartbeat thread and closes, from any fresh websocket. *)
Theorem latency_always_unmeasured :
  forall (actions : list action) (client : client_state),
    GuildedWebSocket.latency
      (ws (lives actions {| ws := GuildedWebSocket.init; http := client |}))
    = Inf.
Proof.
  intros actions client.
  assert (G : forall s, unmeasured s -> unmeasured (lives actions s)).
  { induction actions as [|a actions IH]; intros s I; cbn [life]; [exact I|].
    apply IH. apply act_unmeasured. exact I. }
  apply G. reflexivity.
Qed.

End Gateway.



(** The division of [pingInterval]: a float, rounded to the nearest one,
    or [OverflowError] beyond the largest float. *)
Example truediv_1000_rounds :
  truediv_1000 (JInt 1) = Ok (1152921504606847 # 1152921504606846976)
  /\ truediv_1000 (JInt 30001) = Ok (8444530776296391 # 281474976710656)
  /\ truediv_1000 (JInt (10 ^ 400)) = Raise OverflowError
  /\ truediv_1000 (JStr "25000") = Raise TypeError.
Proof. repeat split; vm_compute; reflexivity. Qed.

(** The claim of C5 as stated fails in its second half: after the
    handshake, a heartbeat whose send completes and the frame that
    acknowledges it, the latency is still [float("inf")], which is no
    duration. *)
Lemma latency_unmeasured_after_round_trip :
  let s := Sample.life [Poll (TEXT (Sample.frame "0" Sample.hello1));
                        Beat [Sample.beat_done];
                        Poll (TEXT "3")] system_init in
  GuildedWebSocket._heartbeater (ws s) <> None
  /\ GuildedWebSocket.latency (ws s) = Inf
  /\ forall d : Q, GuildedWebSocket.latency (ws s) <> Finite d.
Proof.
  cbv zeta. split; [vm_compute; discriminate|].
  split; [vm_compute; reflexivity|]. intro d. vm_compute. discriminate.
Qed.

(** C8, on an input on which the code departs from it.  The event frame
    has the type [get], which names no event handler: [getattr] finds the
    method [get] itself, its call with one argument raises [TypeError], and
    the exception leaves [received_event], in whatever state the websocket
    and the client are.  The type [_state] fails in the same way. *)
Theorem unrecognized_type_get_raises :
  (forall s : system,
      Sample.received_event
        (Sample.event_frame "get" (JObj [("x", JInt 1)])) s
      = (Raise TypeError, s,
         [Dispatch "socket_raw_receive"
            [VJson (JStr (Sample.event_frame "get" (JObj [("x", JInt 1)])))]
            (objects (http s));
          Dispatch "socket_response"
            [VJson (JObj [("type", JStr "get"); ("data", JObj [("x", JInt 1)])])]
            (objects (http s))]))
  /\ (forall s : system,
         outcome_of (Sample.received_event
                       (Sample.event_frame "_state" (JObj [("x", JInt 1)]))) s
         = Raise TypeError)
  /\ get (JStr "get") (JObj [("x", JInt 1)]) = Raise TypeError.
Proof.
  split; [|split; [|reflexivity]].
  - intros [w h]. unfold Sample.received_event, received_event.
    change (str_isdigit (Sample.event_frame "get" (JObj [("x", JInt 1)]))) with false.
    cbv iota. run_m.
    replace (_full_event_parse Json.loads (Sample.event_frame "get" (JObj [("x", JInt 1)])))
      with (Ok (JObj [("type", JStr "get"); ("data", JObj [("x", JInt 1)])]))
      by (vm_compute; reflexivity).
    reflexivity.
  - intros [w h]. unfold outcome_of, Sample.received_event, received_event.
    change (str_isdigit (Sample.event_frame "_state" (JObj [("x", JInt 1)]))) with false.
    cbv iota. run_m.
    replace (_full_event_parse Json.loads (Sample.event_frame "_state" (JObj [("x", JInt 1)])))
      with (Ok (JObj [("type", JStr "_state"); ("data", JObj [("x", JInt 1)])]))
      by (vm_compute; reflexivity).
    reflexivity.
Qed.

(** A type that names nothing on the parsers object is ignored. *)
Example unrecognized_type_ignored :
  Sample.received_event (Sample.event_frame "Nope" (JObj [("x", JInt 1)])) system_init
  = (Ok tt, system_init,
     [Dispatch "socket_raw_receive"
        [VJson (JStr (Sample.event_frame "Nope" (JObj [("x", JInt 1)])))] [];
      Dispatch "socket_response"
        [VJson (JObj [("type", JStr "Nope"); ("data", JObj [("x", JInt 1)])])] []]).
Proof. vm_compute. reflexivity. Qed.

End GatewayFacts.

(** ** The member handlers *)

Module HandlerFacts.

Lemma key_eqb_eq : forall a b, key_eqb a b = true <-> a = b.
Proof.
  intros [|x|x|x] [|y|y|y]; cbn; split; intro H; try discriminate; try reflexivity.
  - apply Z.eqb_eq in H. congruence.
  - injection H as H. apply Z.eqb_eq. exact H.
  - apply String.eqb_eq in H. congruence.
  - injection H as H. apply String.eqb_eq. exact H.
  - apply Nat.eqb_eq in H. congruence.
  - injection H as H. apply Nat.eqb_eq. exact H.
Qed.

(** *** The heap *)

Lemma nth_error_heap_update_same : forall (h : heap) (r : ref) (o o' : obj),
    nth_error h r = Some o -> nth_error (heap_update r o' h) r = Some o'.
Proof.
  induction h as [|x h IH]; intros [|r] o o' H; cbn in *; try discriminate; [reflexivity|].
  eapply IH. exact H.
Qed.

Lemma nth_error_heap_update_other : forall (h : heap) (r r' : ref) (o' : obj),
    r <> r' -> nth_error (heap_update r o' h) r' = nth_error h r'.
Proof.
  induction h as [|x h IH]; intros [|r] [|r'] o' N; cbn; try reflexivity; try congruence.
  apply IH. congruence.
Qed.

(** Reading after [setattr(r, name, v)]. *)
Lemma attr_of_heap_update : forall (h : heap) (r : ref) (o : obj) name v r' name',
    nth_error h r = Some o ->
    attr_of (heap_update r (PyDict.set String.eqb name v o) h) r' name'
    = if Nat.eqb r r' && String.eqb name name' then Some v else attr_of h r' name'.
Proof.
  intros h r o name v r' name' H. unfold attr_of.
  destruct (Nat.eqb_spec r r') as [E|N]; [subst r'|]; cbn [andb].
  - rewrite (nth_error_heap_update_same _ _ _ _ H), H.
    destruct (String.eqb_spec name name') as [E'|N']; [subst name'|].
    + apply (PyDictFacts.get_set_same String.eqb String.eqb_eq).
    + apply (PyDictFacts.get_set_other String.eqb String.eqb_eq). congruence.
  - rewrite nth_error_heap_update_other by assumption. reflexivity.
Qed.

Lemma attr_of_app : forall (h : heap) (o : obj) r name,
    (r < length h)%nat -> attr_of (h ++ [o]) r name = attr_of h r name.
Proof. intros h o r name L. unfold attr_of. rewrite nth_error_app1 by exact L. reflexivity. Qed.

(** *** The operations of the monad, read backwards *)

Lemma lift_inv : forall (A : Type) (x : result A) (st st' : client_state) r tr,
    lift x st = (r, st', tr) -> r = x /\ st' = st /\ tr = [].
Proof. unfold lift. intros A x st st' r tr H. injection H as <- <- <-. auto. Qed.






(** *** The member cache *)

Lemma member_at_ensure : forall st tk0 tk k,
    member_at
      (with_team_members
         (PyDict.set key_eqb tk0
            (match PyDict.get key_eqb tk0 (_team_members st) with
             | Some d => d
             | None => []
             end) (_team_members st)) st) tk k
    = member_at st tk k.
Proof.
  intros st tk0 tk k. unfold member_at. cbn [_team_members with_team_members].
  destruct (key_eqb tk0 tk) eqn:E.
  - apply key_eqb_eq in E. subst tk.
    rewrite (PyDictFacts.get_set_same key_eqb key_eqb_eq).
    destruct (PyDict.get key_eqb tk0 (_team_members st)); reflexivity.
  - rewrite (PyDictFacts.get_set_other key_eqb key_eqb_eq); [reflexivity|].
    intro X. subst tk. rewrite (PyDictFacts.eqb_refl key_eqb key_eqb_eq) in E. discriminate.
Qed.

Lemma member_at_put : forall st tk0 k0 m d tk k,
    PyDict.get key_eqb tk0 (_team_members st) = Some d ->
    member_at
      (with_team_members
         (PyDict.set key_eqb tk0 (PyDict.set key_eqb k0 m d) (_team_members st)) st) tk k
    = if key_eqb tk0 tk && key_eqb k0 k then Some m else member_at st tk k.
Proof.
  intros st tk0 k0 m d tk k G. unfold member_at. cbn [_team_members with_team_members].
  destruct (key_eqb tk0 tk) eqn:E; cbn [andb].
  - apply key_eqb_eq in E. subst tk.
    rewrite (PyDictFacts.get_set_same key_eqb key_eqb_eq), G.
    destruct (key_eqb k0 k) eqn:E'.
    + apply key_eqb_eq in E'. subst k. apply (PyDictFacts.get_set_same key_eqb key_eqb_eq).
    + apply (PyDictFacts.get_set_other key_eqb key_eqb_eq).
      intro X. subst k. rewrite (PyDictFacts.eqb_refl key_eqb key_eqb_eq) in E'. discriminate.
  - rewrite (PyDictFacts.get_set_other key_eqb key_eqb_eq); [reflexivity|].
    intro X. subst tk. rewrite (PyDictFacts.eqb_refl key_eqb key_eqb_eq) in E. discriminate.
Qed.


(** *** The invariants *)





(** *** [TeamXpSet] *)



Ltac stop H := injection H as <- <- <-.


(** *** [TeamMemberUpdated] *)




(** *** [teamRolesUpdates] *)







(** With the team and the member cached and an empty batch of fields,
    [TeamMemberUpdated] raises after the raw event, in any state. *)
Lemma TeamMemberUpdated_empty_batch :
  forall Member data st teamId userId tk0 team tv tk k before,
    py_getitem data (JStr "teamId") = Ok teamId ->
    hash (VJson teamId) = Ok tk0 ->
    PyDict.get key_eqb tk0 (_teams st) = Some team ->
    py_getitem data (JStr "userId") = Ok userId ->
    attr_of (objects st) team "id" = Some tv ->
    hash tv = Ok tk ->
    hash (VJson userId) = Ok k ->
    member_at st tk k = Some before ->
    py_getitem data (JStr "userInfo") = Ok (JObj []) ->
    TeamMemberUpdated Member data st
    = (Raise UnboundLocalError,
       with_objects (objects st ++ [Member data]) st,
       [Dispatch "raw_member_update" [VRef (length (objects st))]
          (objects st ++ [Member data])]).
Proof.
  intros Member data st teamId userId tk0 team tv tk k before
         Ht Hk0 Gt Hu Atv Htv Hk Hm Hinfo.
  assert (L : (team < length (objects st))%nat).
  { unfold attr_of in Atv. apply nth_error_Some. intro X. rewrite X in Atv. discriminate. }
  unfold attr_of in Atv. unfold member_at in Hm.
  destruct (nth_error (objects st) team) as [o|] eqn:Eo; [|discriminate].
  assert (Eo' : nth_error (objects st ++ [Member data]) team = Some o)
    by (rewrite nth_error_app1 by exact L; exact Eo).
  unfold TeamMemberUpdated.
  repeat (progress (unfold mbind, new, dispatch, lift, get_team, _get_team, get_member,
                      _get_team_member, getattr, ret, raise;
                    cbv beta iota;
                    cbn [objects with_objects _teams _team_members app];
                    rewrite ?Ht, ?Hk0, ?Gt, ?Hu, ?Eo', ?Atv, ?Htv, ?Hk, ?Hm, ?Hinfo)).
  cbn. reflexivity.
Qed.


Section Claims.
Variable Member : json -> obj.
Variable chat : handler -> json -> H unit.


End Claims.


(** The prior value of [xp] was 5; through [before] one reads 7. *)
Example xp_before_shows_new_value :
  attr_of (objects Sample.one_member) 1%nat "xp" = Some (VJson (JInt 5))
  /\ TeamXpSet Sample.xp_data Sample.one_member
     = (Ok tt,
        with_objects
          [ [("id", VJson (JStr "t1"))];
            [("id", VJson (JStr "u1")); ("team", VRef 0%nat); ("xp", VJson (JInt 7))] ]
          Sample.one_member,
        [Dispatch "member_update" [VRef 1%nat; VRef 1%nat]
           [ [("id", VJson (JStr "t1"))];
             [("id", VJson (JStr "u1")); ("team", VRef 0%nat); ("xp", VJson (JInt 7))] ]]).
Proof. split; reflexivity. Qed.

(** Two entries of a batch of role updates name the cached member: both
    events show the roles of the second entry, through [before] as well. *)
Example roles_before_shows_new_value :
  let data :=
    JObj [("teamId", JStr "t1");
          ("memberRoleIds",
           JArr [JObj [("userId", JStr "u1"); ("roleIds", JArr [JInt 1])];
                 JObj [("userId", JStr "u9"); ("roleIds", JArr [JInt 4])];
                 JObj [("userId", JStr "u1"); ("roleIds", JArr [JInt 2; JInt 3])]])] in
  let final :=
    [ [("id", VJson (JStr "t1"))];
      [("id", VJson (JStr "u1")); ("team", VRef 0%nat); ("xp", VJson (JInt 5));
       ("roles", VJson (JArr [JInt 2; JInt 3]))] ] in
  teamRolesUpdates data Sample.one_member
  = (Ok tt, with_objects final Sample.one_member,
     [Dispatch "member_update" [VRef 1%nat; VRef 1%nat] final;
      Dispatch "member_update" [VRef 1%nat; VRef 1%nat] final]).
Proof. reflexivity. Qed.

(** Every field of a profile update is on the member at the dispatch. *)
Example profile_update_all_fields :
  let st' := state_after (TeamMemberUpdated Sample.Member
                            (Sample.profile_data [("nickname", JStr "Neo"); ("xp", JInt 9)]))
               Sample.one_member in
  attr_of (objects st') 1%nat "nickname" = Some (VJson (JStr "Neo"))
  /\ attr_of (objects st') 1%nat "xp" = Some (VJson (JInt 9)).
Proof. split; reflexivity. Qed.

(** With a field in the batch, [TeamMemberUpdated] dispatches the raw event
    and then one [member_update]. *)
Example profile_update_one_field :
  dispatched (trace_of (TeamMemberUpdated Sample.Member
                          (Sample.profile_data [("nickname", JStr "nick")]))
                Sample.one_member)
  = ["raw_member_update"; "member_update"].
Proof. reflexivity. Qed.

(** C7, on the input on which the code departs from it.  The profile
    update of a cached member carries an empty batch of fields: the raw
    event is dispatched, the loop does not run, [after] is unbound at the
    dispatch of [member_update] and the handler raises; [received_event]
    wraps the exception, reports it by an [error] event and raises it
    again.  No [member_update] is dispatched. *)
Theorem member_update_empty_batch_raises :
  let s := {| ws := GuildedWebSocket.init; http := Sample.one_member |} in
  let payload := Sample.event_frame "TeamMemberUpdated" (Sample.profile_data []) in
  TeamMemberUpdated Sample.Member (Sample.profile_data []) Sample.one_member
  = (Raise UnboundLocalError,
     with_objects (objects Sample.one_member ++ [Sample.Member (Sample.profile_data [])])
       Sample.one_member,
     [Dispatch "raw_member_update" [VRef 2%nat]
        (objects Sample.one_member ++ [Sample.Member (Sample.profile_data [])])])
  /\ outcome_of (Sample.received_event payload) s
     = Raise (GuildedException UnboundLocalError)
  /\ dispatched (trace_of (Sample.received_event payload) s)
     = ["socket_raw_receive"; "socket_response"; "raw_member_update"; "error"].
Proof.
  cbv zeta. split; [reflexivity|]. split; vm_compute; reflexivity.
Qed.

End HandlerFacts.

(** * Further properties *)

(** ** The codec and the router, beyond the claims *)

Module RouterMore.

Lemma get_some_del_some : forall (k : string) (d : list (string * json)) (v : json),
    PyDict.get String.eqb k d = Some v ->
    exists rest, PyDict.del String.eqb k d = Some rest.
Proof.
  intros k d v. induction d as [|[k' v'] d IH]; cbn; [discriminate|].
  destruct (String.eqb k' k); [eexists; reflexivity|].
  intro H. destruct (IH H) as [rest ->]. eexists. reflexivity.
Qed.

(** X1.  Whatever [_pretty_event] returns is a dict: either an event, a
    dict of exactly the keys [type] and [data] with a true type and a dict
    as data, or the payload object itself, whose [type] is absent or
    false.  So the [get] calls of [received_event] on the result never
    fail for want of the method. *)
Theorem pretty_event_returns_dict :
  forall (payload v : json),
    _pretty_event payload = Ok v ->
    exists d : list (string * json),
      v = JObj d
      /\ ((exists ty rest,
              d = [("type", ty); ("data", JObj rest)] /\ truthy ty = true)
          \/ (exists ty, py_get v "type" = Ok ty /\ truthy ty = false)).
Proof.
  intros payload v H. unfold _pretty_event in H.
  assert (G : forall p, (ty <- py_get p "type" ;;
                         if negb (truthy ty) then Ok p
                         else match p with
                              | JObj d =>
                                  match PyDict.del String.eqb "type" d with
                                  | Some rest => Ok (JObj [("type", ty); ("data", JObj rest)])
                                  | None => Raise KeyError
                                  end
                              | _ => Raise AttributeError
                              end) = Ok v ->
                        exists d, v = JObj d
                          /\ ((exists ty rest,
                                 d = [("type", ty); ("data", JObj rest)] /\ truthy ty = true)
                              \/ (exists ty, py_get v "type" = Ok ty /\ truthy ty = false))).
  { intros p E. destruct p as [ | | | | |d]; try discriminate. cbn in E.
    destruct (dict_get "type" d) as [ty|] eqn:T; cbn in E.
    - destruct (truthy ty) eqn:Tr; cbn in E.
      + destruct (PyDict.del String.eqb "type" d) as [rest|]; [|discriminate].
        injection E as <-. eexists. split; [reflexivity|]. left. exists ty, rest. auto.
      + injection E as <-. exists d. split; [reflexivity|]. right. exists ty.
        cbn. rewrite T. auto.
    - injection E as <-. exists d. split; [reflexivity|]. right. exists JNull.
      cbn. rewrite T. auto. }
  destruct payload as [ |b|z|s|l|d]; try (cbn in H; discriminate).
  - destruct (nth_error l 1) as [p|]; [|discriminate]. apply (G p). exact H.
  - apply (G (JObj d)). exact H.
Qed.

Lemma pretty_event_returns_dict_witness :
  exists d : list (string * json),
    JObj [("type", JStr "foo"); ("data", JObj [("a", JInt 1)])] = JObj d
    /\ ((exists ty rest,
            d = [("type", ty); ("data", JObj rest)] /\ truthy ty = true)
        \/ (exists ty,
              py_get (JObj [("type", JStr "foo"); ("data", JObj [("a", JInt 1)])]) "type"
              = Ok ty /\ truthy ty = false)).
Proof.
  apply (pretty_event_returns_dict
           (JArr [JStr "foo"; JObj [("type", JStr "foo"); ("a", JInt 1)]])).
  reflexivity.
Defined.

Section Router.
Variable json_loads : string -> result json.
Variable Member : json -> obj.
Variable chat : handler -> json -> H unit.

#[local] Abbreviation recv := (received_event json_loads Member chat).

(** X2.  A frame whose payload object has a true [type] is an event and
    never a handshake, even when that object also carries [sid]: the
    session fields and the heartbeater of the websocket are as before, and
    the two socket events come first. *)
Theorem typed_frame_keeps_session :
  forall (payload : string) (v : json) (d : list (string * json)) (ty : json)
         (s : system),
    str_isdigit payload = false ->
    json_loads (strip_type_code payload) = Ok v ->
    payload_object v = Some (JObj d) ->
    dict_get "type" d = Some ty ->
    truthy ty = true ->
    ws (state_after (recv payload) s) = ws s
    /\ exists rest tr,
        PyDict.del String.eqb "type" d = Some rest
        /\ trace_of (recv payload) s
           = Dispatch "socket_raw_receive" [VJson (JStr payload)] (objects (http s))
             :: Dispatch "socket_response"
                  [VJson (JObj [("type", ty); ("data", JObj rest)])] (objects (http s))
             :: tr.
Proof.
  intros payload v d ty [w h] Hd Hl Hv Ht Htr.
  destruct (get_some_del_some "type" d ty Ht) as [rest Hdel].
  assert (P : _full_event_parse json_loads payload
              = Ok (JObj [("type", ty); ("data", JObj rest)])).
  { unfold _full_event_parse. rewrite Hl. cbn [bind]. unfold _pretty_event.
    assert (E : match v with
                | JArr l => match nth_error l 1 with
                            | Some p => Ok p
                            | None => Raise IndexError
                            end
                | _ => Ok v
                end = Ok (JObj d)).
    { unfold payload_object in Hv. destruct v; try discriminate.
      - rewrite Hv. reflexivity.
      - exact (f_equal (fun o => match o with Some x => Ok x | None => Raise IndexError end) Hv). }
    rewrite E. cbn. rewrite Ht. cbn. rewrite Htr. cbn. rewrite Hdel. reflexivity. }
  unfold state_after, trace_of, received_event. rewrite Hd.
  GatewayFacts.run_m. rewrite P. cbn.
  destruct (get ty (JObj rest)) as [[c|]|e|]; cbn.
  - pose proof (GatewayFacts.await_event_keeps_ws Member chat c {| ws := w; http := h |}) as K.
    unfold state_after in K.
    destruct (await_event Member chat c {| ws := w; http := h |}) as [[r s'] tr].
    cbn in *. split; [exact K|]. exists rest, tr. auto.
  - split; [reflexivity|]. exists rest, []. auto.
  - split; [reflexivity|]. exists rest, []. auto.
  - split; [reflexivity|]. exists rest, []. auto.
Qed.

Lemma received_event_decode_error :
  forall (payload : string) (e : exn) (s : system),
    str_isdigit payload = false ->
    _full_event_parse json_loads payload = Raise e ->
    recv payload s
    = (Raise e, s,
       [Dispatch "socket_raw_receive" [VJson (JStr payload)] (objects (http s))]).
Proof.
  intros payload e [w h] Hd Hp. unfold received_event. rewrite Hd.
  GatewayFacts.run_m. rewrite Hp. reflexivity.
Qed.

(** X3.  An exception of the decoding (of [json.loads] or of
    [_pretty_event]) leaves [received_event] as it is, not wrapped and not
    reported by an [error] event: only [socket_raw_receive] was
    dispatched, and nothing changed. *)
Theorem decode_error_propagates :
  forall (payload : string) (e : exn) (s : system),
    str_isdigit payload = false ->
    _full_event_parse json_loads payload = Raise e ->
    recv payload s
    = (Raise e, s,
       [Dispatch "socket_raw_receive" [VJson (JStr payload)] (objects (http s))])
    /\ dispatched (trace_of (recv payload) s) = ["socket_raw_receive"].
Proof.
  intros payload e s Hd Hp.
  pose proof (received_event_decode_error payload e s Hd Hp) as R.
  split; [exact R|]. unfold trace_of. rewrite R. reflexivity.
Qed.

(** X4.  A frame whose JSON text is a list of fewer than two elements
    raises [IndexError], and one whose second element is a number, a
    string, a boolean, [null] or a list raises [AttributeError]: both leave
    [received_event] unwrapped. *)
Theorem short_or_scalar_payload_raises :
  forall (payload : string) (l : list json) (s : system),
    str_isdigit payload = false ->
    json_loads (strip_type_code payload) = Ok (JArr l) ->
    match nth_error l 1 with
    | None => outcome_of (recv payload) s = Raise IndexError
    | Some (JObj _) => True
    | Some _ => outcome_of (recv payload) s = Raise AttributeError
    end.
Proof.
  intros payload l [w h] Hd Hl.
  assert (E : forall e, _full_event_parse json_loads payload = Raise e ->
                        outcome_of (recv payload) {| ws := w; http := h |} = Raise e).
  { intros e P. unfold outcome_of. rewrite (received_event_decode_error payload e _ Hd P).
    reflexivity. }
  unfold _full_event_parse in E. rewrite Hl in E. cbn [bind] in E. unfold _pretty_event in E.
  destruct (nth_error l 1) as [[ | | | | | ]|]; try exact I; apply E; reflexivity.
Qed.

(** X5.  A frame whose payload object has neither a true [sid] nor a
    [type] key raises [KeyError] at [data["type"]], outside the [try]:
    after the two socket events the exception leaves [received_event]
    unwrapped.  The frames that [trigger_typing] sends are of this kind. *)
Theorem untyped_frame_raises_KeyError :
  forall (payload : string) (v : json) (d : list (string * json)) (s : system),
    str_isdigit payload = false ->
    json_loads (strip_type_code payload) = Ok v ->
    payload_object v = Some (JObj d) ->
    dict_get "type" d = None ->
    dict_get "sid" d = None ->
    recv payload s
    = (Raise KeyError, s,
       [Dispatch "socket_raw_receive" [VJson (JStr payload)] (objects (http s));
        Dispatch "socket_response" [VJson (JObj d)] (objects (http s))]).
Proof.
  intros payload v d [w h] Hd Hl Hv Ht Hs.
  assert (P : _full_event_parse json_loads payload = Ok (JObj d)).
  { unfold _full_event_parse. rewrite Hl. cbn [bind]. unfold _pretty_event.
    assert (E : match v with
                | JArr l => match nth_error l 1 with
                            | Some p => Ok p
                            | None => Raise IndexError
                            end
                | _ => Ok v
                end = Ok (JObj d)).
    { unfold payload_object in Hv. destruct v; try discriminate.
      - rewrite Hv. reflexivity.
      - exact (f_equal (fun o => match o with Some x => Ok x | None => Raise IndexError end) Hv). }
    rewrite E. cbn. rewrite Ht. reflexivity. }
  unfold received_event. rewrite Hd. GatewayFacts.run_m. rewrite P. cbn.
  rewrite Hs. cbn. rewrite Ht. reflexivity.
Qed.

(** X6.  An exception [e] of a handler is wrapped at most once, reported
    by one [error] event that comes after the events of the handler, and
    raised again; what the handler did to the client stays done and the
    websocket is untouched.  A handler that returns gives no [error]
    event. *)
Theorem handler_error_reported_and_raised :
  forall (c : coroutine) (s : system) (r : result unit) (st' : client_state)
         (tr : list event),
    run_handler Member chat c (http s) = (r, st', tr) ->
    await_event Member chat c s
    = match r with
      | Raise e =>
          (Raise (wrapped e), {| ws := ws s; http := st' |},
           tr ++ [Dispatch "error" [VExn (wrapped e)] (objects st')])
      | _ => (r, {| ws := ws s; http := st' |}, tr)
      end
    /\ forall e, wrapped (wrapped e) = wrapped e.
Proof.
  intros c s r st' tr H. split.
  - unfold await_event, zoom. rewrite H. destruct r as [u|e|]; reflexivity.
  - intro e. destruct e; reflexivity.
Qed.

End Router.

Lemma typed_frame_keeps_session_witness :
  ws (state_after
        (Sample.received_event
           (Sample.event_frame "Nope" (JObj [("sid", JStr "abc123")]))) system_init)
  = ws system_init.
Proof.
  apply (typed_frame_keeps_session Json.loads Sample.Member Sample.chat
           (Sample.event_frame "Nope" (JObj [("sid", JStr "abc123")]))
           (JArr [JStr "Nope"; JObj [("type", JStr "Nope"); ("sid", JStr "abc123")]])
           [("type", JStr "Nope"); ("sid", JStr "abc123")] (JStr "Nope") system_init).
  - reflexivity.
  - vm_compute. reflexivity.
  - reflexivity.
  - reflexivity.
  - reflexivity.
Defined.

Lemma decode_error_propagates_witness :
  Sample.received_event "42[1," system_init
  = (Raise JSONDecodeError, system_init,
     [Dispatch "socket_raw_receive" [VJson (JStr "42[1,")] []]).
Proof.
  refine (proj1 (decode_error_propagates Json.loads Sample.Member Sample.chat
           "42[1," JSONDecodeError system_init _ _)).
  - reflexivity.
  - vm_compute. reflexivity.
Defined.

Lemma short_or_scalar_payload_raises_witness :
  outcome_of (Sample.received_event "42[7]") system_init = Raise IndexError.
Proof.
  apply (short_or_scalar_payload_raises Json.loads Sample.Member Sample.chat
           "42[7]" [JInt 7] system_init).
  - reflexivity.
  - vm_compute. reflexivity.
Defined.

Lemma untyped_frame_raises_KeyError_witness :
  outcome_of (Sample.received_event
                (encode Json.dumps "ChatChannelTyping" (JObj [("channelId", JStr "c1")])))
    system_init
  = Raise KeyError.
Proof.
  unfold outcome_of, Sample.received_event.
  rewrite (untyped_frame_raises_KeyError Json.loads Sample.Member Sample.chat
             (encode Json.dumps "ChatChannelTyping" (JObj [("channelId", JStr "c1")]))
             (JArr [JStr "ChatChannelTyping"; JObj [("channelId", JStr "c1")]])
             [("channelId", JStr "c1")] system_init).
  - reflexivity.
  - reflexivity.
  - vm_compute. reflexivity.
  - reflexivity.
  - reflexivity.
  - reflexivity.
Defined.

Lemma handler_error_reported_and_raised_witness :
  await_event Sample.Member Sample.chat
    (hTeamMemberUpdated, Sample.profile_data [])
    {| ws := GuildedWebSocket.init; http := Sample.one_member |}
  = (Raise (GuildedException UnboundLocalError),
     {| ws := GuildedWebSocket.init;
        http := state_after (TeamMemberUpdated Sample.Member (Sample.profile_data []))
                  Sample.one_member |},
     trace_of (TeamMemberUpdated Sample.Member (Sample.profile_data [])) Sample.one_member
     ++ [Dispatch "error" [VExn (GuildedException UnboundLocalError)]
           (objects (state_after (TeamMemberUpdated Sample.Member (Sample.profile_data []))
                       Sample.one_member))]).
Proof.
  apply (handler_error_reported_and_raised Sample.Member Sample.chat
           (hTeamMemberUpdated, Sample.profile_data [])
           {| ws := GuildedWebSocket.init; http := Sample.one_member |}
           (Raise UnboundLocalError)).
  reflexivity.
Defined.

End RouterMore.

(** ** Encoding, then decoding, for any dumper and parser *)

Module RoundTripMore.
Local Open Scope string_scope.

Section RoundTrip.
Variable json_loads : string -> result json.
Variable json_dumps : json -> string.

(** X7.  Let the parser read back what the dumper writes for the list of
    an event name and a payload object, a text that does not begin with a
    digit.  Then decoding the frame of [encode] strips exactly the prefix
    [42] and gives what [_pretty_event] makes of the payload object alone:
    the object itself when it has no [type] key, and the event of its own
    [type] (not of the event name) when that is true. *)
Theorem encode_then_decode :
  forall (event_name : string) (d : list (string * json)),
    json_loads (json_dumps (JArr [JStr event_name; JObj d]))
    = Ok (JArr [JStr event_name; JObj d]) ->
    first_is_digit (json_dumps (JArr [JStr event_name; JObj d])) = false ->
    strip_type_code (encode json_dumps event_name (JObj d))
    = json_dumps (JArr [JStr event_name; JObj d])
    /\ _full_event_parse json_loads (encode json_dumps event_name (JObj d))
       = _pretty_event (JObj d)
    /\ match dict_get "type" d with
       | None =>
           _full_event_parse json_loads (encode json_dumps event_name (JObj d))
           = Ok (JObj d)
       | Some ty =>
           if truthy ty
           then exists rest,
               PyDict.del String.eqb "type" d = Some rest
               /\ _full_event_parse json_loads (encode json_dumps event_name (JObj d))
                  = Ok (JObj [("type", ty); ("data", JObj rest)])
           else _full_event_parse json_loads (encode json_dumps event_name (JObj d))
                = Ok (JObj d)
       end.
Proof.
  intros event_name d Hl Hf.
  assert (S : strip_type_code (encode json_dumps event_name (JObj d))
              = json_dumps (JArr [JStr event_name; JObj d])).
  { unfold encode. rewrite CodecFacts.strip_type_code_spec.
    rewrite (CodecFacts.drop_digits_app "42") by reflexivity.
    apply CodecFacts.drop_digits_id. exact Hf. }
  assert (P : _full_event_parse json_loads (encode json_dumps event_name (JObj d))
              = _pretty_event (JObj d)).
  { unfold _full_event_parse. rewrite S, Hl. reflexivity. }
  split; [exact S|]. split; [exact P|]. rewrite P. unfold _pretty_event. cbn.
  destruct (dict_get "type" d) as [ty|] eqn:T; cbn; [|reflexivity].
  destruct (truthy ty); cbn; [|reflexivity].
  destruct (RouterMore.get_some_del_some "type" d ty T) as [rest R].
  exists rest. rewrite R. auto.
Qed.

End RoundTrip.

Lemma encode_then_decode_witness :
  _full_event_parse Json.loads
    (encode Json.dumps "ChatChannelTyping"
       (JObj [("type", JStr "ChatMessageCreated"); ("channelId", JStr "c1")]))
  = _pretty_event (JObj [("type", JStr "ChatMessageCreated"); ("channelId", JStr "c1")]).
Proof.
  apply (encode_then_decode Json.loads Json.dumps "ChatChannelTyping"
           [("type", JStr "ChatMessageCreated"); ("channelId", JStr "c1")]).
  - vm_compute. reflexivity.
  - reflexivity.
Defined.

End RoundTripMore.

(** ** The heartbeat thread, beyond the claims *)

Module HeartbeaterMore.
Import Heartbeater.


(** X9.  All that the thread does to the outside is to submit the
    heartbeat payload, at most once for each turn of its loop. *)
Theorem run_only_submits_heartbeats :
  forall (script : list tick) (self : t),
    exists n : nat,
      (n <= length script)%nat
      /\ trace_of (run script) self = repeat (Submit HEARTBEAT_PAYLOAD) n.
Proof.
  unfold trace_of.
  induction script as [|tk script IH]; intro self; cbn [run].
  - exists 0%nat. destruct (_stop_ev self); cbn; auto.
  - destruct (_stop_ev self); [exists 0%nat; cbn; split; [lia | reflexivity]|].
    destruct (wait_raises tk); [exists 0%nat; cbn; split; [lia | reflexivity]|].
    destruct (stop_requested tk); [exists 0%nat; cbn; split; [lia | reflexivity]|].
    unfold mbind.
    destruct (turn tk self) as [[[u | e |] self1] tr] eqn:T;
      destruct (HeartbeaterFacts.turn_inv _ _ _ _ _ T) as (_ & _ & _ & W).
    + destruct (IH self1) as (n & L & E). destruct (run script self1) as [[r self2] tr2].
      cbn [snd] in *. rewrite E. destruct W as [-> | ->].
      * exists n. split; [cbn; lia | reflexivity].
      * exists (S n). split; [cbn; lia | reflexivity].
    + destruct W as [-> | ->]; [exists 0%nat | exists 1%nat]; cbn; split; (lia || reflexivity).
    + destruct W as [-> | ->]; [exists 0%nat | exists 1%nat]; cbn; split; (lia || reflexivity).
Qed.

End HeartbeaterMore.

(** ** The message cache, beyond the claims *)

Module MessageCacheMore.
Import MessageCache.
Section Cache.
Context {K M : Type}.
Variable eqb : K -> K -> bool.
Variable id : M -> K.
Hypothesis eqb_eq : forall a b, eqb a b = true <-> a = b.
#[local] Abbreviation evict := (@MessageCache.evict K M eqb).
#[local] Abbreviation add := (@MessageCache.add_to_message_cache K M eqb id).

Lemma get_tail_none : forall (k : K) (e : K * M) (d : list (K * M)),
    PyDict.get eqb k (e :: d) = None -> PyDict.get eqb k d = None.
Proof. intros k [k' v'] d. cbn. destruct (eqb k' k); [discriminate | auto]. Qed.

Lemma get_snoc_fresh : forall (k : K) (v : M) (d : list (K * M)),
    PyDict.get eqb k d = None -> PyDict.get eqb k (d ++ [(k, v)]) = Some v.
Proof.
  intros k v d H. rewrite <- (PyDictFacts.set_fresh eqb k v d H).
  apply (PyDictFacts.get_set_same eqb eqb_eq).
Qed.

(** X10.  With a bound of at least one, in a cache that respects it, the
    message just inserted is found under its id right after the
    insertion: the eviction never takes the newcomer. *)
Theorem inserted_message_is_found :
  forall (N : Z) (d : cache) (m : M),
    1 <= N ->
    Z.of_nat (length d) <= N ->
    exists d' : cache,
      add N d m = Some (Ok d') /\ PyDict.get eqb (id m) d' = Some m.
Proof.
  intros N d m HN Hd.
  rewrite (MessageCacheFacts.add_to_message_cache_eq eqb id eqb_eq N d m) by lia.
  eexists. split; [reflexivity|].
  destruct (PyDict.get eqb (id m) d) as [old|] eqn:G.
  - assert (L : length (PyDict.set eqb (id m) m d) = length d).
    { apply (PyDictFacts.set_length_present eqb). unfold PyDict.mem. rewrite G. reflexivity. }
    rewrite L. replace (length d - Z.to_nat N)%nat with 0%nat by lia.
    apply (PyDictFacts.get_set_same eqb eqb_eq).
  - rewrite (PyDictFacts.set_fresh eqb (id m) m d G). rewrite length_app. cbn [length].
    destruct (Z_le_gt_dec (Z.of_nat (length d) + 1) N) as [L|L].
    + replace (length d + 1 - Z.to_nat N)%nat with 0%nat by lia.
      apply get_snoc_fresh. exact G.
    + replace (length d + 1 - Z.to_nat N)%nat with 1%nat by lia.
      destruct d as [|e d0]; [cbn in *; lia|]. cbn [app skipn].
      apply get_snoc_fresh. eapply get_tail_none. exact G.
Qed.

Lemma evict_negative : forall (N : Z) (d : cache) (fuel : nat),
    N < 0 -> (length d < fuel)%nat -> evict fuel N d = Some (Raise IndexError).
Proof.
  intros N d. induction d as [|e d IH]; intros fuel HN Hf;
    (destruct fuel as [|fuel]; [inversion Hf|]).
  - cbn. destruct (Z.gtb_spec 0 N); [reflexivity | lia].
  - rewrite (MessageCacheFacts.evict_step eqb eqb_eq) by (cbn [length]; lia).
    apply IH; [exact HN | cbn in Hf; lia].
Qed.

(** X11.  The degenerate bounds.  With the bound 0 every insertion
    returns the empty cache: the message is evicted at once.  With a
    negative bound every insertion raises [IndexError], the loop deleting
    until nothing is left to delete. *)
Theorem degenerate_bounds :
  forall (d : cache) (m : M),
    add 0 d m = Some (Ok [])
    /\ forall N : Z, (N <? 0) = true -> add N d m = Some (Raise IndexError).
Proof.
  intros d m. split.
  - rewrite (MessageCacheFacts.add_to_message_cache_eq eqb id eqb_eq 0 d m) by lia.
    cbn [Z.to_nat]. rewrite Nat.sub_0_r, skipn_all. reflexivity.
  - intros N HN. apply Z.ltb_lt in HN. unfold MessageCache.add_to_message_cache.
    apply evict_negative; [exact HN | lia].
Qed.

End Cache.

Lemma inserted_message_is_found_witness :
  exists d' : list (string * (string * Z)),
    MessageCache.add_to_message_cache String.eqb fst 1 [("m1", ("m1", 10))] ("m2", 20)
    = Some (Ok d')
    /\ PyDict.get String.eqb "m2" d' = Some ("m2", 20).
Proof.
  apply (@inserted_message_is_found string (string * Z) String.eqb fst String.eqb_eq
           1 [("m1", ("m1", 10))] ("m2", 20)).
  - lia.
  - cbn. lia.
Defined.

Lemma degenerate_bounds_witness :
  MessageCache.add_to_message_cache String.eqb fst 0 [] ("m1", 10) = Some (Ok [])
  /\ MessageCache.add_to_message_cache String.eqb fst (-1) [] ("m1", 10)
     = Some (Raise IndexError).
Proof.
  destruct (@degenerate_bounds string (string * Z) String.eqb fst String.eqb_eq
              [] ("m1", 10)) as [A B].
  split; [exact A | apply B; reflexivity].
Defined.

End MessageCacheMore.


(** ** The request executor, beyond the claims *)

Module RequestMore.
Import Request.

Section Perform.
Variable route : Route.
Variable kwargs : list (string * json).

#[local] Abbreviation submit := (Request (method route) (url route) kwargs).

Lemma retry_delay_step : forall (r : response) (q : Q) (server : list response),
    retry_delay r = Some q ->
    perform route kwargs (r :: server)
    = match perform route kwargs server with
      | (Ok d, tr) => (Ok (returned route r d), submit :: Sleep q :: tr)
      | (res, tr) => (res, submit :: Sleep q :: tr)
      end.
Proof.
  intros r q server H. unfold retry_delay in H. cbn [perform].
  destruct (Z.eqb_spec (status r) 429) as [E|E]; [|discriminate].
  rewrite E. cbn.
  destruct (json_body r) as [data|]; [|discriminate].
  destruct (PyDict.get String.eqb "Retry-After" (headers r)) as [[s|n]|]; cbn.
  - destruct (String.eqb s EmptyString); [|discriminate]. injection H as <-. cbn.
    destruct (perform route kwargs server) as [[? | ? |] ?]; reflexivity.
  - destruct (Qeq_bool n 0); injection H as <-; cbn;
      destruct (perform route kwargs server) as [[? | ? |] ?]; reflexivity.
  - injection H as <-.
    destruct (perform route kwargs server) as [[? | ? |] ?]; reflexivity.
Qed.

(** After any number of retried responses the run goes on with what the
    server answers next; what it returns passes through [returned] once
    for each retried response. *)
Lemma perform_retried : forall (pre : list response) (naps : list Q) (server : list response),
    map retry_delay pre = map Some naps ->
    perform route kwargs (pre ++ server)
    = match perform route kwargs server with
      | (Ok d, tr) =>
          (Ok (fold_right (returned route) d pre),
           flat_map (fun q => [submit; Sleep q]) naps ++ tr)
      | (res, tr) => (res, flat_map (fun q => [submit; Sleep q]) naps ++ tr)
      end.
Proof.
  induction pre as [|r pre IH]; intros [|q naps] server H; try discriminate.
  - cbn. destruct (perform route kwargs server) as [[? | ? |] ?]; reflexivity.
  - cbn [map] in H. injection H as Hq H.
    rewrite <- app_comm_cons, (retry_delay_step r q (pre ++ server) Hq), (IH naps server H).
    destruct (perform route kwargs server) as [[? | ? |] ?]; reflexivity.
Qed.

Lemma returned_elsewhere : forall (pre : list response) (d : reply),
    path route <> "/login"%string -> fold_right (returned route) d pre = d.
Proof.
  intros pre d N. induction pre as [|r pre IH]; [reflexivity|]. cbn [fold_right].
  unfold returned at 1. destruct (String.eqb_spec (path route) "/login"); [contradiction|].
  exact IH.
Qed.

(** X12.  On a route other than [/login], when the server answers 429 a
    number of times (with a JSON body and a [Retry-After] that is a
    number, absent or empty) and then 200, the request was submitted
    again after each sleep, the body of the answer of status 200 is what
    the caller gets, and what the server would answer after it is never
    asked for.  Each retry is one more nested run of [perform]: how deep
    the interpreter lets them nest is not part of the embedding, and the
    statement is about the runs in which the answer of status 200 is
    received. *)
Theorem retries_until_answered :
  forall (pre : list response) (naps : list Q) (last : response) (j : json)
         (rest : list response),
    path route <> "/login"%string ->
    map retry_delay pre = map Some naps ->
    status last = 200 ->
    json_body last = Some j ->
    request route kwargs (pre ++ last :: rest) = (Ok (Data j), retried submit naps).
Proof.
  intros pre naps last j rest N Hpre Hs Hj. unfold request, retried.
  rewrite (perform_retried pre naps (last :: rest) Hpre).
  cbn [perform]. rewrite Hs, Hj. cbn.
  rewrite (returned_elsewhere pre _ N). unfold returned.
  destruct (String.eqb_spec (path route) "/login"); [contradiction|]. reflexivity.
Qed.

(** X13.  On the route [/login] the caller gets a response, not a body,
    and it is the first response of the run: after a retry the response
    returned is the one of status 429, not the one that answered. *)
Theorem login_gets_first_response :
  forall (pre : list response) (naps : list Q) (last : response) (j : json)
         (rest : list response),
    path route = "/login"%string ->
    map retry_delay pre = map Some naps ->
    status last = 200 ->
    json_body last = Some j ->
    request route kwargs (pre ++ last :: rest)
    = (Ok (Response (hd last pre)), retried submit naps).
Proof.
  intros pre naps last j rest N Hpre Hs Hj. unfold request, retried.
  rewrite (perform_retried pre naps (last :: rest) Hpre).
  cbn [perform]. rewrite Hs, Hj. cbn.
  unfold returned at 2. rewrite N. cbn.
  destruct pre as [|r pre]; [reflexivity|]. cbn [fold_right hd].
  unfold returned at 1. rewrite N. reflexivity.
Qed.

(** X14.  A status of 400 or more other than 429 raises the error of that
    status, also when it comes after retries: the error is not caught by
    the runs that wait for the retry, and nothing is submitted after it. *)
Theorem error_status_ends_retries :
  forall (pre : list response) (naps : list Q) (last : response) (j : json)
         (rest : list response),
    map retry_delay pre = map Some naps ->
    json_body last = Some j ->
    400 <= status last ->
    status last <> 429 ->
    request route kwargs (pre ++ last :: rest)
    = (Raise (HTTPError (status last)), retried submit naps).
Proof.
  intros pre naps last j rest Hpre Hj H4 H9. unfold request, retried.
  rewrite (perform_retried pre naps (last :: rest) Hpre).
  cbn [perform]. rewrite Hj.
  destruct (Z.eqb_spec (status last) 204) as [E|_]; [lia|].
  destruct (Z.eqb_spec (status last) 200) as [E|_]; [lia|]. cbn.
  destruct (Z.eqb_spec (status last) 429) as [E|_]; [contradiction|].
  destruct (Z.leb_spec 400 (status last)); [reflexivity | lia].
Qed.

(** X15.  The body is decoded before the status is looked at: a response
    whose body is not JSON raises the decoding error whatever its status
    is, except 204; neither the error of a status of 400 or more nor the
    retry of a 429 takes place. *)
Theorem body_is_decoded_before_status :
  forall (pre : list response) (naps : list Q) (last : response) (rest : list response),
    map retry_delay pre = map Some naps ->
    status last <> 204 ->
    json_body last = None ->
    request route kwargs (pre ++ last :: rest)
    = (Raise JSONDecodeError, retried submit naps).
Proof.
  intros pre naps last rest Hpre Hs Hj. unfold request, retried.
  rewrite (perform_retried pre naps (last :: rest) Hpre).
  cbn [perform]. rewrite Hj.
  destruct (Z.eqb_spec (status last) 204) as [E|_]; [contradiction|]. reflexivity.
Qed.

(** X16.  Whatever the server answers, the events of a request are
    submissions of the one request of the route, with a sleep between two
    of them: the run begins and ends with a submission, never sleeps
    without submitting again, and sleeps at most once for each answer it
    got.  Each sleep is of five seconds or of the number of a
    [Retry-After] header of one of the answers. *)
Theorem request_events_alternate :
  forall server : list response,
    exists naps : list Q,
      snd (request route kwargs server) = retried submit naps
      /\ (length naps <= length server)%nat
      /\ Forall (fun q : Q =>
                   q = 5%Q
                   \/ exists r, In r server
                        /\ PyDict.get String.eqb "Retry-After" (headers r) = Some (HNum q))
           naps.
Proof.
  unfold request, retried.
  induction server as [|r server IH].
  - exists []. cbn. auto.
  - assert (Z0 : exists naps : list Q,
               [submit] = flat_map (fun q => [submit; Sleep q]) naps ++ [submit]
               /\ (length naps <= length (r :: server))%nat
               /\ Forall (fun q : Q =>
                    q = 5%Q
                    \/ exists r', In r' (r :: server)
                         /\ PyDict.get String.eqb "Retry-After" (headers r') = Some (HNum q))
                    naps).
    { exists []. cbn. split; [reflexivity|]. split; [lia | constructor]. }
    assert (R : forall q : Q,
               (q = 5%Q \/ PyDict.get String.eqb "Retry-After" (headers r) = Some (HNum q)) ->
               exists naps : list Q,
                 submit :: Sleep q :: snd (perform route kwargs server)
                 = flat_map (fun q => [submit; Sleep q]) naps ++ [submit]
                 /\ (length naps <= length (r :: server))%nat
                 /\ Forall (fun q : Q =>
                      q = 5%Q
                      \/ exists r', In r' (r :: server)
                           /\ PyDict.get String.eqb "Retry-After" (headers r') = Some (HNum q))
                      naps).
    { intros q Hq. destruct IH as (naps & E & L & F). exists (q :: naps). split; [|split].
      - cbn. rewrite E. reflexivity.
      - cbn in *. lia.
      - constructor.
        + destruct Hq as [Hq|Hq]; [left; exact Hq|]. right. exists r.
          split; [left; reflexivity | exact Hq].
        + eapply Forall_impl; [|exact F]. cbn. intros a [Ha|(r' & I & Ha)]; [left; exact Ha|].
          right. exists r'. split; [right; exact I | exact Ha]. }
    cbn [perform].
    destruct (status r =? 204); [exact Z0|].
    destruct (json_body r) as [data|]; [|exact Z0].
    destruct (negb (status r =? 200)); [|exact Z0].
    destruct (status r =? 429); [|destruct (400 <=? status r); exact Z0].
    destruct (PyDict.get String.eqb "Retry-After" (headers r)) as [[s|n]|] eqn:G; cbn.
    + destruct (String.eqb s EmptyString); cbn; [|exact Z0].
      destruct (perform route kwargs server) as [[? | ? |] ?]; apply (R 5%Q); left; reflexivity.
    + destruct (Qeq_bool n 0); cbn;
        destruct (perform route kwargs server) as [[? | ? |] ?];
        first [apply (R 5%Q); left; reflexivity | apply (R n); right; reflexivity].
    + destruct (perform route kwargs server) as [[? | ? |] ?]; apply (R 5%Q); left; reflexivity.
Qed.

End Perform.

Lemma retries_until_answered_witness :
  request Sample.members_route []
    ([Sample.too_many []; Sample.too_many [("Retry-After", HNum 2)]] ++ Sample.fine :: [])
  = (Ok (Data (JObj [("members", JArr [])])),
     retried (Request "GET" "https://www.guilded.gg/api/teams/t1/members" []) [5%Q; 2%Q]).
Proof.
  apply (retries_until_answered Sample.members_route []
           [Sample.too_many []; Sample.too_many [("Retry-After", HNum 2)]] [5%Q; 2%Q]
           Sample.fine (JObj [("members", JArr [])]) []).
  - discriminate.
  - reflexivity.
  - reflexivity.
  - reflexivity.
Defined.

Lemma login_gets_first_response_witness :
  request (mkRoute "POST" "/login" None) [] ([Sample.too_many []] ++ Sample.fine :: [])
  = (Ok (Response (Sample.too_many [])),
     retried (Request "POST" "https://www.guilded.gg/api/login" []) [5%Q]).
Proof.
  apply (login_gets_first_response (mkRoute "POST" "/login" None) []
           [Sample.too_many []] [5%Q] Sample.fine (JObj [("members", JArr [])]) []).
  - reflexivity.
  - reflexivity.
  - reflexivity.
  - reflexivity.
Defined.

Lemma error_status_ends_retries_witness :
  request Sample.members_route []
    ([Sample.too_many []]
       ++ {| status := 403; headers := []; json_body := Some (JObj []) |} :: [Sample.fine])
  = (Raise (HTTPError 403),
     retried (Request "GET" "https://www.guilded.gg/api/teams/t1/members" []) [5%Q]).
Proof.
  apply (error_status_ends_retries Sample.members_route []
           [Sample.too_many []] [5%Q]
           {| status := 403; headers := []; json_body := Some (JObj []) |} (JObj [])
           [Sample.fine]).
  - reflexivity.
  - reflexivity.
  - cbn. lia.
  - cbn. lia.
Defined.

Lemma body_is_decoded_before_status_witness :
  request Sample.members_route []
    ([] ++ {| status := 502; headers := []; json_body := None |} :: [])
  = (Raise JSONDecodeError,
     retried (Request "GET" "https://www.guilded.gg/api/teams/t1/members" []) []).
Proof.
  apply (body_is_decoded_before_status Sample.members_route [] [] []
           {| status := 502; headers := []; json_body := None |} []).
  - reflexivity.
  - cbn. lia.
  - reflexivity.
Defined.

End RequestMore.


(** ** The caches and the member handlers, beyond the claims *)

Module CacheMore.
Import HandlerFacts.
Local Open Scope string_scope.

(** *** The operations of the monad, read forwards *)

Lemma getattr_ok : forall (r : ref) (name : string) (st : client_state) (v : value),
    attr_of (objects st) r name = Some v -> getattr r name st = (Ok v, st, []).
Proof.
  unfold attr_of, getattr. intros r name st v H.
  destruct (nth_error (objects st) r) as [o|]; [|discriminate]. rewrite H. reflexivity.
Qed.

Lemma getattr_missing : forall (r : ref) (name : string) (st : client_state) (o : obj),
    nth_error (objects st) r = Some o ->
    attr_of (objects st) r name = None ->
    getattr r name st = (Raise AttributeError, st, []).
Proof.
  unfold attr_of, getattr. intros r name st o E H. rewrite E in *. rewrite H. reflexivity.
Qed.

Lemma get_team_ok : forall (id : value) (k : key) (st : client_state),
    hash id = Ok k -> get_team id st = (Ok (PyDict.get key_eqb k (_teams st)), st, []).
Proof.
  intros id k st Hk. unfold get_team, _get_team, mbind, lift. rewrite Hk. reflexivity.
Qed.

Lemma get_team_member_ok : forall (team_id id : value) (tk k : key) (st : client_state),
    hash team_id = Ok tk -> hash id = Ok k ->
    _get_team_member team_id id st = (Ok (member_at st tk k), st, []).
Proof.
  intros team_id id tk k st Ht Hk. unfold _get_team_member, mbind, lift, member_at.
  rewrite Ht, Hk. reflexivity.
Qed.

Lemma get_member_ok : forall (team : ref) (id tv : value) (tk k : key) (st : client_state),
    attr_of (objects st) team "id" = Some tv -> hash tv = Ok tk -> hash id = Ok k ->
    get_member team id st = (Ok (member_at st tk k), st, []).
Proof.
  intros team id tv tk k st A Ht Hk. unfold get_member. unfold mbind at 1.
  rewrite (getattr_ok team "id" st tv A), (get_team_member_ok tv id tk k st Ht Hk).
  reflexivity.
Qed.

Lemma setattr_ok : forall (r : ref) (name : string) (v : value) (st : client_state) (o : obj),
    dunder name = false ->
    nth_error (objects st) r = Some o ->
    setattr r name v st
    = (Ok tt, with_objects (heap_update r (PyDict.set String.eqb name v o) (objects st)) st, []).
Proof. unfold setattr. intros r name v st o D E. rewrite D, E. reflexivity. Qed.

Lemma pair_neq : forall tk k tk' k' : key,
    (tk', k') <> (tk, k) -> key_eqb tk tk' && key_eqb k k' = false.
Proof.
  intros tk k tk' k' N. destruct (key_eqb tk tk') eqn:E1; [|reflexivity].
  destruct (key_eqb k k') eqn:E2; [|reflexivity].
  apply key_eqb_eq in E1, E2. subst. contradiction.
Qed.

(** The run of [add_to_member_cache] on a member that has a team with an
    id and an id of its own. *)
Lemma add_to_member_cache_ok :
  forall (m t : ref) (tv v : value) (tk k : key) (st : client_state),
    attr_of (objects st) m "team" = Some (VRef t) ->
    attr_of (objects st) t "id" = Some tv ->
    hash tv = Ok tk ->
    attr_of (objects st) m "id" = Some v ->
    hash v = Ok k ->
    exists st' : client_state,
      add_to_member_cache m st = (Ok tt, st', [])
      /\ objects st' = objects st
      /\ _teams st' = _teams st
      /\ _messages st' = _messages st
      /\ _max_messages st' = _max_messages st
      /\ forall tk' k',
           member_at st' tk' k'
           = if key_eqb tk tk' && key_eqb k k' then Some m else member_at st tk' k'.
Proof.
  intros m t tv v tk k st Am At Ht Av Hv.
  set (st1 := with_team_members
                (PyDict.set key_eqb tk
                   (match PyDict.get key_eqb tk (_team_members st) with
                    | Some d => d
                    | None => []
                    end) (_team_members st)) st).
  assert (G1 : PyDict.get key_eqb tk (_team_members st1)
               = Some (match PyDict.get key_eqb tk (_team_members st) with
                       | Some d => d
                       | None => []
                       end)).
  { unfold st1. cbn [_team_members with_team_members].
    apply (PyDictFacts.get_set_same key_eqb key_eqb_eq). }
  eexists. split.
  - unfold add_to_member_cache.
    unfold mbind at 1. rewrite (getattr_ok m "team" st _ Am).
    unfold mbind at 1. cbn [attr]. rewrite (getattr_ok t "id" st _ At).
    unfold mbind at 1, lift at 1. rewrite Ht.
    unfold mbind at 1. fold st1.
    unfold mbind at 1. rewrite (getattr_ok m "id" st1 v Av).
    unfold mbind at 1, lift at 1. rewrite Hv.
    rewrite G1. cbn [app]. reflexivity.
  - cbn [objects _teams _messages _max_messages with_team_members].
    repeat (split; [reflexivity|]).
    intros tk' k'. rewrite (member_at_put st1 tk k m _ tk' k' G1).
    destruct (key_eqb tk tk' && key_eqb k k'); [reflexivity|].
    apply member_at_ensure.
Qed.

(** X17.  A member that has an id and a team with an id is found, right
    after it was added to the member cache, by [_get_team_member] under
    the id of its team and its own id; the lookups of all other pairs of
    ids, the heap, the teams and the messages are as before, and nothing
    is dispatched. *)
Theorem member_insert_then_lookup :
  forall (m t : ref) (tv v : value) (tk k : key) (st : client_state),
    attr_of (objects st) m "team" = Some (VRef t) ->
    attr_of (objects st) t "id" = Some tv ->
    hash tv = Ok tk ->
    attr_of (objects st) m "id" = Some v ->
    hash v = Ok k ->
    exists st' : client_state,
      add_to_member_cache m st = (Ok tt, st', [])
      /\ _get_team_member tv v st' = (Ok (Some m), st', [])
      /\ (forall tk' k', (tk', k') <> (tk, k) -> member_at st' tk' k' = member_at st tk' k')
      /\ objects st' = objects st
      /\ _teams st' = _teams st
      /\ _messages st' = _messages st.
Proof.
  intros m t tv v tk k st Am At Ht Av Hv.
  destruct (add_to_member_cache_ok m t tv v tk k st Am At Ht Av Hv)
    as (st' & R & O & T & Ms & _ & L).
  exists st'. split; [exact R|]. split; [|split; [|auto]].
  - rewrite (get_team_member_ok tv v tk k st' Ht Hv), L.
    rewrite !(PyDictFacts.eqb_refl key_eqb key_eqb_eq). reflexivity.
  - intros tk' k' N. rewrite L, (pair_neq tk k tk' k' N). reflexivity.
Qed.

(** X18.  The two statements of [add_to_member_cache] are not one step.
    For a member without an id whose team is not yet in the member cache,
    the call raises [AttributeError] after the first statement: the cache
    has a new, empty entry for the team, and every lookup answers as
    before. *)
Theorem member_without_id_leaves_empty_entry :
  forall (m t : ref) (o : obj) (tv : value) (tk : key) (st : client_state),
    nth_error (objects st) m = Some o ->
    PyDict.get String.eqb "team" o = Some (VRef t) ->
    PyDict.get String.eqb "id" o = None ->
    attr_of (objects st) t "id" = Some tv ->
    hash tv = Ok tk ->
    PyDict.get key_eqb tk (_team_members st) = None ->
    exists st' : client_state,
      add_to_member_cache m st = (Raise AttributeError, st', [])
      /\ _team_members st' = (_team_members st ++ [(tk, [])])%list
      /\ (forall tk' k', member_at st' tk' k' = member_at st tk' k')
      /\ objects st' = objects st.
Proof.
  intros m t o tv tk st Eo Gt Gi At Ht Gm.
  assert (Am : attr_of (objects st) m "team" = Some (VRef t))
    by (unfold attr_of; rewrite Eo; exact Gt).
  eexists. split.
  - unfold add_to_member_cache.
    unfold mbind at 1. rewrite (getattr_ok m "team" st _ Am).
    unfold mbind at 1. cbn [attr]. rewrite (getattr_ok t "id" st _ At).
    unfold mbind at 1, lift at 1. rewrite Ht.
    unfold mbind at 1. rewrite Gm.
    unfold mbind at 1.
    rewrite (getattr_missing m "id" _ o);
      [reflexivity | exact Eo | unfold attr_of; cbn [objects with_team_members];
                                rewrite Eo; exact Gi].
  - cbn [_team_members objects with_team_members]. split; [|split; [|reflexivity]].
    + apply (PyDictFacts.set_fresh key_eqb). exact Gm.
    + intros tk' k'.
      pose proof (member_at_ensure st tk tk' k') as E. rewrite Gm in E. exact E.
Qed.

(** X19.  A team that has an id is found by [_get_team] under that id
    right after it was added to the team cache; the other ids answer as
    before, and the member cache and the heap are untouched. *)
Theorem team_insert_then_lookup :
  forall (t : ref) (v : value) (k : key) (st : client_state),
    attr_of (objects st) t "id" = Some v ->
    hash v = Ok k ->
    exists st' : client_state,
      add_to_team_cache t st = (Ok tt, st', [])
      /\ _get_team v st' = (Ok (Some t), st', [])
      /\ (forall v' k', hash v' = Ok k' -> k' <> k ->
            _get_team v' st' = (Ok (PyDict.get key_eqb k' (_teams st)), st', []))
      /\ _team_members st' = _team_members st
      /\ objects st' = objects st.
Proof.
  intros t v k st A Hk. eexists. split.
  - unfold add_to_team_cache. unfold mbind at 1. rewrite (getattr_ok t "id" st v A).
    unfold mbind at 1, lift at 1. rewrite Hk. reflexivity.
  - split; [|split; [|split; reflexivity]].
    + unfold _get_team, mbind, lift. rewrite Hk. cbn [_teams with_teams app].
      rewrite (PyDictFacts.get_set_same key_eqb key_eqb_eq). reflexivity.
    + intros v' k' Hk' N. unfold _get_team, mbind, lift. rewrite Hk'.
      cbn [_teams with_teams app].
      rewrite (PyDictFacts.get_set_other key_eqb key_eqb_eq) by exact N. reflexivity.
Qed.


Lemma member_insert_then_lookup_witness :
  exists st' : client_state,
    add_to_member_cache 1%nat nothing_cached = (Ok tt, st', [])
    /\ _get_team_member (VJson (JStr "t1")) (VJson (JStr "u1")) st' = (Ok (Some 1%nat), st', [])
    /\ (forall tk' k', (tk', k') <> (KStr "t1", KStr "u1") ->
          member_at st' tk' k' = member_at nothing_cached tk' k')
    /\ objects st' = objects nothing_cached
    /\ _teams st' = _teams nothing_cached
    /\ _messages st' = _messages nothing_cached.
Proof.
  apply (member_insert_then_lookup 1%nat 0%nat (VJson (JStr "t1")) (VJson (JStr "u1"))
           (KStr "t1") (KStr "u1") nothing_cached); reflexivity.
Defined.

Lemma member_without_id_leaves_empty_entry_witness :
  exists st' : client_state,
    add_to_member_cache 1%nat member_without_id = (Raise AttributeError, st', [])
    /\ _team_members st' = (_team_members member_without_id ++ [(KStr "t1", [])])%list
    /\ (forall tk' k', member_at st' tk' k' = member_at member_without_id tk' k')
    /\ objects st' = objects member_without_id.
Proof.
  apply (member_without_id_leaves_empty_entry 1%nat 0%nat [("team", VRef 0%nat)]
           (VJson (JStr "t1")) (KStr "t1") member_without_id); reflexivity.
Defined.

Lemma team_insert_then_lookup_witness :
  exists st' : client_state,
    add_to_team_cache 0%nat nothing_cached = (Ok tt, st', [])
    /\ _get_team (VJson (JStr "t1")) st' = (Ok (Some 0%nat), st', [])
    /\ (forall v' k', hash v' = Ok k' -> k' <> KStr "t1" ->
          _get_team v' st' = (Ok (PyDict.get key_eqb k' (_teams nothing_cached)), st', []))
    /\ _team_members st' = _team_members nothing_cached
    /\ objects st' = objects nothing_cached.
Proof.
  apply (team_insert_then_lookup 0%nat (VJson (JStr "t1")) (KStr "t1") nothing_cached);
    reflexivity.
Defined.

(** *** The member handlers *)

(** X20.  The handler of member-xp-set at work.  The payload names a
    cached team and, first in [userIds], a member cached for it under its
    own id, and carries a true amount: the handler returns, the member has
    the amount as its [xp] and is still cached, no other attribute of any
    object has changed, and the one event is a [member_update] for that
    member. *)
Theorem TeamXpSet_updates_cached_member :
  forall (d : list (string * json)) (amount teamId userIds userId : json)
         (tk0 tk k : key) (team m : ref) (tv mid : value) (st : client_state),
    dict_get "amount" d = Some amount ->
    truthy amount = true ->
    dict_get "teamId" d = Some teamId ->
    hash (VJson teamId) = Ok tk0 ->
    PyDict.get key_eqb tk0 (_teams st) = Some team ->
    attr_of (objects st) team "id" = Some tv ->
    hash tv = Ok tk ->
    dict_get "userIds" d = Some userIds ->
    py_getitem userIds (JInt 0) = Ok userId ->
    hash (VJson userId) = Ok k ->
    member_at st tk k = Some m ->
    attr_of (objects st) m "id" = Some mid ->
    hash mid = Ok k ->
    attr_of (objects st) m "team" = Some (VRef team) ->
    exists st' : client_state,
      TeamXpSet (JObj d) st
      = (Ok tt, st', [Dispatch "member_update" [VRef m; VRef m] (objects st')])
      /\ attr_of (objects st') m "xp" = Some (VJson amount)
      /\ (forall r name, Nat.eqb m r && String.eqb "xp" name = false ->
            attr_of (objects st') r name = attr_of (objects st) r name)
      /\ (forall tk' k', member_at st' tk' k' = member_at st tk' k')
      /\ _teams st' = _teams st.
Proof.
  intros d amount teamId userIds userId tk0 tk k team m tv mid st
         Ha Hta Ht Htk0 Gt Atv Htv Hu Hu0 Hk Hm Amid Hmid Amt.
  assert (Eo : exists o : obj, nth_error (objects st) m = Some o).
  { unfold attr_of in Amid. destruct (nth_error (objects st) m) as [o|]; [|discriminate].
    exists o. reflexivity. }
  destruct Eo as (o & Eo).
  set (st1 := with_objects
                (heap_update m (PyDict.set String.eqb "xp" (VJson amount) o) (objects st)) st).
  assert (A1 : forall r name,
             attr_of (objects st1) r name
             = if Nat.eqb m r && String.eqb "xp" name then Some (VJson amount)
               else attr_of (objects st) r name).
  { intros r name. unfold st1. cbn [objects with_objects].
    apply attr_of_heap_update. exact Eo. }
  assert (Amt1 : attr_of (objects st1) m "team" = Some (VRef team))
    by (rewrite A1, andb_false_r; exact Amt).
  assert (Atv1 : attr_of (objects st1) team "id" = Some tv)
    by (rewrite A1, andb_false_r; exact Atv).
  assert (Amid1 : attr_of (objects st1) m "id" = Some mid)
    by (rewrite A1, andb_false_r; exact Amid).
  destruct (add_to_member_cache_ok m team tv mid tk k st1 Amt1 Atv1 Htv Amid1 Hmid)
    as (st2 & R & O2 & T2 & _ & _ & L2).
  exists st2. split.
  - unfold TeamXpSet.
    unfold mbind at 1, lift at 1. cbn [py_get]. rewrite Ha, Hta. cbn [negb].
    unfold mbind at 1, lift at 1. cbn [py_getitem]. rewrite Ht.
    unfold mbind at 1. rewrite (get_team_ok (VJson teamId) tk0 st Htk0), Gt.
    unfold mbind at 1, lift at 1. rewrite Hu.
    unfold mbind at 1, lift at 1. rewrite Hu0.
    unfold mbind at 1. rewrite (get_member_ok team (VJson userId) tv tk k st Atv Htv Hk), Hm.
    unfold mbind at 1. rewrite (getattr_ok m "id" st mid Amid).
    unfold mbind at 1. rewrite (get_member_ok team mid tv tk k st Atv Htv Hmid), Hm.
    unfold mbind at 1, lift at 1. rewrite Ha.
    unfold mbind at 1. rewrite (setattr_ok m "xp" (VJson amount) st o eq_refl Eo). fold st1.
    unfold mbind at 1. rewrite R. unfold dispatch. reflexivity.
  - split; [|split; [|split]].
    + rewrite O2, A1, Nat.eqb_refl. reflexivity.
    + intros r name N. rewrite O2, A1, N. reflexivity.
    + intros tk' k'. rewrite L2.
      destruct (key_eqb tk tk' && key_eqb k k') eqn:E.
      * apply andb_true_iff in E. destruct E as [E1 E2].
        apply key_eqb_eq in E1, E2. subst tk' k'. symmetry. exact Hm.
      * reflexivity.
    + exact T2.
Qed.

Lemma TeamXpSet_updates_cached_member_witness :
  exists st' : client_state,
    TeamXpSet Sample.xp_data Sample.one_member
    = (Ok tt, st', [Dispatch "member_update" [VRef 1%nat; VRef 1%nat] (objects st')])
    /\ attr_of (objects st') 1%nat "xp" = Some (VJson (JInt 7)).
Proof.
  destruct (TeamXpSet_updates_cached_member
              [("teamId", JStr "t1"); ("userIds", JArr [JStr "u1"]); ("amount", JInt 7)]
              (JInt 7) (JStr "t1") (JArr [JStr "u1"]) (JStr "u1")
              (KStr "t1") (KStr "t1") (KStr "u1") 0%nat 1%nat
              (VJson (JStr "t1")) (VJson (JStr "u1")) Sample.one_member
              eq_refl eq_refl eq_refl eq_refl eq_refl eq_refl eq_refl
              eq_refl eq_refl eq_refl eq_refl eq_refl eq_refl eq_refl)
    as (st' & R & X & _).
  exists st'. split; [exact R | exact X].
Defined.

Lemma update_roles_unknown :
  forall (batch : list json) (team : ref) (tv : value) (tk : key)
         (acc : list (ref * ref)) (st : client_state),
    attr_of (objects st) team "id" = Some tv ->
    hash tv = Ok tk ->
    Forall (unknown_user st tk) batch ->
    update_roles team batch acc st = (Ok acc, st, []).
Proof.
  induction batch as [|updated batch IH]; intros team tv tk acc st A Ht F; cbn [update_roles].
  - reflexivity.
  - inversion F as [|u b (userId & k & Hu & Hk & Hm) F']. subst u b.
    unfold mbind at 1, lift at 1. rewrite Hu.
    unfold mbind at 1. rewrite (get_member_ok team (VJson userId) tv tk k st A Ht Hk), Hm.
    rewrite (IH team tv tk acc st A Ht F'). reflexivity.
Qed.

(** X21.  Role updates for users that the team has not cached are
    dropped one by one without a trace: a batch of such users changes
    nothing, dispatches nothing, and their [roleIds] are not even read. *)
Theorem roles_of_unknown_users_are_dropped :
  forall (d : list (string * json)) (teamId ids : json) (batch : list json)
         (tk0 tk : key) (team : ref) (tv : value) (st : client_state),
    dict_get "teamId" d = Some teamId ->
    hash (VJson teamId) = Ok tk0 ->
    PyDict.get key_eqb tk0 (_teams st) = Some team ->
    attr_of (objects st) team "id" = Some tv ->
    hash tv = Ok tk ->
    dict_get "memberRoleIds" d = Some ids ->
    py_iter ids = Ok batch ->
    Forall (unknown_user st tk) batch ->
    teamRolesUpdates (JObj d) st = (Ok tt, st, []).
Proof.
  intros d teamId ids batch tk0 tk team tv st Ht Htk0 Gt A Htv Hi Hb F.
  unfold teamRolesUpdates.
  unfold mbind at 1, lift at 1. cbn [py_getitem]. rewrite Ht.
  unfold mbind at 1. rewrite (get_team_ok (VJson teamId) tk0 st Htk0), Gt.
  unfold mbind at 1, lift at 1. rewrite Hi.
  unfold mbind at 1, lift at 1. rewrite Hb.
  unfold mbind at 1. rewrite (update_roles_unknown batch team tv tk [] st A Htv F).
  reflexivity.
Qed.

Lemma roles_of_unknown_users_are_dropped_witness :
  teamRolesUpdates
    (JObj [("teamId", JStr "t1");
           ("memberRoleIds", JArr [JObj [("userId", JStr "u7")]; JObj [("userId", JInt 8)]])])
    Sample.one_member
  = (Ok tt, Sample.one_member, []).
Proof.
  apply (roles_of_unknown_users_are_dropped
           [("teamId", JStr "t1");
            ("memberRoleIds", JArr [JObj [("userId", JStr "u7")]; JObj [("userId", JInt 8)]])]
           (JStr "t1") (JArr [JObj [("userId", JStr "u7")]; JObj [("userId", JInt 8)]])
           [JObj [("userId", JStr "u7")]; JObj [("userId", JInt 8)]]
           (KStr "t1") (KStr "t1") 0%nat (VJson (JStr "t1")) Sample.one_member);
    try reflexivity.
  constructor; [|constructor; [|constructor]].
  - exists (JStr "u7"), (KStr "u7"). repeat split.
  - exists (JInt 8), (KInt 8). repeat split.
Defined.

Section Uncached.
Variable Member : json -> obj.
Variable chat : handler -> json -> H unit.

(** X22.  An event about a team that is not cached is dropped by the
    three member handlers: they return, no [member_update] is dispatched,
    and the caches are as before.  Member-xp-set and the bulk update of
    roles leave the whole state as it is and dispatch nothing; the
    profile update has made its raw member and dispatched it before it
    looks for the team. *)
Theorem uncached_team_is_dropped :
  forall (h : handler) (d : list (string * json)) (teamId : json) (tk : key)
         (st : client_state),
    h = hTeamXpSet \/ h = hTeamMemberUpdated \/ h = hteamRolesUpdates ->
    dict_get "teamId" d = Some teamId ->
    hash (VJson teamId) = Ok tk ->
    PyDict.get key_eqb tk (_teams st) = None ->
    run_handler Member chat (h, JObj d) st
    = (Ok tt,
       match h with
       | hTeamMemberUpdated => with_objects (objects st ++ [Member (JObj d)])%list st
       | _ => st
       end,
       match h with
       | hTeamMemberUpdated =>
           [Dispatch "raw_member_update" [VRef (length (objects st))]
              (objects st ++ [Member (JObj d)])%list]
       | _ => []
       end).
Proof.
  intros h d teamId tk st Hh Ht Hk Gt.
  destruct Hh as [-> | [-> | ->]]; cbn [run_handler fst snd].
  - unfold TeamXpSet. unfold mbind at 1, lift at 1. cbn [py_get].
    destruct (negb (truthy _)); [reflexivity|].
    unfold mbind at 1, lift at 1. cbn [py_getitem]. rewrite Ht.
    unfold mbind at 1. rewrite (get_team_ok (VJson teamId) tk st Hk), Gt. reflexivity.
  - unfold TeamMemberUpdated.
    unfold mbind at 1, new at 1. unfold mbind at 1, dispatch at 1.
    unfold mbind at 1, lift at 1. cbn [py_getitem]. rewrite Ht.
    unfold mbind at 1.
    rewrite (get_team_ok (VJson teamId) tk _ Hk). cbn [_teams with_objects]. rewrite Gt.
    reflexivity.
  - unfold teamRolesUpdates.
    unfold mbind at 1, lift at 1. cbn [py_getitem]. rewrite Ht.
    unfold mbind at 1. rewrite (get_team_ok (VJson teamId) tk st Hk), Gt. reflexivity.
Qed.

End Uncached.

Lemma uncached_team_is_dropped_witness :
  run_handler Sample.Member Sample.chat (hTeamXpSet, Sample.xp_data) nothing_cached
  = (Ok tt, nothing_cached, []).
Proof.
  apply (uncached_team_is_dropped Sample.Member Sample.chat hTeamXpSet
           [("teamId", JStr "t1"); ("userIds", JArr [JStr "u1"]); ("amount", JInt 7)]
           (JStr "t1") (KStr "t1") nothing_cached).
  - left. reflexivity.
  - reflexivity.
  - reflexivity.
  - reflexivity.
Defined.

End CacheMore.


(** ** The order of eviction *)

Module MessageCacheOrder.
Import MessageCache.
Section Cache.
Context {K M : Type}.
Variable eqb : K -> K -> bool.
Variable id : M -> K.
Hypothesis eqb_eq : forall a b, eqb a b = true <-> a = b.
#[local] Abbreviation add := (@MessageCache.add_to_message_cache K M eqb id).

(** X23.  The cache evicts by the order of first insertion, not of last
    use.  In a full cache, inserting a new version of the oldest message
    replaces it in place and evicts nothing; the next new message then
    evicts that message, the one most recently written. *)
Theorem update_does_not_refresh :
  forall (N : Z) (m0 m0' m : M) (d0 : cache),
    id m0' = id m0 ->
    Z.of_nat (S (length d0)) = N ->
    PyDict.get eqb (id m) ((id m0, m0) :: d0) = None ->
    add N ((id m0, m0) :: d0) m0' = Some (Ok ((id m0, m0') :: d0))
    /\ add N ((id m0, m0') :: d0) m = Some (Ok (d0 ++ [(id m, m)])).
Proof.
  intros N m0 m0' m d0 E HN G.
  assert (R : eqb (id m0) (id m0) = true) by (apply eqb_eq; reflexivity).
  split.
  - rewrite (MessageCacheFacts.add_to_message_cache_eq eqb id eqb_eq N _ m0') by lia.
    cbn [PyDict.set]. rewrite E, R. cbn [length].
    replace (S (length d0) - Z.to_nat N)%nat with 0%nat by lia. reflexivity.
  - assert (G' : PyDict.get eqb (id m) ((id m0, m0') :: d0) = None).
    { cbn [PyDict.get] in *. destruct (eqb (id m0) (id m)); [discriminate | exact G]. }
    rewrite (MessageCacheFacts.add_to_message_cache_eq eqb id eqb_eq N _ m) by lia.
    rewrite (PyDictFacts.set_fresh eqb (id m) m _ G').
    cbn [app length]. rewrite length_app. cbn [length].
    replace (S (length d0 + 1) - Z.to_nat N)%nat with 1%nat by lia. reflexivity.
Qed.

End Cache.

Lemma update_does_not_refresh_witness :
  MessageCache.add_to_message_cache String.eqb fst 2
    [("m1", ("m1", 10)); ("m2", ("m2", 20))] ("m1", 11)
  = Some (Ok [("m1", ("m1", 11)); ("m2", ("m2", 20))])
  /\ MessageCache.add_to_message_cache String.eqb fst 2
       [("m1", ("m1", 11)); ("m2", ("m2", 20))] ("m3", 30)
     = Some (Ok ([("m2", ("m2", 20))] ++ [("m3", ("m3", 30))])).
Proof.
  apply (@update_does_not_refresh string (string * Z) String.eqb fst String.eqb_eq
           2 ("m1", 10) ("m1", 11) ("m3", 30) [("m2", ("m2", 20))]); reflexivity.
Defined.

End MessageCacheOrder.

(** ** Building, greeting and closing a websocket *)

Module GatewayMore.
Import GatewayFacts.
Local Open Scope string_scope.

Section Gateway.
Variable json_loads : string -> result json.
Variable Member : json -> obj.
Variable chat : handler -> json -> H unit.

#[local] Abbreviation recv := (received_event json_loads Member chat).


(** X25.  The greeting is taken in one attribute at a time.  When its
    [pingInterval] cannot be divided, the error leaves the handling as it
    is, outside the [try] of the handlers: no [error] event, no wrapping.
    [sid] and [upgrades] are already those of the greeting, the
    heartbeater is the one from before, nothing was sent and no thread
    was started. *)
Theorem greeting_with_bad_interval :
  forall (payload : string) (data sid upgrades interval : json) (e : exn) (s : system),
    str_isdigit payload = false ->
    _full_event_parse json_loads payload = Ok data ->
    py_get data "sid" = Ok sid ->
    truthy sid = true ->
    py_getitem data (JStr "upgrades") = Ok upgrades ->
    py_getitem data (JStr "pingInterval") = Ok interval ->
    truediv_1000 interval = Raise e ->
    recv payload s
    = (Raise e,
       {| ws := {| GuildedWebSocket.sid := sid;
                   GuildedWebSocket.upgrades := upgrades;
                   GuildedWebSocket._heartbeater := GuildedWebSocket._heartbeater (ws s);
                   GuildedWebSocket._close_code := GuildedWebSocket._close_code (ws s) |};
          http := http s |},
       [Dispatch "socket_raw_receive" [VJson (JStr payload)] (objects (http s));
        Dispatch "socket_response" [VJson data] (objects (http s))]).
Proof.
  intros payload data sid upgrades interval e s Hd Hp Hsid Ht Hu Hi He.
  unfold received_event. rewrite Hd. run_m. rewrite Hp. cbn.
  rewrite Hsid. cbn. rewrite Ht.
  rewrite (py_getitem_of_get _ _ _ Hsid Ht). cbn. rewrite Hu. cbn. rewrite Hi. cbn.
  rewrite He. reflexivity.
Qed.

End Gateway.

(** X26.  [close] records the code before it asks the socket to close:
    the code is recorded also when the socket raises, the socket is asked
    once, with that code, and what it raises reaches the caller.  [close]
    does not stop the heartbeat thread: on a websocket whose heartbeater
    is not stopped, the next turn of the thread after the close still
    submits a heartbeat. *)
Theorem close_leaves_heartbeat_running :
  forall (code : Z) (answer : result bool) (hb : Heartbeater.t) (tk : tick)
         (script : list tick) (s : system),
    GuildedWebSocket._heartbeater (ws s) = Some hb ->
    Heartbeater._stop_ev hb = false ->
    wait_raises tk = None ->
    stop_requested tk = false ->
    schedule_raises tk = None ->
    close code answer s
    = (match answer with
       | Ok _ => Ok tt
       | Raise e => Raise e
       | Beyond => Beyond
       end,
       {| ws := {| GuildedWebSocket.sid := GuildedWebSocket.sid (ws s);
                   GuildedWebSocket.upgrades := GuildedWebSocket.upgrades (ws s);
                   GuildedWebSocket._heartbeater := Some hb;
                   GuildedWebSocket._close_code := Some code |};
          http := http s |},
       [SocketClose code])
    /\ exists tr : list event,
         trace_of (heartbeat_thread (tk :: script)) (state_after (close code answer) s)
         = Submit HEARTBEAT_PAYLOAD :: tr.
Proof.
  intros code answer hb tk script [w h] Hb Hs Hw Hr Hc. cbn [ws http] in *.
  assert (C : close code answer {| ws := w; http := h |}
              = (match answer with
                 | Ok _ => Ok tt
                 | Raise e => Raise e
                 | Beyond => Beyond
                 end,
                 {| ws := {| GuildedWebSocket.sid := GuildedWebSocket.sid w;
                             GuildedWebSocket.upgrades := GuildedWebSocket.upgrades w;
                             GuildedWebSocket._heartbeater := Some hb;
                             GuildedWebSocket._close_code := Some code |};
                    http := h |},
                 [SocketClose code])).
  { unfold close, mbind, set_ws, lift, ret, GuildedWebSocket.with_close_code.
    cbn [ws http]. rewrite Hb. destruct answer as [b|e|]; reflexivity. }
  split; [exact C|].
  unfold trace_of, state_after. rewrite C. cbn [fst snd].
  unfold heartbeat_thread. cbn [ws GuildedWebSocket._heartbeater Heartbeater.run].
  rewrite Hs, Hw, Hr. unfold mbind at 1, Heartbeater.turn. rewrite Hc.
  unfold mbind at 1, Heartbeater.emit.
  destruct (Heartbeater.await_send (results tk) (frame_found tk) 0 hb)
    as [[[u | e |] hb1] tr1]; cbn [app].
  - destruct (Heartbeater.run script hb1) as [[r hb2] tr2]. eexists. reflexivity.
  - destruct (Heartbeater.run script (Heartbeater.stop hb1)) as [[r hb2] tr2].
    eexists. reflexivity.
  - eexists. reflexivity.
Qed.


Lemma greeting_with_bad_interval_witness :
  outcome_of (received_event Json.loads Sample.Member Sample.chat
                (Sample.frame "0"
                   (JObj [("sid", JStr "abc123"); ("upgrades", JArr []);
                          ("pingInterval", JStr "25000")]))) system_init
  = Raise TypeError.
Proof.
  unfold outcome_of.
  rewrite (greeting_with_bad_interval Json.loads Sample.Member Sample.chat
             (Sample.frame "0"
                (JObj [("sid", JStr "abc123"); ("upgrades", JArr []);
                       ("pingInterval", JStr "25000")]))
             (JObj [("sid", JStr "abc123"); ("upgrades", JArr []);
                    ("pingInterval", JStr "25000")])
             (JStr "abc123") (JArr []) (JStr "25000") TypeError system_init
             eq_refl eq_refl eq_refl eq_refl eq_refl eq_refl eq_refl).
  reflexivity.
Defined.

Lemma close_leaves_heartbeat_running_witness :
  exists tr : list event,
    trace_of (heartbeat_thread [Sample.beat_done])
      (state_after (close 1000 (Raise WebSocketClosure))
         (hello_state (JStr "abc123") (JArr []) 25 system_init))
    = Submit HEARTBEAT_PAYLOAD :: tr.
Proof.
  apply (close_leaves_heartbeat_running 1000 (Raise WebSocketClosure)
           (Heartbeater.init 25) Sample.beat_done []
           (hello_state (JStr "abc123") (JArr []) 25 system_init));
    reflexivity.
Defined.

End GatewayMore.

(** ** Logging in and connecting *)

Module LoginFacts.
Import Request Login.
Local Open Scope string_scope.

Lemma set_keys_extend : forall (k v : string) (d : list (string * string)),
    PyDict.keys (PyDict.set String.eqb k v d)
    = (PyDict.keys d ++ (if PyDict.mem String.eqb k d then [] else [k]))%list.
Proof.
  intros k v d. unfold PyDict.mem.
  induction d as [|[k' v'] d IH]; [reflexivity|]. cbn [PyDict.set PyDict.get].
  destruct (String.eqb k' k).
  - cbn. rewrite app_nil_r. reflexivity.
  - unfold PyDict.keys in *. cbn [map fst app]. rewrite IH. reflexivity.
Qed.

(** X27.  The query of the gateway address.  Whatever the caller passes,
    [jwt], [EIO] and [transport] have their fixed values: a caller's
    argument of one of these names is overridden.  Every other argument
    of the caller is passed on with its value, and the caller's names
    keep their places at the head of the query. *)
Theorem gateway_query_fixed :
  forall gateway_args : list (string * string),
    PyDict.get String.eqb "jwt" (gateway_query gateway_args) = Some "undefined"
    /\ PyDict.get String.eqb "EIO" (gateway_query gateway_args) = Some "3"
    /\ PyDict.get String.eqb "transport" (gateway_query gateway_args) = Some "websocket"
    /\ (forall k : string,
          k <> "jwt" -> k <> "EIO" -> k <> "transport" ->
          PyDict.get String.eqb k (gateway_query gateway_args)
          = PyDict.get String.eqb k gateway_args)
    /\ exists fixed : list string,
         PyDict.keys (gateway_query gateway_args)
         = (PyDict.keys gateway_args ++ fixed)%list
         /\ incl fixed ["jwt"; "EIO"; "transport"].
Proof.
  intro args. unfold gateway_query.
  split; [|split; [|split; [|split]]].
  - rewrite !(PyDictFacts.get_set_other String.eqb String.eqb_eq) by discriminate.
    apply (PyDictFacts.get_set_same String.eqb String.eqb_eq).
  - rewrite (PyDictFacts.get_set_other String.eqb String.eqb_eq) by discriminate.
    apply (PyDictFacts.get_set_same String.eqb String.eqb_eq).
  - apply (PyDictFacts.get_set_same String.eqb String.eqb_eq).
  - intros k N1 N2 N3.
    rewrite !(PyDictFacts.get_set_other String.eqb String.eqb_eq) by assumption.
    reflexivity.
  - rewrite !set_keys_extend, <- !app_assoc. eexists. split; [reflexivity|].
    intros x I. repeat (apply in_app_or in I; destruct I as [I|I]);
      repeat match type of I with
             | In _ (if ?b then _ else _) => destruct b
             end;
      cbn in *; intuition auto.
Qed.

Lemma skipn_all_app : forall (A : Type) (l r : list A), skipn (length l) (l ++ r) = r.
Proof. intros A l r. induction l as [|x l IH]; [reflexivity | exact IH]. Qed.

Lemma submissions_retried : forall (submit : http_event) (naps : list Q),
    submissions [submit] = 1%nat ->
    submissions (retried submit naps) = S (length naps).
Proof.
  intros submit naps H. unfold retried. induction naps as [|q naps IH]; [exact H|].
  cbn [flat_map app length]. destruct submit; [|discriminate].
  cbn [submissions] in *. rewrite IH. reflexivity.
Qed.

(** X28.  Logging in and connecting.  When the server answers both
    requests with 200 and the first answer sets a cookie, [login] stores
    the email, the password and that cookie, submits the credentials to
    [/login] and then asks for [/me], whose body it returns; [ws_connect]
    without cookies of its own then connects with the stored cookie. *)
Theorem login_then_connect :
  forall (e p j me : json) (r1 r2 : response) (rest : list response) (c : header_value)
         (gateway_args : list (string * string)) (self : account),
    status r1 = 200 ->
    json_body r1 = Some j ->
    PyDict.get String.eqb "Set-Cookie" (headers r1) = Some c ->
    header_truthy (Some c) = true ->
    status r2 = 200 ->
    json_body r2 = Some me ->
    login e p (r1 :: r2 :: rest) self
    = (Ok (Data me),
       {| email := e; password := p; cookies := Some c |},
       [Request "POST" "https://www.guilded.gg/api/login"
          [("json", JObj [("email", e); ("password", p)])];
        Request "GET" "https://www.guilded.gg/api/me" []])
    /\ ws_connect None gateway_args {| email := e; password := p; cookies := Some c |}
       = Some (gateway_url gateway_args, c).
Proof.
  intros e p j me r1 r2 rest c args self S1 J1 C1 T1 S2 J2. split.
  - unfold login, request. cbn [perform]. rewrite S1, J1. cbn.
    rewrite S2, J2, C1. cbn. reflexivity.
  - unfold ws_connect. cbv zeta. change (header_truthy None) with false. cbv iota.
    cbn [cookies]. rewrite T1. reflexivity.
Qed.

(** X29.  A login that was rate limited.  [request] returns the first
    response of its run on [/login], so after a retry the cookie stored
    is the one of the first 429 response, not of the response that
    accepted the credentials.  When that 429 response sets no cookie, the
    login goes on to [/me] all the same and [ws_connect] then finds no
    cookies. *)
Theorem rate_limited_login_keeps_first_cookie :
  forall (e p j : json) (r0 : response) (pre : list response) (naps : list Q)
         (r1 : response) (rest : list response) (self : account)
         (gateway_args : list (string * string)),
    map retry_delay (r0 :: pre) = map Some naps ->
    status r1 = 200 ->
    json_body r1 = Some j ->
    login e p ((r0 :: pre) ++ r1 :: rest) self
    = (fst (request (mkRoute "GET" "/me" None) [] rest),
       {| email := e; password := p;
          cookies := PyDict.get String.eqb "Set-Cookie" (headers r0) |},
       (retried (Request "POST" "https://www.guilded.gg/api/login"
                   [("json", JObj [("email", e); ("password", p)])]) naps
        ++ snd (request (mkRoute "GET" "/me" None) [] rest))%list)
    /\ (PyDict.get String.eqb "Set-Cookie" (headers r0) = None ->
        ws_connect None gateway_args
          {| email := e; password := p;
             cookies := PyDict.get String.eqb "Set-Cookie" (headers r0) |}
        = None).
Proof.
  intros e p j r0 pre naps r1 rest self args Hpre S1 J1. split.
  - unfold login. unfold request at 1.
    rewrite (RequestMore.perform_retried (mkRoute "POST" "/login" None) _
               (r0 :: pre) naps (r1 :: rest) Hpre).
    cbn [perform]. rewrite S1, J1. cbn -[retry_delay perform request flat_map submissions skipn].
    unfold credentials. cbn [email password].
    fold (retried (Request "POST" "https://www.guilded.gg/api/login"
                     [("json", JObj [("email", e); ("password", p)])]) naps).
    rewrite submissions_retried by reflexivity.
    assert (L : length naps = length (r0 :: pre)).
    { apply (f_equal (@length _)) in Hpre. rewrite !length_map in Hpre. symmetry. exact Hpre. }
    rewrite L.
    change (r0 :: pre ++ r1 :: rest)%list with ((r0 :: pre) ++ r1 :: rest)%list.
    replace (skipn (S (length (r0 :: pre))) ((r0 :: pre) ++ r1 :: rest)) with rest.
    + destruct (request (mkRoute "GET" "/me" None) [] rest) as [res tr]. reflexivity.
    + change (r1 :: rest) with ([r1] ++ rest)%list. rewrite app_assoc.
      replace (S (length (r0 :: pre))) with (length ((r0 :: pre) ++ [r1]))
        by (rewrite length_app; cbn; lia).
      symmetry. apply skipn_all_app.
  - intro G. unfold ws_connect. cbv zeta. change (header_truthy None) with false. cbv iota.
    cbn [cookies]. rewrite G. reflexivity.
Qed.

Lemma login_then_connect_witness :
  login (JStr "a@b.c") (JStr "pw")
    [{| status := 200; headers := [("Set-Cookie", HStr "hmac=1")];
        json_body := Some (JObj []) |};
     Sample.fine] init
  = (Ok (Data (JObj [("members", JArr [])])),
     {| email := JStr "a@b.c"; password := JStr "pw"; cookies := Some (HStr "hmac=1") |},
     [Request "POST" "https://www.guilded.gg/api/login"
        [("json", JObj [("email", JStr "a@b.c"); ("password", JStr "pw")])];
      Request "GET" "https://www.guilded.gg/api/me" []])
  /\ ws_connect None [("jwt", "mine"); ("teamId", "t1")]
       {| email := JStr "a@b.c"; password := JStr "pw"; cookies := Some (HStr "hmac=1") |}
     = Some (gateway_url [("jwt", "mine"); ("teamId", "t1")], HStr "hmac=1").
Proof.
  apply (login_then_connect (JStr "a@b.c") (JStr "pw") (JObj [])
           (JObj [("members", JArr [])])
           {| status := 200; headers := [("Set-Cookie", HStr "hmac=1")];
              json_body := Some (JObj []) |}
           Sample.fine [] (HStr "hmac=1") [("jwt", "mine"); ("teamId", "t1")] init);
    reflexivity.
Defined.

Lemma rate_limited_login_keeps_first_cookie_witness :
  snd (fst (login (JStr "a@b.c") (JStr "pw")
              ([Sample.too_many []]
                 ++ {| status := 200; headers := [("Set-Cookie", HStr "hmac=1")];
                       json_body := Some (JObj []) |} :: [Sample.fine]) init))
  = {| email := JStr "a@b.c"; password := JStr "pw"; cookies := None |}.
Proof.
  rewrite (proj1 (rate_limited_login_keeps_first_cookie (JStr "a@b.c") (JStr "pw") (JObj [])
                    (Sample.too_many []) [] [5%Q]
                    {| status := 200; headers := [("Set-Cookie", HStr "hmac=1")];
                       json_body := Some (JObj []) |}
                    [Sample.fine] init [] eq_refl eq_refl eq_refl)).
  reflexivity.
Defined.

End LoginFacts.


(** ** The profile update at work *)

Module ProfileMore.
Import HandlerFacts CacheMore.
Local Open Scope string_scope.

(** The loop of [TeamMemberUpdated] on a member cached under its own id
    for its team, for fields other than [id] and [team] whose names are
    kept in the dict of the object, each named once: every field is
    assigned on the one cached member, and nothing else changes. *)
Lemma apply_fields_ok :
  forall (items : list (string * json)) (team m : ref) (userId : json) (tv mid : value)
         (tk k : key) (acc : option ref) (st : client_state),
    attr_of (objects st) team "id" = Some tv ->
    hash tv = Ok tk ->
    hash (VJson userId) = Ok k ->
    member_at st tk k = Some m ->
    attr_of (objects st) m "id" = Some mid ->
    hash mid = Ok k ->
    attr_of (objects st) m "team" = Some (VRef team) ->
    ~ In "id" (map fst items) ->
    ~ In "team" (map fst items) ->
    forallb (fun key => negb (dunder key)) (map fst items) = true ->
    NoDup (map fst items) ->
    exists st' : client_state,
      apply_fields team userId items acc st
      = (Ok (match items with [] => acc | _ => Some m end), st', [])
      /\ (forall key val, In (key, val) items ->
            attr_of (objects st') m key = Some (VJson val))
      /\ (forall r name, r <> m \/ ~ In name (map fst items) ->
            attr_of (objects st') r name = attr_of (objects st) r name)
      /\ (forall tk' k', member_at st' tk' k' = member_at st tk' k')
      /\ _teams st' = _teams st
      /\ length (objects st') = length (objects st).
Proof.
  induction items as [|[key0 val0] items IH];
    intros team m userId tv mid tk k acc st Atv Htv Hk Hm Amid Hmid Amt Nid Nteam Du ND.
  - exists st. cbn [apply_fields]. split; [reflexivity|].
    split; [intros key val []|]. repeat split; reflexivity.
  - cbn [map fst] in Nid, Nteam, ND, Du. cbn [forallb] in Du.
    apply andb_true_iff in Du. destruct Du as [Du0 Du]. apply negb_true_iff in Du0.
    assert (K1 : key0 <> "id") by (intro X; apply Nid; left; exact X).
    assert (K2 : key0 <> "team") by (intro X; apply Nteam; left; exact X).
    assert (Nid' : ~ In "id" (map fst items)) by (intro X; apply Nid; right; exact X).
    assert (Nteam' : ~ In "team" (map fst items)) by (intro X; apply Nteam; right; exact X).
    inversion ND as [|x l Nin ND']. subst x l.
    assert (Eo : exists o : obj, nth_error (objects st) m = Some o).
    { unfold attr_of in Amid. destruct (nth_error (objects st) m) as [o|]; [|discriminate].
      exists o. reflexivity. }
    destruct Eo as (o & Eo).
    set (st1 := with_objects
                  (heap_update m (PyDict.set String.eqb key0 (VJson val0) o) (objects st)) st).
    assert (A1 : forall r name,
               attr_of (objects st1) r name
               = if Nat.eqb m r && String.eqb key0 name then Some (VJson val0)
                 else attr_of (objects st) r name).
    { intros r name. unfold st1. cbn [objects with_objects].
      apply attr_of_heap_update. exact Eo. }
    assert (F1 : forall r name, name <> key0 ->
               attr_of (objects st1) r name = attr_of (objects st) r name).
    { intros r name N. rewrite A1. destruct (String.eqb_spec key0 name) as [X|_].
      - symmetry in X. contradiction.
      - rewrite andb_false_r. reflexivity. }
    assert (L1 : length (objects st1) = length (objects st)).
    { unfold st1. cbn [objects with_objects]. clear - Eo.
      revert Eo. generalize (objects st). generalize (PyDict.set String.eqb key0 (VJson val0) o).
      induction m as [|m IHm]; intros o' [|x h] E; try discriminate; cbn in *.
      - reflexivity.
      - f_equal. apply IHm. exact E. }
    assert (Atv1 : attr_of (objects st1) team "id" = Some tv)
      by (rewrite F1 by congruence; exact Atv).
    assert (Amid1 : attr_of (objects st1) m "id" = Some mid)
      by (rewrite F1 by congruence; exact Amid).
    assert (Amt1 : attr_of (objects st1) m "team" = Some (VRef team))
      by (rewrite F1 by congruence; exact Amt).
    destruct (add_to_member_cache_ok m team tv mid tk k st1 Amt1 Atv1 Htv Amid1 Hmid)
      as (st2 & R & O2 & T2 & _ & _ & L2).
    assert (M2 : forall tk' k', member_at st2 tk' k' = member_at st tk' k').
    { intros tk' k'. rewrite L2.
      destruct (key_eqb tk tk' && key_eqb k k') eqn:E.
      - apply andb_true_iff in E. destruct E as [E1 E2].
        apply key_eqb_eq in E1, E2. subst tk' k'. symmetry. exact Hm.
      - reflexivity. }
    assert (Atv2 : attr_of (objects st2) team "id" = Some tv) by (rewrite O2; exact Atv1).
    assert (Amid2 : attr_of (objects st2) m "id" = Some mid) by (rewrite O2; exact Amid1).
    assert (Amt2 : attr_of (objects st2) m "team" = Some (VRef team))
      by (rewrite O2; exact Amt1).
    assert (Hm2 : member_at st2 tk k = Some m) by (rewrite M2; exact Hm).
    destruct (IH team m userId tv mid tk k (Some m) st2
                Atv2 Htv Hk Hm2 Amid2 Hmid Amt2 Nid' Nteam' Du ND')
      as (st3 & R3 & Set3 & Frame3 & M3 & T3 & Len3).
    exists st3. split; [|split; [|split; [|split; [|split]]]].
    + cbn [apply_fields].
      unfold mbind at 1. rewrite (get_member_ok team (VJson userId) tv tk k st Atv Htv Hk), Hm.
      unfold mbind at 1. rewrite (setattr_ok m key0 (VJson val0) st o Du0 Eo). fold st1.
      unfold mbind at 1. rewrite R. cbn [app]. rewrite R3.
      destruct items; reflexivity.
    + intros key val [E|I].
      * injection E as <- <-. rewrite (Frame3 m key0 (or_intror Nin)), O2, A1.
        rewrite Nat.eqb_refl, String.eqb_refl. reflexivity.
      * apply (Set3 key val I).
    + intros r name N.
      assert (N3 : r <> m \/ ~ In name (map fst items)).
      { destruct N as [N|N]; [left; exact N|]. right. intro X. apply N. right. exact X. }
      rewrite (Frame3 r name N3), O2, A1.
      destruct (Nat.eqb_spec m r) as [X|_]; [|reflexivity].
      destruct (String.eqb_spec key0 name) as [Y|_]; [|reflexivity].
      exfalso. destruct N as [N|N]; [apply N; symmetry; exact X|].
      apply N. left. exact Y.
    + intros tk' k'. rewrite M3. apply M2.
    + rewrite T3. exact T2.
    + rewrite Len3, O2. exact L1.
Qed.

Section Profile.
Variable Member : json -> obj.

(** X30.  The handler of the profile update at work.  The payload names
    a cached team and a member cached for it under its own id, and its
    [userInfo] is a dict that is not empty and has neither [id] nor
    [team] nor a name of the form [__x__] among its keys, each key once.
    Then the handler returns;
    every field of [userInfo] is the value of the attribute of that name
    on the cached member; no other attribute of an object that existed
    changes; the caches answer as before; and the events are the raw
    update for the new raw member, then one [member_update] for the
    cached member, dispatched after all fields were applied. *)
Theorem TeamMemberUpdated_applies_every_field :
  forall (d items : list (string * json)) (teamId userId : json)
         (tk0 tk k : key) (team m : ref) (tv mid : value) (st : client_state),
    dict_get "teamId" d = Some teamId ->
    hash (VJson teamId) = Ok tk0 ->
    PyDict.get key_eqb tk0 (_teams st) = Some team ->
    attr_of (objects st) team "id" = Some tv ->
    hash tv = Ok tk ->
    dict_get "userId" d = Some userId ->
    hash (VJson userId) = Ok k ->
    member_at st tk k = Some m ->
    attr_of (objects st) m "id" = Some mid ->
    hash mid = Ok k ->
    attr_of (objects st) m "team" = Some (VRef team) ->
    dict_get "userInfo" d = Some (JObj items) ->
    items <> [] ->
    ~ In "id" (map fst items) ->
    ~ In "team" (map fst items) ->
    forallb (fun key => negb (dunder key)) (map fst items) = true ->
    NoDup (map fst items) ->
    exists st' : client_state,
      TeamMemberUpdated Member (JObj d) st
      = (Ok tt, st',
         [Dispatch "raw_member_update" [VRef (length (objects st))]
            (objects st ++ [Member (JObj d)])%list;
          Dispatch "member_update" [VRef m; VRef m] (objects st')])
      /\ (forall key val, In (key, val) items ->
            attr_of (objects st') m key = Some (VJson val))
      /\ (forall r name,
            (r < length (objects st))%nat ->
            r <> m \/ ~ In name (map fst items) ->
            attr_of (objects st') r name = attr_of (objects st) r name)
      /\ (forall name,
            attr_of (objects st') (length (objects st)) name
            = PyDict.get String.eqb name (Member (JObj d)))
      /\ (forall tk' k', member_at st' tk' k' = member_at st tk' k')
      /\ _teams st' = _teams st.
Proof.
  intros d items teamId userId tk0 tk k team m tv mid st
         Ht Htk0 Gt Atv Htv Hu Hk Hm Amid Hmid Amt Hi NE Nid Nteam Du ND.
  set (st0 := with_objects (objects st ++ [Member (JObj d)])%list st).
  assert (Lt : forall r name v, attr_of (objects st) r name = Some v ->
                                (r < length (objects st))%nat).
  { intros r name v A. unfold attr_of in A. apply nth_error_Some. intro X.
    rewrite X in A. discriminate. }
  assert (A0 : forall r name, (r < length (objects st))%nat ->
                              attr_of (objects st0) r name = attr_of (objects st) r name).
  { intros r name L. unfold st0. cbn [objects with_objects]. apply attr_of_app. exact L. }
  assert (Atv0 : attr_of (objects st0) team "id" = Some tv)
    by (rewrite A0 by (eapply Lt; exact Atv); exact Atv).
  assert (Amid0 : attr_of (objects st0) m "id" = Some mid)
    by (rewrite A0 by (eapply Lt; exact Amid); exact Amid).
  assert (Amt0 : attr_of (objects st0) m "team" = Some (VRef team))
    by (rewrite A0 by (eapply Lt; exact Amid); exact Amt).
  assert (Hm0 : member_at st0 tk k = Some m) by exact Hm.
  destruct (apply_fields_ok items team m userId tv mid tk k None st0
              Atv0 Htv Hk Hm0 Amid0 Hmid Amt0 Nid Nteam Du ND)
    as (st1 & R & Set1 & Frame1 & M1 & T1 & Len1).
  exists st1. split; [|split; [|split; [|split; [|split]]]].
  - unfold TeamMemberUpdated.
    unfold mbind at 1, new at 1. unfold mbind at 1, dispatch at 1. fold st0.
    unfold mbind at 1, lift at 1. cbn [py_getitem]. rewrite Ht.
    unfold mbind at 1. rewrite (get_team_ok (VJson teamId) tk0 st0 Htk0).
    change (_teams st0) with (_teams st). rewrite Gt.
    unfold mbind at 1, lift at 1. rewrite Hu.
    unfold mbind at 1.
    rewrite (get_member_ok team (VJson userId) tv tk k st0 Atv0 Htv Hk), Hm0.
    unfold mbind at 1, lift at 1. rewrite Hi.
    unfold mbind at 1, lift at 1. cbn [py_items].
    unfold mbind at 1. rewrite R.
    destruct items as [|i items]; [contradiction|].
    unfold dispatch. reflexivity.
  - exact Set1.
  - intros r name L N. rewrite (Frame1 r name N). apply A0. exact L.
  - intro name.
    assert (N : length (objects st) <> m) by (apply Lt in Amid; lia).
    rewrite (Frame1 (length (objects st)) name (or_introl N)).
    unfold st0, attr_of. cbn [objects with_objects].
    rewrite nth_error_app2 by lia. rewrite Nat.sub_diag. reflexivity.
  - intros tk' k'. rewrite M1. reflexivity.
  - rewrite T1. reflexivity.
Qed.

End Profile.

Lemma TeamMemberUpdated_applies_every_field_witness :
  exists st' : client_state,
    TeamMemberUpdated Sample.Member
      (Sample.profile_data [("nickname", JStr "Neo"); ("xp", JInt 9)]) Sample.one_member
    = (Ok tt, st',
       [Dispatch "raw_member_update" [VRef 2%nat]
          (objects Sample.one_member
             ++ [Sample.Member
                   (Sample.profile_data [("nickname", JStr "Neo"); ("xp", JInt 9)])])%list;
        Dispatch "member_update" [VRef 1%nat; VRef 1%nat] (objects st')])
    /\ attr_of (objects st') 1%nat "nickname" = Some (VJson (JStr "Neo"))
    /\ attr_of (objects st') 1%nat "xp" = Some (VJson (JInt 9)).
Proof.
  destruct (TeamMemberUpdated_applies_every_field Sample.Member
              [("teamId", JStr "t1"); ("userId", JStr "u1");
               ("userInfo", JObj [("nickname", JStr "Neo"); ("xp", JInt 9)])]
              [("nickname", JStr "Neo"); ("xp", JInt 9)]
              (JStr "t1") (JStr "u1") (KStr "t1") (KStr "t1") (KStr "u1") 0%nat 1%nat
              (VJson (JStr "t1")) (VJson (JStr "u1")) Sample.one_member)
    as (st' & R & Set' & _); try reflexivity.
  - discriminate.
  - cbn. intros [X|[X|[]]]; discriminate.
  - cbn. intros [X|[X|[]]]; discriminate.
  - repeat constructor; cbn; intuition discriminate.
  - exists st'. split; [exact R|]. split; apply Set'; cbn; auto.
Defined.

End ProfileMore.
